(** * Membership and payment ledger of the gym management system

    A shallow embedding of the ledger code of [main.py] and of the schema of
    [db.py]: the two SQLite tables, the member life cycle
    ([save_member], [update_member], [delete_member], [update_total_fees]),
    the payment ledger ([search_member], [record_payment]) and the report
    queries ([generate_payment_report], [generate_expired_report]); then the
    listings and lookups of the tabs ([load_members], [load_view_tab],
    [load_payment_history], the buttons of the search results), the report tab
    ([generate_report], [export_report]) and [get_available_months].

    Conventions of the embedding.
    - A table is the list of its rows in rowid order.  A statement is a
      function on the tables that either returns the new tables or raises
      [sqlite3.IntegrityError]; the constraints of [db.py] are checked the
      way SQLite checks them.
    - The application holds one connection.  [conn] is what the connection
      sees (its uncommitted changes included) and [disk] is what was last
      committed; [self.conn.commit()] copies the first onto the second.
    - Python [float] and SQLite [REAL] are IEEE binary64: the primitive
      floats of Rocq.  Python's [==], [!=] and [<=] on them are [PrimFloat.eqb]
      and [PrimFloat.leb].
    - Text is [string]; the regular expressions are matched on ASCII digits.
    - Widgets are not modelled: a handler takes the values it reads from its
      widgets as arguments (already stripped where the code strips them) and
      returns the message it shows together with the new state. *)

From Stdlib Require Import ZArith String Ascii List Bool Floats Lia OrderedTypeEx.
From stdpp Require Import base gmap strings sorting.
Import ListNotations.

Local Open Scope string_scope.
Local Open Scope Z_scope.

(** ** Python text helpers *)

(** [\d] on an ASCII character. *)
Definition is_digit (c : ascii) : bool :=
  let n := N_of_ascii c in ((48 <=? n) && (n <=? 57))%N.

Definition chars (s : string) : list ascii := list_ascii_of_string s.

(** [$] in a Python pattern matches at the end of the text and also just
    before a newline that ends the text: [chomp] removes that newline. *)
Definition newline : ascii := ascii_of_N 10.

Fixpoint chomp (l : list ascii) : list ascii :=
  match l with
  | [] => []
  | [c] => if Ascii.eqb c newline then [] else [c]
  | c :: rest => c :: chomp rest
  end.

(** [re.match(r'^\d{lo,hi}$', s)], with [hi = None] for an open range. *)
Definition re_digits (lo : nat) (hi : option nat) (s : string) : bool :=
  let body := chomp (chars s) in
  forallb is_digit body
  && (lo <=? List.length body)%nat
  && match hi with Some h => (List.length body <=? h)%nat | None => true end.

(** [re.match(r'^\d{4}-\d{2}$', month)] *)
Definition re_month (s : string) : bool :=
  match chomp (chars s) with
  | [y1; y2; y3; y4; dash; m1; m2] =>
      forallb is_digit [y1; y2; y3; y4; m1; m2] && Ascii.eqb dash "-"%char
  | _ => false
  end.

(** Truth value of a Python string. *)
Definition nonempty (s : string) : bool :=
  match s with EmptyString => false | _ => true end.

(** [s or None] *)
Definition or_None (s : string) : option string :=
  if nonempty s then Some s else None.

(** Value of a run of ASCII digits, most significant first. *)
Definition digit_val (c : ascii) : Z := Z.of_N (N_of_ascii c) - 48.

Definition digits_val (l : list ascii) : Z :=
  fold_left (fun acc c => 10 * acc + digit_val c) l 0.

(** ** Dates *)

Definition is_leap (y : Z) : bool :=
  ((y mod 4 =? 0) && negb (y mod 100 =? 0)) || (y mod 400 =? 0).

Definition days_in_month (y m : Z) : Z :=
  if (m =? 2) then (if is_leap y then 29 else 28)
  else if (m =? 4) || (m =? 6) || (m =? 9) || (m =? 11) then 30
  else 31.

(** What the constructor of [datetime.datetime] accepts for a day. *)
Definition valid_ymd (y m d : Z) : bool :=
  (1 <=? y) && (y <=? 9999) && (1 <=? m) && (m <=? 12)
  && (1 <=? d) && (d <=? days_in_month y m).

(** The directive [%m] of [strptime] is the pattern [1[0-2]|0[1-9]|[1-9]];
    in the format ["%Y-%m-%d"] it is followed by a dash, which decides between
    the alternatives.  The result is the month and the text after the dash. *)
Definition strptime_month (l : list ascii) : option (Z * list ascii) :=
  match l with
  | a :: b :: dash :: rest =>
      if Ascii.eqb dash "-"%char && is_digit a && is_digit b
         && ((Ascii.eqb a "1" && (N_of_ascii b <=? 50)%N)
             || (Ascii.eqb a "0" && negb (Ascii.eqb b "0")))
      then Some (digits_val [a; b], rest)
      else if Ascii.eqb b "-"%char && is_digit a && negb (Ascii.eqb a "0")
      then Some (digit_val a, dash :: rest)
      else None
  | [a; dash] =>
      if Ascii.eqb dash "-"%char && is_digit a && negb (Ascii.eqb a "0")
      then Some (digit_val a, []) else None
  | _ => None
  end.

(** The directive [%d] is [3[01]|[12]\d|0[1-9]|[1-9]| [1-9]], tried in this
    order at the end of the pattern; text left over after the first
    alternative that matches makes [strptime] raise. *)
Definition strptime_day (l : list ascii) : option Z :=
  match l with
  | a :: b :: rest =>
      if (Ascii.eqb a "3" && (Ascii.eqb b "0" || Ascii.eqb b "1"))
         || ((Ascii.eqb a "1" || Ascii.eqb a "2") && is_digit b)
         || (Ascii.eqb a "0" && is_digit b && negb (Ascii.eqb b "0"))
      then match rest with [] => Some (digits_val [a; b]) | _ => None end
      else if Ascii.eqb a " " && is_digit b && negb (Ascii.eqb b "0")
      then match rest with [] => Some (digit_val b) | _ => None end
      else None
  | [a] => if is_digit a && negb (Ascii.eqb a "0") then Some (digit_val a) else None
  | [] => None
  end.

(** [datetime.strptime(s, "%Y-%m-%d")]: [None] stands for [ValueError]. *)
Definition strptime (s : string) : option (Z * Z * Z) :=
  match chars s with
  | y1 :: y2 :: y3 :: y4 :: dash :: rest =>
      if forallb is_digit [y1; y2; y3; y4] && Ascii.eqb dash "-"%char then
        match strptime_month rest with
        | Some (m, rest') =>
            match strptime_day rest' with
            | Some d =>
                let y := digits_val [y1; y2; y3; y4] in
                if valid_ymd y m d then Some (y, m, d) else None
            | None => None
            end
        | None => None
        end
      else None
  | _ => None
  end.

(** [validate_date] *)
Definition validate_date (date_str : string) : bool :=
  match strptime date_str with Some _ => true | None => false end.

(** A reading of the clock, [datetime.now()]. *)
Record datetime := {
  dt_year : Z; dt_month : Z; dt_day : Z;
  dt_hour : Z; dt_minute : Z; dt_second : Z
}.

Definition digit_char (d : Z) : ascii := ascii_of_N (Z.to_N (48 + d mod 10)).

Definition pad2 (n : Z) : string :=
  String (digit_char (n / 10)) (String (digit_char n) EmptyString).

(** A year in four digits, as a text of the form YYYY-MM carries it. *)
Definition pad4 (n : Z) : string := pad2 (n / 100) ++ pad2 n.

(** [%Y] of [strftime], which CPython leaves to the C library: glibc renders
    the year without padding, in four digits from the year 1000 on and in
    fewer before ([datetime(999, 6, 1).strftime("%Y")] is ["999"]). *)
Definition strftime_Y (y : Z) : string :=
  if 1000 <=? y then pad4 y
  else if 100 <=? y then String (digit_char (y / 100)) (pad2 y)
  else if 10 <=? y then pad2 y
  else String (digit_char y) EmptyString.

(** [strftime("%Y-%m-%d")] *)
Definition strftime_date (y m d : Z) : string :=
  strftime_Y y ++ "-" ++ pad2 m ++ "-" ++ pad2 d.

(** [now.strftime("%Y-%m-%d")] and [now.strftime("%Y-%m-%d %H:%M:%S")] *)
Definition today (now : datetime) : string :=
  strftime_date (dt_year now) (dt_month now) (dt_day now).

Definition timestamp (now : datetime) : string :=
  today now ++ " " ++ pad2 (dt_hour now) ++ ":" ++ pad2 (dt_minute now)
            ++ ":" ++ pad2 (dt_second now).

(** ** The schema of [db.py] *)

Module Member.
(** A row of [members].  [has_treadmill] and [is_active] hold 0 or 1 and
    are only ever tested for truth; the nullable columns are options. *)
Record row := mk {
  user_id : string;
  name : string;
  contact : string;
  cnic : string;
  location : option string;
  designation : option string;
  join_date : string;
  expiry_date : string;
  sport_category : string;
  membership_type : string;
  has_treadmill : bool;
  base_fee : float;
  total_fee : float;
  is_active : bool;
  updated_at : string;
  photo_path : option string
}.
End Member.

Module Payment.
(** A row of [payments]; [period] is NULL ([None]) for a 30-day plan. *)
Record row := mk {
  id : Z;
  user_id : string;
  amount : float;
  payment_date : string;
  month : string;
  period : option string;
  updated_at : string
}.
End Payment.

(** The two tables, and the counter that [AUTOINCREMENT] keeps for
    [payments.id]. *)
Record database := {
  members : list Member.row;
  payments : list Payment.row;
  payments_seq : Z
}.

(** [initialize_database] on a fresh file. *)
Definition initialize_database : database :=
  {| members := []; payments := []; payments_seq := 0 |}.

(** The outcome of a statement: the new table, or [sqlite3.IntegrityError]
    with the statement undone. *)
Inductive sql (A : Type) : Type :=
| Ok (a : A)
| IntegrityError.
Arguments Ok {A} a.
Arguments IntegrityError {A}.

(** [CHECK(membership_type IN ('15-day', '30-day'))] *)
Definition check_membership_type (t : string) : bool :=
  String.eqb t "15-day" || String.eqb t "30-day".

(** A NaN bound to a statement is stored as NULL, which [REAL NOT NULL]
    refuses. *)
Definition real_not_null (x : float) : bool := negb (PrimFloat.is_nan x).

(** The constraints of [members] that concern one row. *)
Definition member_row_ok (r : Member.row) : bool :=
  check_membership_type (Member.membership_type r)
  && real_not_null (Member.base_fee r) && real_not_null (Member.total_fee r).

(** [user_id TEXT PRIMARY KEY] and [cnic TEXT UNIQUE]: does [r] collide with
    a row of [others]? *)
Definition member_key_taken (r : Member.row) (others : list Member.row) : bool :=
  existsb (fun o => String.eqb (Member.user_id o) (Member.user_id r)
                    || String.eqb (Member.cnic o) (Member.cnic r)) others.

(** [INSERT INTO members ...] *)
Definition insert_member (r : Member.row) (t : list Member.row)
  : sql (list Member.row) :=
  if member_row_ok r && negb (member_key_taken r t)
  then Ok (t ++ [r])%list else IntegrityError.

(** A key of the old row that the new row keeps cannot collide; one that
    changes is looked up among the other rows. *)
Definition member_key_clash (old new : Member.row) (others : list Member.row) : bool :=
  (negb (String.eqb (Member.user_id new) (Member.user_id old))
   && existsb (fun o => String.eqb (Member.user_id o) (Member.user_id new)) others)
  || (negb (String.eqb (Member.cnic new) (Member.cnic old))
      && existsb (fun o => String.eqb (Member.cnic o) (Member.cnic new)) others).

(** [UPDATE members SET ... WHERE ...]: the rows are visited in order, [done]
    holding those already visited; a row that matches [where_] is replaced by
    [set r] unless that breaks a constraint, which undoes the statement. *)
Fixpoint update_members_from (where_ : Member.row -> bool)
    (set : Member.row -> Member.row) (done todo : list Member.row)
  : sql (list Member.row) :=
  match todo with
  | [] => Ok done
  | r :: rest =>
      if where_ r then
        let r' := set r in
        if member_row_ok r' && negb (member_key_clash r r' (done ++ rest)%list)
        then update_members_from where_ set (done ++ [r'])%list rest
        else IntegrityError
      else update_members_from where_ set (done ++ [r])%list rest
  end.

Definition update_members (where_ : Member.row -> bool)
    (set : Member.row -> Member.row) (t : list Member.row)
  : sql (list Member.row) :=
  update_members_from where_ set [] t.

(** [UNIQUE(user_id, month, period)]: SQLite treats NULLs as distinct from
    one another in a UNIQUE constraint, so a row whose [period] is NULL
    never collides. *)
Definition payment_key_taken (uid mon : string) (per : option string)
    (t : list Payment.row) : bool :=
  match per with
  | None => false
  | Some x =>
      existsb (fun p => String.eqb (Payment.user_id p) uid
                        && String.eqb (Payment.month p) mon
                        && match Payment.period p with
                           | Some y => String.eqb y x
                           | None => false
                           end) t
  end.

(** [INSERT INTO payments (user_id, amount, payment_date, month, period,
    updated_at) VALUES (...)].  The foreign key on [user_id] is declared but
    not enforced: the connection never turns [foreign_keys] on. *)
Definition insert_payment (uid : string) (amt : float) (date mon : string)
    (per : option string) (stamp : string) (db : database) : sql database :=
  if real_not_null amt && negb (payment_key_taken uid mon per (payments db))
  then
    let new_id := payments_seq db + 1 in
    Ok {| members := members db;
          payments := (payments db ++
            [ {| Payment.id := new_id; Payment.user_id := uid;
                 Payment.amount := amt; Payment.payment_date := date;
                 Payment.month := mon; Payment.period := per;
                 Payment.updated_at := stamp |} ])%list;
          payments_seq := new_id |}
  else IntegrityError.

(** ** The application state *)

(** [disk] is the committed database, [conn] the database as the one
    connection sees it, [current_member] the row that [search_member] bound
    ([None] when the attribute is not set). *)
Record app := {
  disk : database;
  conn : database;
  current_member : option Member.row
}.

(** [self.conn.commit()] *)
Definition commit (db : database) (cm : option Member.row) : app :=
  {| disk := db; conn := db; current_member := cm |}.

(** The connection's view replaced, nothing committed. *)
Definition pending (st : app) (db : database) : app :=
  {| disk := disk st; conn := db; current_member := current_member st |}.

Definition with_members (db : database) (t : list Member.row) : database :=
  {| members := t; payments := payments db; payments_seq := payments_seq db |}.

(** The text of a numeric entry, as [float()] reads it: [Blank] is the empty
    text and [NotANumber] any other text that makes [float()] raise
    [ValueError]. *)
Inductive float_text :=
| Blank
| NotANumber
| Number (x : float).

(** What the handlers answer.  A warning names the check that refused the
    input; the other constructors are the [except] clauses. *)
Inductive warning :=
| RequiredMissing | BadUserId | BadCnic | BadContact | BadDate
| NoSport | NoMembership | BadBaseFee | BadPhotoType | NoSelection.

Inductive member_result :=
| Success
| ValidationError (w : warning)
| DuplicateKeyError
| Failure.

(** ** Member life cycle *)

Definition validate_cnic (cnic : string) : bool := re_digits 13 (Some 13%nat) cnic.
Definition validate_contact (contact : string) : bool := re_digits 10 (Some 15%nat) contact.
Definition validate_user_id (user_id : string) : bool := re_digits 1 None user_id.

(** The member form: the stripped texts of [member_entries], the three
    variables of the form, and the extension (lower-cased, with its dot) of
    the photo selected, if any. *)
Record member_form := {
  f_user_id : string;
  f_name : string;
  f_contact : string;
  f_cnic : string;
  f_location : string;
  f_designation : string;
  f_join_date : string;
  f_expiry_date : string;
  f_base_fee : float_text;
  sport_var : string;
  membership_var : string;
  treadmill_var : bool;
  photo_ext : option string
}.

Definition treadmill_surcharge (has_treadmill : bool) : float :=
  if has_treadmill then 400%float else 0%float.

(** [base_fee + (400 if has_treadmill else 0)] *)
Definition fee_formula (base_fee : float) (has_treadmill : bool) : float :=
  (base_fee + treadmill_surcharge has_treadmill)%float.

(** The checks that [save_member] and [update_member] share, in the order of
    the code; the result is the base fee read from the form. *)
Definition validate_form (f : member_form) : warning + float :=
  if negb (nonempty (f_user_id f) && nonempty (f_name f) && nonempty (f_contact f)
           && nonempty (f_cnic f) && nonempty (f_join_date f)
           && match f_base_fee f with Blank => false | _ => true end
           && nonempty (f_expiry_date f))
  then inl RequiredMissing
  else if negb (validate_user_id (f_user_id f)) then inl BadUserId
  else if negb (validate_cnic (f_cnic f)) then inl BadCnic
  else if negb (validate_contact (f_contact f)) then inl BadContact
  else if negb (validate_date (f_join_date f)) || negb (validate_date (f_expiry_date f))
  then inl BadDate
  else if negb (nonempty (sport_var f)) then inl NoSport
  else if negb (nonempty (membership_var f)) then inl NoMembership
  else match f_base_fee f with
       | Number base_fee => if (base_fee <=? 0)%float then inl BadBaseFee else inr base_fee
       | _ => inl BadBaseFee
       end.

Definition photo_type_ok (ext : string) : bool :=
  String.eqb ext ".jpg" || String.eqb ext ".png".

(** [os.path.join('photos', f"member_{user_id}{ext}")] *)
Definition photo_file (user_id ext : string) : string :=
  "photos/member_" ++ user_id ++ ext.

(** The row that the form describes. *)
Definition form_row (f : member_form) (base_fee total_fee : float)
    (active : bool) (stamp : string) (photo : option string) : Member.row :=
  {| Member.user_id := f_user_id f; Member.name := f_name f;
     Member.contact := f_contact f; Member.cnic := f_cnic f;
     Member.location := or_None (f_location f);
     Member.designation := or_None (f_designation f);
     Member.join_date := f_join_date f; Member.expiry_date := f_expiry_date f;
     Member.sport_category := sport_var f;
     Member.membership_type := membership_var f;
     Member.has_treadmill := treadmill_var f;
     Member.base_fee := base_fee; Member.total_fee := total_fee;
     Member.is_active := active; Member.updated_at := stamp;
     Member.photo_path := photo |}.

(** [save_member]; storing the image itself is left to the asset store. *)
Definition save_member (f : member_form) (now : datetime) (st : app)
  : member_result * app :=
  match validate_form f with
  | inl w => (ValidationError w, st)
  | inr base_fee =>
      let total_fee := fee_formula base_fee (treadmill_var f) in
      match (match photo_ext f with
             | Some ext => if photo_type_ok ext
                           then inr (Some (photo_file (f_user_id f) ext))
                           else inl BadPhotoType
             | None => inr None
             end) with
      | inl w => (ValidationError w, st)
      | inr photo_path =>
          match insert_member (form_row f base_fee total_fee true (timestamp now) photo_path)
                              (members (conn st)) with
          | Ok t => (Success, commit (with_members (conn st) t) (current_member st))
          | IntegrityError => (DuplicateKeyError, st)
          end
      end
  end.

(** [SELECT ... FROM members WHERE user_id=?] followed by [fetchone()] *)
Definition member_by_id (user_id : string) (t : list Member.row) : option Member.row :=
  find (fun r => String.eqb (Member.user_id r) user_id) t.

(** The [SET] clause of [update_member]: every column but [is_active]. *)
Definition set_from_form (f : member_form) (base_fee total_fee : float)
    (stamp : string) (photo : option string) (r : Member.row) : Member.row :=
  form_row f base_fee total_fee (Member.is_active r) stamp photo.

(** [update_member]; [selected] is the user id of the row in focus in the
    members list, [None] when no row is in focus. *)
Definition update_member (selected : option string) (f : member_form)
    (now : datetime) (st : app) : member_result * app :=
  match selected with
  | None => (ValidationError NoSelection, st)
  | Some old_user_id =>
      match validate_form f with
      | inl w => (ValidationError w, st)
      | inr base_fee =>
          let total_fee := fee_formula base_fee (treadmill_var f) in
          match member_by_id old_user_id (members (conn st)) with
          | None => (Failure, st)
          | Some old =>
              let old_photo := Member.photo_path old in
              match (match photo_ext f with
                     | Some ext => if photo_type_ok ext
                                   then inr (Some (photo_file (f_user_id f) ext))
                                   else inl BadPhotoType
                     | None => inr old_photo
                     end) with
              | inl w => (ValidationError w, st)
              | inr photo_path =>
                  match update_members
                          (fun r => String.eqb (Member.user_id r) old_user_id
                                    && Member.is_active r)
                          (set_from_form f base_fee total_fee (timestamp now) photo_path)
                          (members (conn st)) with
                  | Ok t => (Success, commit (with_members (conn st) t) (current_member st))
                  | IntegrityError => (DuplicateKeyError, st)
                  end
              end
          end
      end
  end.

Definition set_inactive (stamp : string) (r : Member.row) : Member.row :=
  {| Member.user_id := Member.user_id r; Member.name := Member.name r;
     Member.contact := Member.contact r; Member.cnic := Member.cnic r;
     Member.location := Member.location r; Member.designation := Member.designation r;
     Member.join_date := Member.join_date r; Member.expiry_date := Member.expiry_date r;
     Member.sport_category := Member.sport_category r;
     Member.membership_type := Member.membership_type r;
     Member.has_treadmill := Member.has_treadmill r;
     Member.base_fee := Member.base_fee r; Member.total_fee := Member.total_fee r;
     Member.is_active := false; Member.updated_at := stamp;
     Member.photo_path := Member.photo_path r |}.

(** [delete_member], once the dialog is confirmed. *)
Definition delete_member (selected : option string) (now : datetime) (st : app)
  : member_result * app :=
  match selected with
  | None => (ValidationError NoSelection, st)
  | Some user_id =>
      match member_by_id user_id (members (conn st)) with
      | None => (Failure, st)
      | Some _ =>
          match update_members (fun r => String.eqb (Member.user_id r) user_id)
                               (set_inactive (timestamp now)) (members (conn st)) with
          | Ok t => (Success, commit (with_members (conn st) t) (current_member st))
          | IntegrityError => (Failure, st)
          end
      end
  end.

Definition set_total_fee (fee : float) (stamp : string) (r : Member.row) : Member.row :=
  {| Member.user_id := Member.user_id r; Member.name := Member.name r;
     Member.contact := Member.contact r; Member.cnic := Member.cnic r;
     Member.location := Member.location r; Member.designation := Member.designation r;
     Member.join_date := Member.join_date r; Member.expiry_date := Member.expiry_date r;
     Member.sport_category := Member.sport_category r;
     Member.membership_type := Member.membership_type r;
     Member.has_treadmill := Member.has_treadmill r;
     Member.base_fee := Member.base_fee r; Member.total_fee := fee;
     Member.is_active := Member.is_active r; Member.updated_at := stamp;
     Member.photo_path := Member.photo_path r |}.

(** The loop of [update_total_fees] over the rows fetched at its start.
    [false] reports that a statement raised, which ends the loop. *)
Fixpoint reconcile_rows (fetched : list Member.row) (stamp : string)
    (t : list Member.row) : bool * list Member.row :=
  match fetched with
  | [] => (true, t)
  | member :: rest =>
      let expected_fee := fee_formula (Member.base_fee member) (Member.has_treadmill member) in
      if negb (Member.total_fee member =? expected_fee)%float then
        match update_members (fun r => String.eqb (Member.user_id r) (Member.user_id member))
                             (set_total_fee expected_fee stamp) t with
        | Ok t' => reconcile_rows rest stamp t'
        | IntegrityError => (false, t)
        end
      else reconcile_rows rest stamp t
  end.

(** [update_total_fees]: the pass commits when the loop ends normally; when
    a statement raises, the error is logged and what the loop wrote so far
    stays uncommitted on the connection. *)
Definition update_total_fees (now : datetime) (st : app) : bool * app :=
  match reconcile_rows (members (conn st)) (timestamp now) (members (conn st)) with
  | (true, t) => (true, commit (with_members (conn st) t) (current_member st))
  | (false, t) => (false, pending st (with_members (conn st) t))
  end.

(** ** Member search *)

(** The columns that [search_members] selects. *)
Definition shown (r : Member.row) : string * string * string * string :=
  (Member.user_id r, Member.name r, Member.cnic r, Member.membership_type r).

(** [search_members] of the member tab: the columns shown for each row found
    ([user_id], [name], [cnic], [membership_type]); [None] is the warning for
    an empty search text. *)
Definition search_members (search_value : string) (st : app)
  : option (list (string * string * string * string)) :=
  if negb (nonempty search_value) then None
  else
    let found :=
      if re_digits 1 None search_value
      then List.filter (fun r => String.eqb (Member.user_id r) search_value
                            && Member.is_active r) (members (conn st))
      else List.filter (fun r => String.eqb (Member.cnic r) search_value
                            && Member.is_active r) (members (conn st)) in
    Some (map shown found).

(** [search_member] of the payment tab: [fetchone()] on
    [WHERE (user_id=? OR cnic=?) AND is_active=1].  A member found is bound
    as [current_member]; otherwise the attribute is left as it was.  When
    the text is the user id of one active member and the CNIC of another, the
    query has two rows and [fetchone()] takes the one SQLite produces first,
    here the first in table order; nothing below depends on that choice. *)
Definition search_member (search_value : string) (st : app) : option Member.row * app :=
  if negb (nonempty search_value) then (None, st)
  else
    match find (fun r => (String.eqb (Member.user_id r) search_value
                          || String.eqb (Member.cnic r) search_value)
                         && Member.is_active r) (members (conn st)) with
    | Some member =>
        (Some member, {| disk := disk st; conn := conn st; current_member := Some member |})
    | None => (None, st)
    end.

(** ** Payment ledger *)

Inductive payment_warning := AmountNotPositive | BadMonth | NoMembershipType.

Inductive payment_result :=
| Recorded (period : option string)
| NoActiveMemberError
| PaymentValidationError (w : payment_warning)
| AmountMismatchError
| PeriodExhaustedError
| DuplicatePaymentError
| InvalidAmount.

Definition set_membership_type (membership_type stamp : string) (r : Member.row)
  : Member.row :=
  {| Member.user_id := Member.user_id r; Member.name := Member.name r;
     Member.contact := Member.contact r; Member.cnic := Member.cnic r;
     Member.location := Member.location r; Member.designation := Member.designation r;
     Member.join_date := Member.join_date r; Member.expiry_date := Member.expiry_date r;
     Member.sport_category := Member.sport_category r;
     Member.membership_type := membership_type;
     Member.has_treadmill := Member.has_treadmill r;
     Member.base_fee := Member.base_fee r; Member.total_fee := Member.total_fee r;
     Member.is_active := Member.is_active r; Member.updated_at := stamp;
     Member.photo_path := Member.photo_path r |}.

(** [SELECT period FROM payments WHERE user_id=? AND month=?] *)
Definition existing_periods (user_id month : string) (db : database)
  : list (option string) :=
  map Payment.period
      (List.filter (fun p => String.eqb (Payment.user_id p) user_id
                        && String.eqb (Payment.month p) month) (payments db)).

(** [x in existing_periods] for a text [x]. *)
Definition period_in (x : string) (l : list (option string)) : bool :=
  existsb (fun o => match o with Some y => String.eqb y x | None => false end) l.

(** The period a payment gets: [Some None] is the whole month, [None] the
    refusal of a third half-month payment. *)
Definition allocate_period (membership_type user_id month : string) (db : database)
  : option (option string) :=
  if String.eqb membership_type "15-day" then
    let existing := existing_periods user_id month db in
    if negb (period_in "first_half" existing) then Some (Some "first_half")
    else if negb (period_in "second_half" existing) then Some (Some "second_half")
    else None
  else Some None.

(** [record_payment]: [amount_entry] is the text of the amount entry, [month]
    the stripped month entry, [membership_type] the plan selected. *)
Definition record_payment (amount_entry : float_text) (month membership_type : string)
    (now : datetime) (st : app) : payment_result * app :=
  match current_member st with
  | None => (NoActiveMemberError, st)
  | Some member =>
      match amount_entry with
      | Number amount =>
          if (amount <=? 0)%float then (PaymentValidationError AmountNotPositive, st)
          else if negb (re_month month) then (PaymentValidationError BadMonth, st)
          else if negb (nonempty membership_type)
          then (PaymentValidationError NoMembershipType, st)
          else if negb (amount =? Member.total_fee member)%float
          then (AmountMismatchError, st)
          else
            let uid := Member.user_id member in
            match (if negb (String.eqb membership_type (Member.membership_type member))
                   then update_members (fun r => String.eqb (Member.user_id r) uid)
                                       (set_membership_type membership_type (timestamp now))
                                       (members (conn st))
                   else Ok (members (conn st))) with
            | IntegrityError => (DuplicatePaymentError, st)
            | Ok t =>
                let st1 := pending st (with_members (conn st) t) in
                match allocate_period membership_type uid month (conn st1) with
                | None => (PeriodExhaustedError, st1)
                | Some period =>
                    match insert_payment uid amount (today now) month period
                                         (timestamp now) (conn st1) with
                    | Ok db => (Recorded period, commit db None)
                    | IntegrityError => (DuplicatePaymentError, st1)
                    end
                end
            end
      | _ => (InvalidAmount, st)
      end
  end.

(** ** Reports *)

(** A row of a payment report, in the column order of the query. *)
Record report_row := {
  r_id : Z;
  r_user_id : string;
  r_name : string;
  r_cnic : string;
  r_contact : string;
  r_sport_category : string;
  r_membership_type : string;
  r_amount : float;
  r_payment_date : string;
  r_period : option string;
  r_has_treadmill : bool
}.

Definition joined (p : Payment.row) (m : Member.row) : report_row :=
  {| r_id := Payment.id p; r_user_id := Member.user_id m; r_name := Member.name m;
     r_cnic := Member.cnic m; r_contact := Member.contact m;
     r_sport_category := Member.sport_category m;
     r_membership_type := Member.membership_type m;
     r_amount := Payment.amount p; r_payment_date := Payment.payment_date p;
     r_period := Payment.period p; r_has_treadmill := Member.has_treadmill m |}.

(** The condition that the report kind adds to the query.  [sport] is [None]
    when no sport is passed, which the query compares as NULL. *)
Definition kind_predicate (report_type : string) (sport : option string)
    (m : Member.row) : bool :=
  if String.eqb report_type "30-Day Plan"
  then String.eqb (Member.membership_type m) "30-day"
  else if String.eqb report_type "15-Day Plan"
  then String.eqb (Member.membership_type m) "15-day"
  else if String.eqb report_type "Sport Category"
          && negb (match sport with Some s => String.eqb s "All" | None => false end)
  then match sport with
       | Some s => String.eqb (Member.sport_category m) s
       | None => false
       end
  else true.

(** [payments p JOIN members m ON p.user_id = m.user_id WHERE p.month = ?]
    and the condition of the kind.  The rows come in the order of a scan of
    [payments] that looks each member up by its key. *)
Definition payment_report_rows (report_type month : string) (sport : option string)
    (db : database) : list report_row :=
  flat_map
    (fun p =>
       if String.eqb (Payment.month p) month then
         map (joined p)
             (List.filter (fun m => String.eqb (Payment.user_id p) (Member.user_id m)
                               && kind_predicate report_type sport m) (members db))
       else [])
    (payments db).

(** The figures of the summary line. *)
Record summary := {
  total_revenue : float;
  payment_count : nat;
  member_count : nat
}.

(** [sum(row[7] for row in data)], added left to right from 0 (from
    Python 3.12 on [sum] compensates the rounding of float additions; the
    two agree whenever the additions are exact, as on whole amounts). *)
Definition sum_amounts (data : list report_row) : float :=
  fold_left (fun acc row => (acc + r_amount row)%float) data 0%float.

(** [len(set(row[1] for row in data))] *)
Definition count_members (data : list report_row) : nat :=
  size (list_to_set (map r_user_id data) : gset string).

Inductive report (R S : Type) :=
| NoData
| Report (data : list R) (sum : S).
Arguments NoData {R S}.
Arguments Report {R S} data sum.

(** [generate_payment_report] *)
Definition generate_payment_report (report_type month : string) (sport : option string)
    (st : app) : report report_row summary :=
  let data := payment_report_rows report_type month sport (conn st) in
  match data with
  | [] => NoData
  | _ =>
      Report data {| total_revenue := sum_amounts data;
                     payment_count := List.length data;
                     member_count := count_members data |}
  end.

(** [month.split('-')] *)
Fixpoint split_dash (l : list ascii) (cur : list ascii) : list (list ascii) :=
  match l with
  | [] => [cur]
  | c :: rest =>
      if Ascii.eqb c "-"%char then cur :: split_dash rest []
      else split_dash rest (cur ++ [c])%list
  end.

(** [int(s)] for a run of ASCII digits; [None] is [ValueError]. *)
Definition py_int (l : list ascii) : option Z :=
  match l with
  | [] => None
  | _ => if forallb is_digit l then Some (digits_val l) else None
  end.

(** The first day of the month after [month], as the report computes it;
    [None] when [int], the unpacking or [datetime] raises. *)
Definition next_month_start (month : string) : option string :=
  match split_dash (chars month) [] with
  | [ys; ms] =>
      match py_int ys, py_int ms with
      | Some year, Some mon =>
          let '(y, m) := if mon <? 12 then (year, mon + 1) else (year + 1, 1) in
          if valid_ymd y m 1 then Some (strftime_date y m 1) else None
      | _, _ => None
      end
  | _ => None
  end.

(** [MAX(payment_date)] over the payments of a member, NULL without any. *)
Definition max_text (a : option string) (b : string) : option string :=
  match a with
  | None => Some b
  | Some x => if String.ltb x b then Some b else Some x
  end.

Definition last_payment_date (user_id : string) (db : database) : option string :=
  fold_left max_text
    (map Payment.payment_date
         (List.filter (fun p => String.eqb (Payment.user_id p) user_id) (payments db)))
    None.

(** A row of the expired-members report. *)
Record expired_row := {
  e_user_id : string;
  e_name : string;
  e_cnic : string;
  e_contact : string;
  e_sport_category : string;
  e_membership_type : string;
  e_expiry_date : string;
  e_last_payment : option string
}.

Definition expired_of (db : database) (m : Member.row) : expired_row :=
  {| e_user_id := Member.user_id m; e_name := Member.name m; e_cnic := Member.cnic m;
     e_contact := Member.contact m; e_sport_category := Member.sport_category m;
     e_membership_type := Member.membership_type m;
     e_expiry_date := Member.expiry_date m;
     e_last_payment := last_payment_date (Member.user_id m) db |}.

(** [WHERE m.expiry_date < ? AND m.is_active = 1]: a comparison of texts. *)
Definition expired_before (end_date : string) (m : Member.row) : bool :=
  String.ltb (Member.expiry_date m) end_date && Member.is_active m.

(** [generate_expired_report]; the outer [None] is the exception that the
    computation of the end date raises. *)
Definition generate_expired_report (month : string) (st : app)
  : option (report expired_row nat) :=
  match next_month_start month with
  | None => None
  | Some end_date =>
      let data := map (expired_of (conn st))
                      (List.filter (expired_before end_date) (members (conn st))) in
      match data with
      | [] => Some NoData
      | _ => Some (Report data (List.length data))
      end
  end.

(** ** The vocabulary of the properties *)

(** [RecordPayment(member, amount, month, membership_type)] with the member
    given by the search key that binds it: [search_member] followed by
    [record_payment]. *)
Definition RecordPayment (key : string) (amount : float) (month membership_type : string)
    (now : datetime) (st : app) : payment_result * app :=
  record_payment (Number amount) month membership_type now (snd (search_member key st)).

(** The derived fee of a row as the specification words it,
    [base_fee + (400 if has_treadmill else 0)], written out here and not
    through [fee_formula], with which the code computes it. *)
Definition derived_fee (r : Member.row) : float :=
  (Member.base_fee r + (if Member.has_treadmill r then 400 else 0))%float.

(** [total_fee == base_fee + (400 if has_treadmill else 0)] on a row. *)
Definition fee_consistent (r : Member.row) : bool :=
  (Member.total_fee r =? derived_fee r)%float.

(** The constraints of [members] on a whole table. *)
Definition members_valid (t : list Member.row) : Prop :=
  List.NoDup (map Member.user_id t) /\ List.NoDup (map Member.cnic t)
  /\ Forall (fun r => member_row_ok r = true) t.

(** What an UPDATE that succeeds does to a row. *)
Definition updated (where_ : Member.row -> bool) (set : Member.row -> Member.row)
    (r : Member.row) : Member.row :=
  if where_ r then set r else r.

(** The columns of a member row that a payment has no business with: all of
    them but [membership_type] and [updated_at]. *)
Definition frame (r : Member.row) :=
  (Member.user_id r, Member.name r, Member.contact r, Member.cnic r,
   Member.location r, Member.designation r, Member.join_date r,
   Member.expiry_date r, Member.sport_category r, Member.has_treadmill r,
   Member.base_fee r, Member.total_fee r, Member.is_active r, Member.photo_path r).

(** The plan change of step 4 of [record_payment], as it lands on a table. *)
Definition plan_changed (user_id membership_type stamp : string)
    (t : list Member.row) : list Member.row :=
  map (updated (fun r => String.eqb (Member.user_id r) user_id)
               (set_membership_type membership_type stamp)) t.

(** The database after a payment row is appended. *)
Definition paid (uid : string) (amt : float) (mon : string) (per : option string)
    (now : datetime) (db : database) : database :=
  {| members := members db;
     payments := (payments db ++
       [ {| Payment.id := payments_seq db + 1; Payment.user_id := uid;
            Payment.amount := amt; Payment.payment_date := today now;
            Payment.month := mon; Payment.period := per;
            Payment.updated_at := timestamp now |} ])%list;
     payments_seq := payments_seq db + 1 |}.

(** The payments that the query of [generate_payment_report] selects, read
    off the code: those of the month whose member satisfies [kind_predicate].
    [in_report] below says the same in the words of the specification. *)
Definition report_matches (report_type month : string) (sport : option string)
    (db : database) (p : Payment.row) : bool :=
  String.eqb (Payment.month p) month
  && match member_by_id (Payment.user_id p) (members db) with
     | Some m => kind_predicate report_type sport m
     | None => false
     end.

(** The kinds of payment report of the specification, and the condition
    that each puts on the member of a payment: equality of the plan, or
    equality of the sport category when the sport is not "All".  This is
    written from the specification, not through [kind_predicate]. *)
Inductive report_kind :=
| AllMembers
| ThirtyDayPlan
| FifteenDayPlan
| SportCategory (sport : string).

Definition kind_condition (k : report_kind) (m : Member.row) : bool :=
  match k with
  | AllMembers => true
  | ThirtyDayPlan => String.eqb (Member.membership_type m) "30-day"
  | FifteenDayPlan => String.eqb (Member.membership_type m) "15-day"
  | SportCategory sport =>
      String.eqb sport "All" || String.eqb (Member.sport_category m) sport
  end.

(** The payments that a report of a kind is about, in the words of the
    specification: those of the month that have a member, found by
    [user_id], who satisfies the condition of the kind. *)
Definition in_report (k : report_kind) (month : string) (db : database)
    (p : Payment.row) : bool :=
  String.eqb (Payment.month p) month
  && existsb (fun m => String.eqb (Member.user_id m) (Payment.user_id p)
                       && kind_condition k m) (members db).

(** The report type and the sport that [generate_report] passes to
    [generate_payment_report] for a kind. *)
Definition kind_type (k : report_kind) : string :=
  match k with
  | AllMembers => "All Members"
  | ThirtyDayPlan => "30-Day Plan"
  | FifteenDayPlan => "15-Day Plan"
  | SportCategory _ => "Sport Category"
  end.

Definition kind_sport (k : report_kind) : option string :=
  match k with
  | SportCategory sport => Some sport
  | _ => None
  end.

(** The order of calendar dates. *)
Definition date_before (a b : Z * Z * Z) : bool :=
  let '(y, m, d) := a in
  let '(y', m', d') := b in
  (y <? y') || ((y =? y') && ((m <? m') || ((m =? m') && (d <? d')))).

(** A stored date is padded when it is the text that [strftime] renders for
    the date that [strptime] reads in it. *)
Definition padded (s : string) : bool :=
  match strptime s with
  | Some (y, m, d) => String.eqb s (strftime_date y m d)
  | None => false
  end.

(** The month after a billing month. *)
Definition following_month (year mon : Z) : Z * Z :=
  if mon <? 12 then (year, mon + 1) else (year + 1, 1).

(** The members that the expired-members report is meant to list for a
    billing month: the active ones whose expiry date, as a date, is before
    the first day of the following month. *)
Definition expired_by_date (year mon : Z) (r : Member.row) : bool :=
  match strptime (Member.expiry_date r) with
  | Some date =>
      let '(y, m) := following_month year mon in
      date_before date (y, m, 1) && Member.is_active r
  | None => false
  end.

(** The expired-members report that lists [data]. *)
Definition listing (data : list expired_row) : report expired_row nat :=
  match data with
  | [] => NoData
  | _ => Report data (List.length data)
  end.

(** ** The ledger as a transition system *)

(** One call of a handler, whatever its arguments and its answer. *)
Inductive handler_step (st st' : app) : Prop :=
| step_save_member f now r :
    save_member f now st = (r, st') -> handler_step st st'
| step_update_member selected f now r :
    update_member selected f now st = (r, st') -> handler_step st st'
| step_delete_member selected now r :
    delete_member selected now st = (r, st') -> handler_step st st'
| step_search_member key r :
    search_member key st = (r, st') -> handler_step st st'
| step_record_payment amount_entry month membership_type now r :
    record_payment amount_entry month membership_type now st = (r, st') ->
    handler_step st st'.

(** A database at rest: the constraints of [members] hold and every row
    satisfies the fee equation. *)
Definition store_ok (db : database) : Prop :=
  members_valid (members db)
  /\ Forall (fun r => fee_consistent r = true) (members db).

(** The states of a run: the application opens a database file that
    satisfies its schema, runs [update_total_fees] to the end, and then
    serves handler calls. *)
Inductive running : app -> Prop :=
| run_started db now st :
    members_valid (members db) ->
    update_total_fees now (commit db None) = (true, st) ->
    running st
| run_step st st' :
    running st -> handler_step st st' -> running st'.

(** ** A small ledger for the examples *)

Definition at_ (y m d h mi s : Z) : datetime :=
  {| dt_year := y; dt_month := m; dt_day := d;
     dt_hour := h; dt_minute := mi; dt_second := s |}.

Definition fresh_app : app := commit initialize_database None.

(** Member 1001 of the end-to-end example of the specification: base fee
    2000 with the treadmill, on the 30-day plan. *)
Definition form_1001 (membership expiry : string) : member_form :=
  {| f_user_id := "1001"; f_name := "Ali"; f_contact := "03001234567";
     f_cnic := "1234567890123"; f_location := ""; f_designation := "";
     f_join_date := "2024-06-01"; f_expiry_date := expiry;
     f_base_fee := Number 2000; sport_var := "Gym";
     membership_var := membership; treadmill_var := true; photo_ext := None |}.

Definition gym_30 : app :=
  snd (save_member (form_1001 "30-day" "2024-06-30") (at_ 2024 6 1 9 0 0) fresh_app).

Definition gym_15 : app :=
  snd (save_member (form_1001 "15-day" "2024-06-30") (at_ 2024 6 1 9 0 0) fresh_app).

(** Member 1001 on the 15-day plan pays both halves of June 2024, then pays
    July on the 30-day plan, which switches the stored plan to 30-day. *)
Definition june_paid : app :=
  let s1 := snd (RecordPayment "1001" 2400 "2024-06" "15-day" (at_ 2024 6 3 9 5 7) gym_15) in
  snd (RecordPayment "1001" 2400 "2024-06" "15-day" (at_ 2024 6 17 9 5 7) s1).

Definition switched : app :=
  snd (RecordPayment "1001" 2400 "2024-07" "30-day" (at_ 2024 7 2 9 5 7) june_paid).

(** A second member, registered later. *)
Definition form_1002 : member_form :=
  {| f_user_id := "1002"; f_name := "Sara"; f_contact := "03007654321";
     f_cnic := "9876543210987"; f_location := "Lahore"; f_designation := "";
     f_join_date := "2024-07-05"; f_expiry_date := "2024-08-04";
     f_base_fee := Number 1500; sport_var := "Squash";
     membership_var := "30-day"; treadmill_var := false; photo_ext := None |}.

(** A ledger in which member 1001 holds the second half of June 2024 but
    not the first, as a database edited outside of the application can. *)
Definition second_half_only : app :=
  let db := {| members := members (conn gym_15);
               payments := [ {| Payment.id := 1; Payment.user_id := "1001";
                                Payment.amount := 2400;
                                Payment.payment_date := "2024-06-17";
                                Payment.month := "2024-06";
                                Payment.period := Some "second_half";
                                Payment.updated_at := "2024-06-17 09:05:07" |} ];
               payments_seq := 1 |} in
  commit db None.

(** A ledger whose stored total fee lags behind the formula: member 1001
    has the treadmill, and the row still carries the bare base fee. *)
Definition stale_fee : app :=
  let db := with_members (conn gym_30)
              (map (set_total_fee 2000 "2024-06-01 09:00:00") (members (conn gym_30))) in
  commit db None.

(** Member 1001 on the 15-day plan with both halves of June 2024 paid, and
    member 1002 registered and paid up for June on the 30-day plan. *)
Definition two_members : app :=
  let s := snd (save_member form_1002 (at_ 2024 6 18 10 0 0) june_paid) in
  snd (RecordPayment "1002" 1500 "2024-06" "30-day" (at_ 2024 6 18 10 5 0) s).

(** Member 1001 registered with the expiry date typed without padding,
    which [validate_date] accepts. *)
Definition gym_unpadded : app :=
  snd (save_member (form_1001 "30-day" "2024-6-30") (at_ 2024 6 1 9 0 0) fresh_app).

(** * The rest of the application: listings, report tab, months *)

(** ** Listings and lookups of the member tab *)

(** [str.strip()] on ASCII text: the characters that [isspace()] accepts. *)
Definition is_space (c : ascii) : bool :=
  let n := N_of_ascii c in
  ((9 <=? n) && (n <=? 13) || (28 <=? n) && (n <=? 32))%N.

Fixpoint lstrip (l : list ascii) : list ascii :=
  match l with
  | c :: rest => if is_space c then lstrip rest else l
  | [] => []
  end.

Definition strip (s : string) : string :=
  string_of_list_ascii (rev (lstrip (rev (lstrip (chars s))))).

(** The order of texts under the BINARY collation, which is also the order
    of Python on ASCII strings: [a <= b]. *)
Definition text_le (a b : string) : Prop := String.ltb b a = false.

#[global] Instance text_le_dec (a b : string) : Decision (text_le a b) :=
  bool_eq_dec (String.ltb b a) false.

(** [ORDER BY user_id] on member rows and [ORDER BY payment_date DESC] on
    payment rows.  Rows with equal keys come in the order the sorter leaves
    them; nothing below depends on it. *)
Definition by_user_id (a b : Member.row) : Prop :=
  text_le (Member.user_id a) (Member.user_id b).

#[global] Instance by_user_id_dec (a b : Member.row) : Decision (by_user_id a b) :=
  text_le_dec (Member.user_id a) (Member.user_id b).

Definition latest_first (a b : Payment.row) : Prop :=
  text_le (Payment.payment_date b) (Payment.payment_date a).

#[global] Instance latest_first_dec (a b : Payment.row) : Decision (latest_first a b) :=
  text_le_dec (Payment.payment_date b) (Payment.payment_date a).

(** [load_members]: [SELECT ... FROM members WHERE is_active=1 ORDER BY
    user_id]; the list shows the rows numbered from 1. *)
Definition load_members (st : app) : list Member.row :=
  merge_sort by_user_id (List.filter Member.is_active (members (conn st))).

(** [load_payment_history]: [SELECT id, payment_date, amount, month, period
    FROM payments WHERE user_id=? ORDER BY payment_date DESC]. *)
Definition load_payment_history (user_id : string) (st : app) : list Payment.row :=
  merge_sort latest_first
    (List.filter (fun p => String.eqb (Payment.user_id p) user_id) (payments (conn st))).

(** [SELECT payment_date FROM payments WHERE user_id=? ORDER BY payment_date
    DESC LIMIT 1] and [fetchone()], of [load_view_tab]. *)
Definition latest_payment (user_id : string) (st : app) : option string :=
  head (map Payment.payment_date (load_payment_history user_id st)).

(** [load_view_tab]: the active members in the order of their user ids, each
    with the date of its last payment ([None] is shown as "Never"). *)
Definition load_view_tab (st : app) : list (Member.row * option string) :=
  map (fun m => (m, latest_payment (Member.user_id m) st)) (load_members st).

(** [SELECT ... FROM members WHERE user_id=? AND is_active=1] and
    [fetchone()], of [view_search_result], [load_for_update] and
    [redirect_to_payment]. *)
Definition active_member_by_id (user_id : string) (t : list Member.row)
  : option Member.row :=
  find (fun r => String.eqb (Member.user_id r) user_id && Member.is_active r) t.

(** The buttons of the search results read the user id off the row in
    focus.  Tk hands a value that reads as an integer over as an [int], which
    SQLite compares with the TEXT column by its decimal text: [selected] below
    is the text that the query compares, which is the user id stored unless
    that has leading zeros.  (An integer beyond 64 bits cannot be bound to a
    statement at all; [selected] ranges over the others.) *)

(** The text that the query of a button compares when the row in focus
    shows [user_id], for a [user_id] of ASCII digits: the decimal text of
    [int(user_id)], which is [user_id] without its leading zeros. *)
Fixpoint drop_zeros (l : list ascii) : list ascii :=
  match l with
  | c :: (_ :: _) as rest => if Ascii.eqb c "0" then drop_zeros rest else l
  | _ => l
  end.

Definition tree_value (user_id : string) : string :=
  string_of_list_ascii (drop_zeros (chars user_id)).

(** A user id that reaches the query as it is stored: one to eighteen ASCII
    digits, so an integer below 2^63, without a leading zero. *)
Definition plain_id (user_id : string) : bool :=
  forallb is_digit (chars user_id)
  && (1 <=? List.length (chars user_id))%nat
  && (List.length (chars user_id) <=? 18)%nat
  && String.eqb (tree_value user_id) user_id.

(** What a button of the search results answers: nothing selected, the
    member not found, or what it did. *)
Inductive selection (A : Type) : Type :=
| NoMemberSelected
| MemberNotFound
| Selected (a : A).
Arguments NoMemberSelected {A}.
Arguments MemberNotFound {A}.
Arguments Selected {A} a.

(** [view_search_result]: the member whose details the window shows. *)
Definition view_search_result (selected : option string) (st : app)
  : selection Member.row :=
  match selected with
  | None => NoMemberSelected
  | Some user_id =>
      match active_member_by_id user_id (members (conn st)) with
      | Some member => Selected member
      | None => MemberNotFound
      end
  end.

(** [redirect_to_payment]: the CNIC of the member selected is put in the
    search entry of the payment tab and [search_member] runs on it, which
    strips the entry. *)
Definition redirect_to_payment (selected : option string) (st : app)
  : selection (option Member.row * app) :=
  match selected with
  | None => NoMemberSelected
  | Some user_id =>
      match active_member_by_id user_id (members (conn st)) with
      | Some member => Selected (search_member (strip (Member.cnic member)) st)
      | None => MemberNotFound
      end
  end.

(** [delete_from_search], once the dialog is confirmed.  It differs from
    [delete_member] in its [except] clause: it catches [sqlite3.Error] only,
    so the [TypeError] of [fetchone()[0]] on a user id without a row leaves
    the handler ([None]). *)
Definition delete_from_search (selected : option string) (now : datetime) (st : app)
  : option (member_result * app) :=
  match selected with
  | None => Some (ValidationError NoSelection, st)
  | Some user_id =>
      match member_by_id user_id (members (conn st)) with
      | None => None
      | Some _ =>
          match update_members (fun r => String.eqb (Member.user_id r) user_id)
                               (set_inactive (timestamp now)) (members (conn st)) with
          | Ok t => Some (Success, commit (with_members (conn st) t) (current_member st))
          | IntegrityError => Some (Failure, st)
          end
      end
  end.

(** ** More of the small ledger *)

(** The row of member 1001 on the 30-day plan, as [gym_30] holds it. *)
Definition row_1001 : Member.row :=
  form_row (form_1001 "30-day" "2024-06-30") 2000 2400 true "2024-06-01 09:00:00" None.

(** Member 1001 deactivated. *)
Definition gym_closed : app :=
  snd (delete_member (Some "1001") (at_ 2024 7 1 9 0 0) gym_30).

(** The ledger of [two_members] with member 1001 deactivated. *)
Definition two_members_closed : app :=
  snd (delete_member (Some "1001") (at_ 2024 7 1 9 0 0) two_members).

(** ** The constraints of the payments table *)

(** The keys that [UNIQUE(user_id, month, period)] compares: those of the
    rows whose period is not NULL. *)
Definition half_keys (t : list Payment.row) : list (string * string * string) :=
  flat_map (fun p => match Payment.period p with
                     | Some x => [(Payment.user_id p, Payment.month p, x)]
                     | None => []
                     end) t.

Definition is_half (o : option string) : bool :=
  match o with
  | Some x => String.eqb x "first_half" || String.eqb x "second_half"
  | None => false
  end.

(** The payments table as the application keeps it: ids are distinct and
    not above the AUTOINCREMENT counter, the keys of the half-month rows are
    distinct, and a period is NULL or one of the two halves. *)
Definition payments_valid (db : database) : Prop :=
  List.NoDup (map Payment.id (payments db))
  /\ Forall (fun p => Payment.id p <= payments_seq db) (payments db)
  /\ List.NoDup (half_keys (payments db))
  /\ Forall (fun p => Payment.period p = None \/ is_half (Payment.period p) = true)
            (payments db).

(** The payment row that [record_payment] writes. *)
Definition payment_row (id : Z) (uid : string) (amt : float) (mon : string)
    (per : option string) (now : datetime) : Payment.row :=
  {| Payment.id := id; Payment.user_id := uid; Payment.amount := amt;
     Payment.payment_date := today now; Payment.month := mon;
     Payment.period := per; Payment.updated_at := timestamp now |}.

(** The payments of a member for one half of a month. *)
Definition paid_half (uid mon x : string) (db : database) : list Payment.row :=
  List.filter (fun p => String.eqb (Payment.user_id p) uid
                        && String.eqb (Payment.month p) mon
                        && match Payment.period p with
                           | Some y => String.eqb y x
                           | None => false
                           end) (payments db).

(** ** The report tab *)

(** A cell of a table shown or exported: a text, or an amount, which the
    code formats as [f"Rs {x:.2f}"]. *)
Inductive cell :=
| Text (s : string)
| Rs (x : float).

(** [s or default] on a nullable text *)
Definition or_text (o : option string) (default : string) : string :=
  match o with
  | Some s => if nonempty s then s else default
  | None => default
  end.

(** The values of a row of a payment report, as [generate_payment_report]
    inserts them in the tree and as [export_payment_report] writes them. *)
Definition payment_cells (report_type : string) (row : report_row) : list cell :=
  if String.eqb report_type "Sport Category"
  then [Text (r_sport_category row); Text (r_user_id row); Text (r_name row);
        Text (r_cnic row); Text (r_contact row); Text (r_membership_type row);
        Rs (r_amount row); Text (r_payment_date row);
        Text (or_text (r_period row) "Full Month");
        Text (if r_has_treadmill row then "Yes" else "No")]
  else [Text (r_user_id row); Text (r_name row); Text (r_cnic row);
        Text (r_contact row); Text (r_sport_category row);
        Text (r_membership_type row); Rs (r_amount row); Text (r_payment_date row);
        Text (or_text (r_period row) "Full Month");
        Text (if r_has_treadmill row then "Yes" else "No")].

(** The columns of the tree of a payment report. *)
Definition payment_columns (report_type : string) : list string :=
  if String.eqb report_type "Sport Category"
  then ["Sport"; "User ID"; "Name"; "CNIC"; "Contact"; "Plan";
        "Amount"; "Date"; "Period"; "Treadmill"]
  else ["User ID"; "Name"; "CNIC"; "Contact"; "Sport"; "Plan";
        "Amount"; "Date"; "Period"; "Treadmill"].

(** The headers of [export_payment_report]: [headers.insert(0, 'Sport')]
    for a report on a sport category. *)
Definition payment_headers (report_type : string) : list string :=
  let headers := ["User ID"; "Name"; "CNIC"; "Contact"; "Sport"; "Plan";
                  "Amount"; "Date"; "Period"; "Treadmill"] in
  if String.eqb report_type "Sport Category" then "Sport" :: headers else headers.

(** [export_payment_report]: the headers and the rows that the three
    formats write, one under the other. *)
Definition export_payment_report (report_type : string) (data : list report_row)
  : list string * list (list cell) :=
  (payment_headers report_type, map (payment_cells report_type) data).

Definition expired_cells (row : expired_row) : list cell :=
  [Text (e_user_id row); Text (e_name row); Text (e_cnic row); Text (e_contact row);
   Text (e_sport_category row); Text (e_membership_type row);
   Text (e_expiry_date row); Text (or_text (e_last_payment row) "Never")].

Definition expired_headers : list string :=
  ["User ID"; "Name"; "CNIC"; "Contact"; "Sport"; "Plan"; "Expiry Date"; "Last Payment"].

(** [export_expired_report] *)
Definition export_expired_report (data : list expired_row)
  : list string * list (list cell) :=
  (expired_headers, map expired_cells data).

(** [current_report_data].  Its ['type'] is ['Expired Members'] for the
    data of [generate_expired_report] and for no other: [generate_report]
    calls [generate_payment_report] with the other types only. *)
Inductive report_data :=
| PaymentReportData (report_type month : string) (sport : option string)
    (data : list report_row) (sum : summary)
| ExpiredReportData (month : string) (data : list expired_row) (count : nat).

(** The report tab: the rows of [report_tree], and [current_report_data],
    [None] as long as the attribute is not set. *)
Record report_tab := {
  report_tree : list (list cell);
  current_report_data : option report_data
}.

Inductive report_outcome := Warned | Raised | Empty | Shown.

(** [generate_report].  [Raised] is a [ValueError] of
    [generate_expired_report], which the handler does not catch. *)
Definition generate_report (report_type month sport_var_report : string) (st : app)
    (tab : report_tab) : report_outcome * report_tab :=
  let sport := if String.eqb report_type "Sport Category"
               then Some sport_var_report else None in
  if negb (nonempty report_type) || negb (nonempty month) then (Warned, tab)
  else
    let cleared := {| report_tree := []; current_report_data := current_report_data tab |} in
    if String.eqb report_type "Expired Members" then
      match generate_expired_report month st with
      | None => (Raised, cleared)
      | Some NoData => (Empty, cleared)
      | Some (Report data count) =>
          (Shown, {| report_tree := map expired_cells data;
                     current_report_data := Some (ExpiredReportData month data count) |})
      end
    else
      match generate_payment_report report_type month sport st with
      | NoData => (Empty, cleared)
      | Report data sum =>
          (Shown, {| report_tree := map (payment_cells report_type) data;
                     current_report_data :=
                       Some (PaymentReportData report_type month sport data sum) |})
      end.

(** [export_report], for a file name chosen in the dialog: the table
    written, [None] when no report was generated yet. *)
Definition export_report (tab : report_tab) : option (list string * list (list cell)) :=
  match current_report_data tab with
  | None => None
  | Some (ExpiredReportData _ data _) => Some (export_expired_report data)
  | Some (PaymentReportData report_type _ _ data _) =>
      Some (export_payment_report report_type data)
  end.

(** ** The months of the report tab *)

Definition next_day (date : Z * Z * Z) : Z * Z * Z :=
  let '(y, m, d) := date in
  if d <? days_in_month y m then (y, m, d + 1)
  else if m <? 12 then (y, m + 1, 1) else (y + 1, 1, 1).

Definition prev_day (date : Z * Z * Z) : Z * Z * Z :=
  let '(y, m, d) := date in
  if 1 <? d then (y, m, d - 1)
  else if 1 <? m then (y, m - 1, days_in_month y (m - 1)) else (y - 1, 12, 31).

(** [date + timedelta(days=n)]; [None] is the [OverflowError] of a year
    outside of 1 to 9999. *)
Definition add_days (n : Z) (date : Z * Z * Z) : option (Z * Z * Z) :=
  let '(y, m, d) :=
    if 0 <=? n then Nat.iter (Z.to_nat n) next_day date
    else Nat.iter (Z.to_nat (- n)) prev_day date in
  if (1 <=? y) && (y <=? 9999) then Some (y, m, d) else None.

(** [range(lo, hi)] *)
Definition range (lo hi : Z) : list Z :=
  map (fun i => lo + Z.of_nat i) (seq 0 (Z.to_nat (hi - lo))).

(** [strftime("%Y-%m")] *)
Definition strftime_month (y m : Z) : string := strftime_Y y ++ "-" ++ pad2 m.

(** The loop of [get_available_months] over the offsets [i]. *)
Fixpoint append_months (current : Z * Z * Z) (offsets : list Z) (months : list string)
  : option (list string) :=
  match offsets with
  | [] => Some months
  | i :: rest =>
      match add_days (30 * i) current with
      | Some (y, m, _) =>
          let s := strftime_month y m in
          append_months current rest
            (if existsb (String.eqb s) months then months else (months ++ [s])%list)
      | None => None
      end
  end.

(** [get_available_months]: [SELECT DISTINCT month FROM payments ORDER BY
    month], the months around the current one, and [sorted]. *)
Definition get_available_months (now : datetime) (st : app) : option (list string) :=
  let months := merge_sort text_le (remove_dups (map Payment.month (payments (conn st)))) in
  option_map (merge_sort text_le)
             (append_months (dt_year now, dt_month now, dt_day now) (range (-12) 13) months).

(** *** The calendar within a year

    The days of the year before a month, and the day of the year. *)
Definition days_before_month (y m : Z) : Z :=
  fold_right Z.add 0 (map (days_in_month y) (range 1 m)).

Definition day_of_year (date : Z * Z * Z) : Z :=
  let '(y, m, d) := date in days_before_month y m + d.

(** A month and a day of the calendar. *)
Definition valid_md (date : Z * Z * Z) : Prop :=
  let '(y, m, d) := date in 1 <= m <= 12 /\ 1 <= d <= days_in_month y m.

(** ** Two more forms for member 1001 *)

(** A member registered under the user id 007. *)
Definition form_007 : member_form :=
  {| f_user_id := "007"; f_name := "Bilal"; f_contact := "03005550007";
     f_cnic := "3520212345678"; f_location := ""; f_designation := "";
     f_join_date := "2024-06-01"; f_expiry_date := "2024-06-30";
     f_base_fee := Number 1500; sport_var := "Gym";
     membership_var := "30-day"; treadmill_var := false; photo_ext := None |}.

Definition gym_007 : app :=
  snd (save_member form_007 (at_ 2024 6 1 9 0 0) fresh_app).

(** The form that gives member 1001 the user id 2001. *)
Definition form_2001 : member_form :=
  {| f_user_id := "2001"; f_name := "Ali"; f_contact := "03001234567";
     f_cnic := "1234567890123"; f_location := ""; f_designation := "";
     f_join_date := "2024-06-01"; f_expiry_date := "2024-06-30";
     f_base_fee := Number 2000; sport_var := "Gym";
     membership_var := "15-day"; treadmill_var := true; photo_ext := None |}.

(** The ledger of [june_paid] after member 1001 is given the user id 2001. *)
Definition renumbered : app :=
  snd (update_member (Some "1001") form_2001 (at_ 2024 6 20 9 0 0) june_paid).

(** The form of member 1001 with the text [nan] as its base fee. *)
Definition form_nan : member_form :=
  {| f_user_id := "1001"; f_name := "Ali"; f_contact := "03001234567";
     f_cnic := "1234567890123"; f_location := ""; f_designation := "";
     f_join_date := "2024-06-01"; f_expiry_date := "2024-06-30";
     f_base_fee := Number nan; sport_var := "Gym";
     membership_var := "30-day"; treadmill_var := true; photo_ext := None |}.

(** * Properties *)

(** ** Floats *)

Lemma positive_not_le0 (a : float) : (0 <? a)%float = true -> (a <=? 0)%float = false.
Proof.
  rewrite FloatAxioms.ltb_spec, FloatAxioms.leb_spec. unfold SFltb, SFleb.
  change (Prim2SF 0) with (S754_zero false).
  destruct (Prim2SF a) as [s | s | | s m e]; simpl;
    try destruct s; simpl; congruence.
Qed.

Lemma positive_eq_refl (a : float) : (0 <? a)%float = true -> (a =? a)%float = true.
Proof.
  rewrite FloatAxioms.ltb_spec, FloatAxioms.eqb_spec. unfold SFltb, SFeqb.
  change (Prim2SF 0) with (S754_zero false).
  destruct (Prim2SF a) as [s | s | | s m e]; simpl;
    try destruct s; simpl; try congruence;
    rewrite ?Z.compare_refl, ?Pos.compare_refl; reflexivity.
Qed.

Lemma real_not_null_eq_refl (a : float) : real_not_null a = true -> (a =? a)%float = true.
Proof.
  unfold real_not_null, PrimFloat.is_nan. rewrite negb_involutive. trivial.
Qed.

Lemma positive_not_null (a : float) : (0 <? a)%float = true -> real_not_null a = true.
Proof.
  intros H. unfold real_not_null, PrimFloat.is_nan.
  rewrite (positive_eq_refl a H). reflexivity.
Qed.

(** ** The UPDATE statement *)

Lemma update_members_from_Ok where_ set todo : forall done t,
  update_members_from where_ set done todo = Ok t ->
  t = (done ++ map (updated where_ set) todo)%list
  /\ Forall (fun r => where_ r = true -> member_row_ok (set r) = true) todo.
Proof.
  induction todo as [|r rest IH]; simpl; intros done t H.
  - inversion H. rewrite app_nil_r. split; [reflexivity | constructor].
  - unfold updated at 1. destruct (where_ r) eqn:W.
    + destruct (member_row_ok (set r)) eqn:K; simpl in H; [|discriminate].
      destruct (member_key_clash r (set r) (done ++ rest)); simpl in H; [discriminate|].
      apply IH in H as [-> HF]. rewrite <- app_assoc. simpl. split; [reflexivity|].
      constructor; auto.
    + apply IH in H as [-> HF]. rewrite <- app_assoc. simpl. split; [reflexivity|].
      constructor; auto. congruence.
Qed.

Lemma update_members_Ok where_ set t t' :
  update_members where_ set t = Ok t' ->
  t' = map (updated where_ set) t
  /\ Forall (fun r => where_ r = true -> member_row_ok (set r) = true) t.
Proof. unfold update_members. intros H. apply update_members_from_Ok in H. exact H. Qed.

(** ** Payments: refusals *)

(** C5.  With a member bound, a positive amount that differs from the
    member's total fee, a month of the form YYYY-MM and a plan selected,
    [record_payment] answers [AmountMismatchError] and leaves the whole state,
    the payments table included, as it was. *)
Theorem amount_mismatch_refused (st : app) (member : Member.row) (amount : float)
    (month membership_type : string) (now : datetime) :
  current_member st = Some member ->
  (0 <? amount)%float = true ->
  (amount =? Member.total_fee member)%float = false ->
  re_month month = true ->
  nonempty membership_type = true ->
  record_payment (Number amount) month membership_type now st
  = (AmountMismatchError, st)
  /\ payments (conn (snd (record_payment (Number amount) month membership_type now st)))
     = payments (conn st).
Proof.
  intros Hcm Hpos Hne Hmonth Hty.
  assert (E : record_payment (Number amount) month membership_type now st
              = (AmountMismatchError, st)).
  { unfold record_payment. rewrite Hcm, (positive_not_le0 _ Hpos), Hmonth, Hty, Hne.
    reflexivity. }
  split; [exact E | rewrite E; reflexivity].
Qed.

Lemma amount_mismatch_refused_witness :
  record_payment (Number 1000) "2024-06" "30-day" (at_ 2024 6 3 9 5 7)
                 (snd (search_member "1001" gym_30))
  = (AmountMismatchError, snd (search_member "1001" gym_30))
  /\ payments (conn (snd (record_payment (Number 1000) "2024-06" "30-day"
                            (at_ 2024 6 3 9 5 7) (snd (search_member "1001" gym_30)))))
     = payments (conn (snd (search_member "1001" gym_30))).
Proof.
  apply (amount_mismatch_refused _ (form_row (form_1001 "30-day" "2024-06-30") 2000 2400
                                             true "2024-06-01 09:00:00" None));
    vm_compute; reflexivity.
Defined.

(** ** Payments: what they leave alone *)

Lemma frame_plan_changed uid ty stamp t :
  map frame (plan_changed uid ty stamp t) = map frame t.
Proof.
  unfold plan_changed. rewrite map_map. apply map_ext. intros r.
  unfold updated. destruct (String.eqb (Member.user_id r) uid); reflexivity.
Qed.

Lemma expiry_date_in_frame (t t' : list Member.row) :
  map frame t' = map frame t ->
  map Member.expiry_date t' = map Member.expiry_date t.
Proof.
  intros H.
  assert (G : forall l : list Member.row,
             map Member.expiry_date l
             = map (fun x => snd (fst (fst (fst (fst (fst (fst x))))))) (map frame l)).
  { intros l. rewrite map_map. apply map_ext. reflexivity. }
  rewrite (G t), (G t'), H. reflexivity.
Qed.

Lemma insert_payment_members uid amt date mon per stamp db db' :
  insert_payment uid amt date mon per stamp db = Ok db' -> members db' = members db.
Proof.
  unfold insert_payment. destruct (_ && _); [|discriminate].
  intros H. inversion H. reflexivity.
Qed.

(** What [record_payment] can do to the members table and to the committed
    database. *)
Lemma record_payment_members (amount_entry : float_text) (month membership_type : string)
    (now : datetime) (st : app) :
  let st' := snd (record_payment amount_entry month membership_type now st) in
  (members (conn st') = members (conn st)
   \/ exists uid,
        update_members (fun r => String.eqb (Member.user_id r) uid)
                       (set_membership_type membership_type (timestamp now))
                       (members (conn st))
        = Ok (members (conn st')))
  /\ (disk st' = disk st \/ disk st' = conn st').
Proof.
  cbv zeta. unfold record_payment.
  destruct (current_member st) as [member|]; [|simpl; auto].
  destruct amount_entry as [| |amount]; try (simpl; auto; fail).
  destruct (amount <=? 0)%float; [simpl; auto|].
  destruct (negb (re_month month)); [simpl; auto|].
  destruct (negb (nonempty membership_type)); [simpl; auto|].
  destruct (negb (amount =? Member.total_fee member)%float); [simpl; auto|].
  destruct (negb (String.eqb membership_type (Member.membership_type member))).
  - destruct (update_members _ _ _) as [t|] eqn:U; [|simpl; auto].
    destruct (allocate_period _ _ _ _) as [period|]; [|simpl; eauto].
    destruct (insert_payment _ _ _ _ _ _ _) as [db|] eqn:I; [|simpl; eauto].
    apply insert_payment_members in I. simpl in *. rewrite I. eauto.
  - destruct (allocate_period _ _ _ _) as [period|]; [|simpl; eauto].
    destruct (insert_payment _ _ _ _ _ _ _) as [db|] eqn:I; [|simpl; eauto].
    apply insert_payment_members in I. simpl in *. rewrite I. eauto.
Qed.

(** C8.  Whatever [record_payment] answers, every member row keeps its
    expiry date, and every column other than [membership_type] and
    [updated_at], on the connection; and what is committed afterwards is
    either what was committed before or what the connection now sees. *)
Theorem record_payment_keeps_expiry (amount_entry : float_text)
    (month membership_type : string) (now : datetime) (st : app) :
  let st' := snd (record_payment amount_entry month membership_type now st) in
  map Member.expiry_date (members (conn st')) = map Member.expiry_date (members (conn st))
  /\ map frame (members (conn st')) = map frame (members (conn st))
  /\ (disk st' = disk st \/ disk st' = conn st').
Proof.
  cbv zeta.
  destruct (record_payment_members amount_entry month membership_type now st) as [M D].
  assert (F : map frame (members (conn (snd (record_payment amount_entry month
                                                membership_type now st))))
              = map frame (members (conn st))).
  { destruct M as [-> | [uid U]]; [reflexivity|].
    apply update_members_Ok in U as [-> _]. apply frame_plan_changed. }
  split; [|split; [exact F | exact D]].
  apply expiry_date_in_frame, F.
Qed.

(** ** Payments: what a refusal leaves behind *)

Lemma period_in_existing (x uid mon : string) (db : database) :
  period_in x (existing_periods uid mon db)
  = payment_key_taken uid mon (Some x) (payments db).
Proof.
  unfold period_in, existing_periods, payment_key_taken.
  induction (payments db) as [|p l IH]; simpl; [reflexivity|].
  destruct (String.eqb (Payment.user_id p) uid && String.eqb (Payment.month p) mon);
    simpl; rewrite IH; reflexivity.
Qed.

(** The period that the allocation picks is free under the UNIQUE
    constraint of [payments]. *)
Lemma allocated_period_free ty uid mon db per :
  allocate_period ty uid mon db = Some per ->
  payment_key_taken uid mon per (payments db) = false.
Proof.
  unfold allocate_period. destruct (String.eqb ty "15-day").
  - destruct (period_in "first_half" _) eqn:E1; simpl.
    + destruct (period_in "second_half" _) eqn:E2; simpl; [discriminate|].
      intros H. inversion H. rewrite <- period_in_existing. exact E2.
    + intros H. inversion H. rewrite <- period_in_existing. exact E1.
  - intros H. inversion H. reflexivity.
Qed.

Lemma eqb_true_not_null (a b : float) : (a =? b)%float = true -> real_not_null a = true.
Proof.
  unfold real_not_null, PrimFloat.is_nan. rewrite negb_involutive.
  rewrite !FloatAxioms.eqb_spec. unfold SFeqb.
  destruct (Prim2SF a) as [s | s | | s m e]; simpl;
    try destruct s; simpl; try congruence;
    intros _; rewrite ?Z.compare_refl, ?Pos.compare_refl; reflexivity.
Qed.

(** The INSERT of [record_payment] cannot fail. *)
Lemma insert_allocated ty uid amount date month period stamp db :
  real_not_null amount = true ->
  allocate_period ty uid month db = Some period ->
  exists db', insert_payment uid amount date month period stamp db = Ok db'.
Proof.
  intros NN A. unfold insert_payment. rewrite NN.
  rewrite (allocated_period_free _ _ _ _ _ A). eexists. reflexivity.
Qed.

(** C2, as the code has it.  A refused payment inserts no payment row and
    commits nothing.  The state is the state before the call after every
    refusal but [PeriodExhaustedError]: there the plan written by step 4, if
    the plan selected differs from the bound member's, stays on the
    connection, uncommitted, and nothing else differs. *)
Theorem refused_payment_state (amount_entry : float_text)
    (month membership_type : string) (now : datetime) (st : app) :
  match record_payment amount_entry month membership_type now st with
  | (Recorded _, _) => True
  | (PeriodExhaustedError, st') =>
      exists member,
        current_member st = Some member
        /\ disk st' = disk st
        /\ current_member st' = current_member st
        /\ payments (conn st') = payments (conn st)
        /\ payments_seq (conn st') = payments_seq (conn st)
        /\ members (conn st')
           = if String.eqb membership_type (Member.membership_type member)
             then members (conn st)
             else plan_changed (Member.user_id member) membership_type (timestamp now)
                               (members (conn st))
  | (_, st') => st' = st
  end.
Proof.
  unfold record_payment.
  destruct (current_member st) as [member|] eqn:Hcm; [|reflexivity].
  destruct amount_entry as [| |amount]; try reflexivity.
  destruct (amount <=? 0)%float; [reflexivity|].
  destruct (negb (re_month month)); [reflexivity|].
  destruct (negb (nonempty membership_type)); [reflexivity|].
  destruct (negb (amount =? Member.total_fee member)%float) eqn:Eq; [reflexivity|].
  apply negb_false_iff in Eq.
  assert (NN : real_not_null amount = true) by exact (eqb_true_not_null _ _ Eq).
  assert (INS : forall db period,
             allocate_period membership_type (Member.user_id member) month db = Some period ->
             exists db', insert_payment (Member.user_id member) amount (today now) month
                                        period (timestamp now) db = Ok db')
    by (intros db period A; exact (insert_allocated _ _ _ _ _ _ _ _ NN A)).
  destruct (String.eqb membership_type (Member.membership_type member)) eqn:Ety;
    cbv beta iota delta [negb].
  - destruct (allocate_period _ _ _ _) as [period|] eqn:A.
    + destruct (INS _ _ A) as [db' ->]. exact I.
    + exists member. rewrite Ety. destruct st; simpl in *. repeat split; auto.
  - destruct (update_members _ _ _) as [t|] eqn:U; [|reflexivity].
    apply update_members_Ok in U as [-> _].
    destruct (allocate_period _ _ _ _) as [period|] eqn:A.
    + destruct (INS _ _ A) as [db' ->]. exact I.
    + exists member. rewrite Ety. destruct st; simpl in *. repeat split; auto.
Qed.

(** C2 fails as stated: member 1001, stored on the 30-day plan with both
    halves of June paid, is refused a third June payment on the 15-day plan,
    and the connection then shows the member on the 15-day plan; the next
    commit, here the registration of another member, makes it durable. *)
Lemma refused_payment_changes_plan :
  let before := snd (search_member "1001" switched) in
  let outcome := record_payment (Number 2400) "2024-06" "15-day" (at_ 2024 7 9 9 5 7) before in
  fst outcome = PeriodExhaustedError
  /\ map Member.membership_type (members (conn before)) = ["30-day"]
  /\ map Member.membership_type (members (conn (snd outcome))) = ["15-day"]
  /\ snd outcome <> before
  /\ map Member.membership_type
         (members (disk (snd (save_member form_1002 (at_ 2024 7 9 10 0 0) (snd outcome)))))
     = ["15-day"; "30-day"].
Proof.
  cbv zeta. repeat split; try (vm_compute; reflexivity).
  intros H. apply (f_equal (fun s => map Member.membership_type (members (conn s)))) in H.
  vm_compute in H. discriminate H.
Qed.

(** ** Payments: allocation of the period *)

(** A payment of the exact fee on the plan the member already has is
    recorded with the period that the allocation picks, and committed. *)
Lemma record_payment_recorded (st : app) (member : Member.row) (month ty : string)
    (period : option string) (now : datetime) :
  current_member st = Some member ->
  Member.membership_type member = ty ->
  (0 <? Member.total_fee member)%float = true ->
  re_month month = true ->
  nonempty ty = true ->
  allocate_period ty (Member.user_id member) month (conn st) = Some period ->
  record_payment (Number (Member.total_fee member)) month ty now st
  = (Recorded period,
     commit (paid (Member.user_id member) (Member.total_fee member) month period now
                  (conn st)) None).
Proof.
  intros Hcm Hty Hpos Hmonth Hne Halloc.
  unfold record_payment.
  rewrite Hcm, (positive_not_le0 _ Hpos), Hmonth, Hne, (positive_eq_refl _ Hpos).
  subst ty. rewrite String.eqb_refl. cbv beta iota delta [negb].
  replace (conn (pending st (with_members (conn st) (members (conn st))))) with (conn st)
    by (destruct st as [d [ms ps sq] cm]; reflexivity).
  rewrite Halloc. unfold insert_payment.
  rewrite (positive_not_null _ Hpos), (allocated_period_free _ _ _ _ _ Halloc).
  reflexivity.
Qed.

Lemma existing_periods_paid uid mon per amt now db :
  existing_periods uid mon (paid uid amt mon per now db)
  = (existing_periods uid mon db ++ [per])%list.
Proof.
  unfold existing_periods, paid. simpl.
  rewrite List.filter_app, map_app. simpl. rewrite !String.eqb_refl. reflexivity.
Qed.

(** C10.  A member on the 15-day plan whose payments of the month hold
    [second_half] but not [first_half] pays the exact fee: the payment is
    recorded, with period [first_half]. *)
Theorem first_half_allocated_first (st : app) (member : Member.row) (month : string)
    (now : datetime) :
  current_member st = Some member ->
  Member.membership_type member = "15-day" ->
  (0 <? Member.total_fee member)%float = true ->
  re_month month = true ->
  period_in "second_half" (existing_periods (Member.user_id member) month (conn st)) = true ->
  period_in "first_half" (existing_periods (Member.user_id member) month (conn st)) = false ->
  record_payment (Number (Member.total_fee member)) month "15-day" now st
  = (Recorded (Some "first_half"),
     commit (paid (Member.user_id member) (Member.total_fee member) month
                  (Some "first_half") now (conn st)) None).
Proof.
  intros Hcm Hty Hpos Hmonth _ Hfirst.
  apply record_payment_recorded; auto.
  unfold allocate_period. rewrite Hfirst. reflexivity.
Qed.

Lemma first_half_allocated_first_witness :
  record_payment (Number 2400) "2024-06" "15-day" (at_ 2024 6 20 9 5 7)
                 (snd (search_member "1001" second_half_only))
  = (Recorded (Some "first_half"),
     commit (paid "1001" 2400 "2024-06" (Some "first_half") (at_ 2024 6 20 9 5 7)
                  (conn (snd (search_member "1001" second_half_only)))) None).
Proof.
  apply (first_half_allocated_first
           (snd (search_member "1001" second_half_only))
           (form_row (form_1001 "15-day" "2024-06-30") 2000 2400 true
                     "2024-06-01 09:00:00" None));
    vm_compute; reflexivity.
Defined.

Lemma record_payment_exhausted (st : app) (member : Member.row) (month ty : string)
    (now : datetime) :
  current_member st = Some member ->
  Member.membership_type member = ty ->
  (0 <? Member.total_fee member)%float = true ->
  re_month month = true ->
  nonempty ty = true ->
  allocate_period ty (Member.user_id member) month (conn st) = None ->
  record_payment (Number (Member.total_fee member)) month ty now st
  = (PeriodExhaustedError, st).
Proof.
  intros Hcm Hty Hpos Hmonth Hne Halloc.
  unfold record_payment.
  rewrite Hcm, (positive_not_le0 _ Hpos), Hmonth, Hne, (positive_eq_refl _ Hpos).
  subst ty. rewrite String.eqb_refl. cbv beta iota delta [negb].
  replace (pending st (with_members (conn st) (members (conn st)))) with st
    by (destruct st as [d [ms ps sq] cm]; reflexivity).
  rewrite Halloc. reflexivity.
Qed.

(** [search_member] reads the members table of the connection only. *)
Lemma search_member_binds (key : string) (st st' : app) (member : Member.row) :
  fst (search_member key st) = Some member ->
  members (conn st') = members (conn st) ->
  snd (search_member key st')
  = {| disk := disk st'; conn := conn st'; current_member := Some member |}.
Proof.
  unfold search_member. intros H E. rewrite E.
  destruct (negb (nonempty key)); [discriminate|].
  destruct (find _ _) as [found|]; [|discriminate].
  simpl in H. inversion H. reflexivity.
Qed.

(** C3.  A member on the 15-day plan, found by [key], has no payment yet
    for [month] and pays the exact fee three times: the first payment is
    recorded for [first_half], the second for [second_half], and the third is
    refused with [PeriodExhaustedError]; the month then holds the two halves,
    in this order. *)
Theorem fifteen_day_halves_in_order (st : app) (key : string) (member : Member.row)
    (month : string) (now1 now2 now3 : datetime) :
  fst (search_member key st) = Some member ->
  Member.membership_type member = "15-day" ->
  (0 <? Member.total_fee member)%float = true ->
  re_month month = true ->
  existing_periods (Member.user_id member) month (conn st) = [] ->
  let amount := Member.total_fee member in
  let first := RecordPayment key amount month "15-day" now1 st in
  let second := RecordPayment key amount month "15-day" now2 (snd first) in
  let third := RecordPayment key amount month "15-day" now3 (snd second) in
  fst first = Recorded (Some "first_half")
  /\ fst second = Recorded (Some "second_half")
  /\ fst third = PeriodExhaustedError
  /\ existing_periods (Member.user_id member) month (conn (snd third))
     = [Some "first_half"; Some "second_half"].
Proof.
  intros Hfound Hty Hpos Hmonth Hnone. cbv zeta.
  set (uid := Member.user_id member) in *.
  set (fee := Member.total_fee member) in *.
  (* first call *)
  assert (E1 : RecordPayment key fee month "15-day" now1 st
               = (Recorded (Some "first_half"),
                  commit (paid uid fee month (Some "first_half") now1 (conn st)) None)).
  { unfold RecordPayment. rewrite (search_member_binds key st st member Hfound eq_refl).
    pose proof (record_payment_recorded
                  {| disk := disk st; conn := conn st; current_member := Some member |}
                  member month "15-day" (Some "first_half") now1
                  eq_refl Hty Hpos Hmonth eq_refl) as R.
    apply R. unfold allocate_period. simpl. fold uid. rewrite Hnone. reflexivity. }
  rewrite E1. simpl snd.
  set (db1 := paid uid fee month (Some "first_half") now1 (conn st)).
  assert (P1 : existing_periods uid month db1 = [Some "first_half"]).
  { unfold db1. rewrite existing_periods_paid, Hnone. reflexivity. }
  (* second call *)
  assert (E2 : RecordPayment key fee month "15-day" now2 (commit db1 None)
               = (Recorded (Some "second_half"),
                  commit (paid uid fee month (Some "second_half") now2 db1) None)).
  { unfold RecordPayment.
    rewrite (search_member_binds key st (commit db1 None) member Hfound eq_refl).
    pose proof (record_payment_recorded
                  {| disk := db1; conn := db1; current_member := Some member |}
                  member month "15-day" (Some "second_half") now2
                  eq_refl Hty Hpos Hmonth eq_refl) as R.
    apply R. unfold allocate_period. simpl. fold uid. rewrite P1. reflexivity. }
  rewrite E2. simpl snd.
  set (db2 := paid uid fee month (Some "second_half") now2 db1).
  assert (P2 : existing_periods uid month db2 = [Some "first_half"; Some "second_half"]).
  { unfold db2. rewrite existing_periods_paid, P1. reflexivity. }
  (* third call *)
  assert (E3 : RecordPayment key fee month "15-day" now3 (commit db2 None)
               = (PeriodExhaustedError,
                  {| disk := db2; conn := db2; current_member := Some member |})).
  { unfold RecordPayment.
    rewrite (search_member_binds key st (commit db2 None) member Hfound eq_refl).
    pose proof (record_payment_exhausted
                  {| disk := db2; conn := db2; current_member := Some member |}
                  member month "15-day" now3
                  eq_refl Hty Hpos Hmonth eq_refl) as R.
    apply R. unfold allocate_period. simpl. fold uid. rewrite P2. reflexivity. }
  rewrite E3. simpl. auto.
Qed.

Lemma fifteen_day_halves_in_order_witness :
  let first := RecordPayment "1001" 2400 "2024-06" "15-day" (at_ 2024 6 3 9 5 7) gym_15 in
  let second := RecordPayment "1001" 2400 "2024-06" "15-day" (at_ 2024 6 17 9 5 7) (snd first) in
  let third := RecordPayment "1001" 2400 "2024-06" "15-day" (at_ 2024 6 28 9 5 7) (snd second) in
  fst first = Recorded (Some "first_half")
  /\ fst second = Recorded (Some "second_half")
  /\ fst third = PeriodExhaustedError
  /\ existing_periods "1001" "2024-06" (conn (snd third))
     = [Some "first_half"; Some "second_half"].
Proof.
  apply (fifteen_day_halves_in_order gym_15 "1001"
           (form_row (form_1001 "15-day" "2024-06-30") 2000 2400 true
                     "2024-06-01 09:00:00" None));
    vm_compute; reflexivity.
Defined.

(** ** Payments: the 30-day plan *)

(** On the 30-day plan the period is NULL, which the UNIQUE constraint never
    refuses: a payment of the exact fee is recorded whatever the month
    already holds. *)
Lemma thirty_day_always_recorded (st : app) (member : Member.row) (month : string)
    (now : datetime) :
  current_member st = Some member ->
  Member.membership_type member = "30-day" ->
  (0 <? Member.total_fee member)%float = true ->
  re_month month = true ->
  record_payment (Number (Member.total_fee member)) month "30-day" now st
  = (Recorded None,
     commit (paid (Member.user_id member) (Member.total_fee member) month None now
                  (conn st)) None).
Proof.
  intros Hcm Hty Hpos Hmonth. apply record_payment_recorded; auto.
Qed.

(** C1 on the code.  The end-to-end example of the specification: member
    1001 (fee 2400, 30-day plan) pays June 2024 twice.  Both payments are
    recorded, and the month holds two rows with a NULL period. *)
Theorem thirty_day_month_paid_twice :
  let first := RecordPayment "1001" 2400 "2024-06" "30-day" (at_ 2024 6 3 9 5 7) gym_30 in
  let second := RecordPayment "1001" 2400 "2024-06" "30-day" (at_ 2024 6 4 9 5 7) (snd first) in
  fst first = Recorded None
  /\ fst second = Recorded None
  /\ map (fun p => (Payment.id p, Payment.user_id p, Payment.month p, Payment.period p))
         (payments (disk (snd second)))
     = [(1, "1001", "2024-06", None); (2, "1001", "2024-06", None)].
Proof. vm_compute. repeat split; reflexivity. Qed.

(** ** Member search *)

Lemma re_digits_at_least_one (hi : option nat) (lo : nat) (s : string) :
  (1 <= lo)%nat -> re_digits lo hi s = true -> re_digits 1 None s = true.
Proof.
  unfold re_digits. intros Hlo H.
  apply andb_true_iff in H as [H _]. apply andb_true_iff in H as [Hd Hl].
  rewrite Hd, andb_true_r. cbn [andb].
  apply Nat.leb_le in Hl. apply Nat.leb_le. lia.
Qed.

(** A text that [validate_cnic] accepts is all digits, so [search_members]
    takes it for a user id: the branch that looks a member up by CNIC is
    never taken for it. *)
Lemma search_members_cnic_as_user_id (cnic : string) (st : app) :
  validate_cnic cnic = true ->
  search_members cnic st
  = Some (map shown (List.filter (fun r => String.eqb (Member.user_id r) cnic
                                           && Member.is_active r)
                                 (members (conn st)))).
Proof.
  intros H. unfold search_members.
  assert (D : re_digits 1 None cnic = true).
  { apply (re_digits_at_least_one (Some 13%nat) 13); [lia | exact H]. }
  rewrite D.
  assert (N : nonempty cnic = true).
  { unfold re_digits in D. destruct cnic; [discriminate | reflexivity]. }
  rewrite N. reflexivity.
Qed.

(** Both search flows return active members only, each matching the text
    searched on one of the two keys. *)
Lemma search_members_active (v : string) (st : app) rows :
  search_members v st = Some rows ->
  forall x, In x rows ->
    exists r, In r (members (conn st)) /\ Member.is_active r = true /\ x = shown r
              /\ (Member.user_id r = v \/ Member.cnic r = v).
Proof.
  unfold search_members. destruct (negb (nonempty v)); [discriminate|].
  intros H x Hx. inversion H; subst rows; clear H.
  apply in_map_iff in Hx as [r [<- Hr]].
  destruct (re_digits 1 None v); apply filter_In in Hr as [Hin Hp];
    apply andb_true_iff in Hp as [Hk Ha]; apply String.eqb_eq in Hk;
    exists r; auto.
Qed.

Lemma search_member_active (v : string) (st : app) (r : Member.row) :
  fst (search_member v st) = Some r ->
  In r (members (conn st)) /\ Member.is_active r = true
  /\ (Member.user_id r = v \/ Member.cnic r = v).
Proof.
  unfold search_member. destruct (negb (nonempty v)); [discriminate|].
  destruct (find _ _) as [found|] eqn:F; [|discriminate].
  simpl. intros H. inversion H; subst found.
  apply find_some in F as [Hin Hp]. apply andb_true_iff in Hp as [Hk Ha].
  split; [exact Hin | split; [exact Ha|]].
  apply orb_true_iff in Hk as [Hk | Hk]; apply String.eqb_eq in Hk; auto.
Qed.

(** C6 on the code.  Member 1001 is active and its CNIC is 1234567890123:
    the search of the member tab finds the member by user id and finds
    nothing by that CNIC, which the payment tab does find. *)
Theorem search_members_misses_cnic :
  map (fun r => (Member.user_id r, Member.cnic r, Member.is_active r))
      (members (conn gym_30)) = [("1001", "1234567890123", true)]
  /\ validate_cnic "1234567890123" = true
  /\ search_members "1234567890123" gym_30 = Some []
  /\ search_members "1001" gym_30 = Some [("1001", "Ali", "1234567890123", "30-day")]
  /\ option_map shown (fst (search_member "1234567890123" gym_30))
     = Some ("1001", "Ali", "1234567890123", "30-day").
Proof. vm_compute. repeat split; reflexivity. Qed.

(** ** The total fee *)

(** The code computes the derived fee of the specification. *)
Lemma derived_fee_formula (r : Member.row) :
  derived_fee r = fee_formula (Member.base_fee r) (Member.has_treadmill r).
Proof. reflexivity. Qed.

Lemma member_row_ok_fee r :
  member_row_ok r = true -> (Member.total_fee r =? Member.total_fee r)%float = true.
Proof.
  unfold member_row_ok. intros H. apply andb_true_iff in H as [_ H].
  apply real_not_null_eq_refl, H.
Qed.

Lemma updated_elsewhere (uid : string) (set : Member.row -> Member.row) (l : list Member.row) :
  ~ In uid (map Member.user_id l) ->
  map (updated (fun r => String.eqb (Member.user_id r) uid) set) l = l.
Proof.
  induction l as [|r l IH]; simpl; intros H; [reflexivity|].
  unfold updated at 1. destruct (String.eqb_spec (Member.user_id r) uid) as [E|E].
  - exfalso. apply H. left. exact E.
  - rewrite IH; [reflexivity|]. intros Hin. apply H. right. exact Hin.
Qed.

(** With [user_id] a key, an UPDATE by user id touches the one row. *)
Lemma updated_one_row (m : Member.row) (set : Member.row -> Member.row)
    (done rest : list Member.row) :
  List.NoDup (map Member.user_id (done ++ m :: rest)%list) ->
  map (updated (fun r => String.eqb (Member.user_id r) (Member.user_id m)) set)
      (done ++ m :: rest)%list
  = (done ++ set m :: rest)%list.
Proof.
  intros ND. rewrite map_app in ND. simpl in ND.
  assert (N1 : ~ In (Member.user_id m) (map Member.user_id done)).
  { apply NoDup_remove_2 in ND. intros H. apply ND, in_or_app. left. exact H. }
  assert (N2 : ~ In (Member.user_id m) (map Member.user_id rest)).
  { apply NoDup_remove_2 in ND. intros H. apply ND, in_or_app. right. exact H. }
  rewrite map_app. simpl. rewrite (updated_elsewhere _ _ _ N1), (updated_elsewhere _ _ _ N2).
  unfold updated. rewrite String.eqb_refl. reflexivity.
Qed.

Lemma reconcile_rows_consistent (stamp : string) : forall rest done t',
  List.NoDup (map Member.user_id (done ++ rest)%list) ->
  Forall (fun r => fee_consistent r = true) done ->
  reconcile_rows rest stamp (done ++ rest)%list = (true, t') ->
  Forall (fun r => fee_consistent r = true) t'.
Proof.
  induction rest as [|m rest IH]; intros done t' ND Hdone H.
  - simpl in H. inversion H. rewrite app_nil_r. exact Hdone.
  - simpl in H.
    destruct (Member.total_fee m =? fee_formula (Member.base_fee m) (Member.has_treadmill m))%float
      eqn:Efee; simpl in H.
    + replace (done ++ m :: rest)%list with ((done ++ [m]) ++ rest)%list in *
        by (rewrite <- app_assoc; reflexivity).
      apply (IH (done ++ [m])%list); auto.
      apply Forall_app. split; [exact Hdone | constructor; [exact Efee | constructor]].
    + destruct (update_members _ _ _) as [t1|] eqn:U; [|discriminate].
      apply update_members_Ok in U as [-> Hok].
      rewrite (updated_one_row m _ done rest ND) in H.
      assert (K : member_row_ok (set_total_fee
                    (fee_formula (Member.base_fee m) (Member.has_treadmill m)) stamp m) = true).
      { rewrite List.Forall_forall in Hok. apply (Hok m).
        - apply in_or_app. right. left. reflexivity.
        - apply String.eqb_refl. }
      set (m' := set_total_fee _ stamp m) in *.
      replace (done ++ m' :: rest)%list with ((done ++ [m']) ++ rest)%list in H
        by (rewrite <- app_assoc; reflexivity).
      apply (IH (done ++ [m'])%list) in H; auto.
      * rewrite <- app_assoc. simpl. rewrite map_app in *. simpl in *. exact ND.
      * apply Forall_app. split; [exact Hdone | constructor; [|constructor]].
        apply member_row_ok_fee in K. exact K.
Qed.

(** An UPDATE that keeps both keys and writes rows that satisfy the
    constraints of a row cannot fail. *)
Lemma update_members_goes_through where_ set (t : list Member.row) :
  (forall r, In r t -> where_ r = true ->
             member_row_ok (set r) = true
             /\ Member.user_id (set r) = Member.user_id r
             /\ Member.cnic (set r) = Member.cnic r) ->
  update_members where_ set t = Ok (map (updated where_ set) t).
Proof.
  unfold update_members.
  cut (forall todo done,
          (forall r, In r todo -> where_ r = true ->
                     member_row_ok (set r) = true
                     /\ Member.user_id (set r) = Member.user_id r
                     /\ Member.cnic (set r) = Member.cnic r) ->
          update_members_from where_ set done todo
          = Ok (done ++ map (updated where_ set) todo)%list).
  { intros C H. exact (C t [] H). }
  induction todo as [|r todo IH]; intros done H; simpl.
  - rewrite app_nil_r. reflexivity.
  - unfold updated at 1. destruct (where_ r) eqn:W.
    + destruct (H r (or_introl eq_refl) W) as (K & E1 & E2).
      rewrite K. unfold member_key_clash. rewrite E1, E2, !String.eqb_refl. simpl.
      rewrite IH by (intros x Hx; apply H; right; exact Hx).
      rewrite <- app_assoc. reflexivity.
    + rewrite IH by (intros x Hx; apply H; right; exact Hx).
      rewrite <- app_assoc. reflexivity.
Qed.


Lemma Forall2_updated (P : Member.row -> Prop) where_ set (t : list Member.row) :
  Forall (fun r => where_ r = true -> P (set r)) t ->
  Forall2 (fun old new => new = old \/ P new) t (map (updated where_ set) t).
Proof.
  induction 1 as [|r l Hr Hl IH]; simpl; constructor; [|exact IH].
  unfold updated. destruct (where_ r); [right; auto | left; reflexivity].
Qed.

Lemma Forall2_keeps (P : Member.row -> Prop) (t t' : list Member.row) :
  Forall2 (fun old new => new = old \/ P new) t t' -> Forall P t -> Forall P t'.
Proof.
  induction 1 as [|r r' l l' Hr Hl IH]; intros HF; [constructor|].
  inversion HF; subst. constructor; [destruct Hr as [->|Hr]; assumption | auto].
Qed.

Lemma save_member_fee f now st st' :
  save_member f now st = (Success, st') ->
  disk st' = conn st'
  /\ exists r, members (conn st') = (members (conn st) ++ [r])%list
               /\ fee_consistent r = true.
Proof.
  unfold save_member.
  destruct (validate_form f) as [w|base_fee]; [discriminate|].
  destruct (match photo_ext f with Some _ => _ | None => _ end) as [w|photo];
    [discriminate|].
  unfold insert_member.
  destruct (member_row_ok _) eqn:K; [|discriminate].
  destruct (negb _); [|discriminate].
  simpl. intros H. inversion H; subst st'; clear H. simpl.
  split; [reflexivity|]. eexists. split; [reflexivity|].
  apply member_row_ok_fee in K. exact K.
Qed.

Lemma update_member_fee selected f now st st' :
  update_member selected f now st = (Success, st') ->
  disk st' = conn st'
  /\ Forall2 (fun old new => new = old \/ fee_consistent new = true)
             (members (conn st)) (members (conn st')).
Proof.
  unfold update_member.
  destruct selected as [old_user_id|]; [|discriminate].
  destruct (validate_form f) as [w|base_fee]; [discriminate|].
  destruct (member_by_id _ _) as [old|]; [|discriminate].
  destruct (match photo_ext f with Some _ => _ | None => _ end) as [w|photo];
    [discriminate|].
  destruct (update_members _ _ _) as [t|] eqn:U; [|discriminate].
  intros H. inversion H; subst st'; clear H. simpl.
  split; [reflexivity|].
  apply update_members_Ok in U as [-> Hok].
  apply Forall2_updated. revert Hok. apply List.Forall_impl.
  intros r Hr Hw. apply member_row_ok_fee in Hr; [exact Hr | exact Hw].
Qed.

Lemma update_total_fees_fee now st st' :
  List.NoDup (map Member.user_id (members (conn st))) ->
  update_total_fees now st = (true, st') ->
  disk st' = conn st'
  /\ Forall (fun r => fee_consistent r = true) (members (conn st')).
Proof.
  intros ND. unfold update_total_fees.
  destruct (reconcile_rows _ _ _) as [[|] t] eqn:R; intros H; inversion H; subst st'.
  simpl. split; [reflexivity|].
  apply (reconcile_rows_consistent (timestamp now) (members (conn st)) [] t);
    [exact ND | constructor | exact R].
Qed.


(** Rows that satisfy the equation keep satisfying it through a
    registration and through an update. *)
Lemma save_member_keeps_fees f now st st' :
  save_member f now st = (Success, st') ->
  Forall (fun r => fee_consistent r = true) (members (conn st)) ->
  Forall (fun r => fee_consistent r = true) (members (conn st')).
Proof.
  intros H HF. destruct (save_member_fee _ _ _ _ H) as [_ [r [-> Hr]]].
  apply Forall_app. split; [exact HF | constructor; [exact Hr | constructor]].
Qed.

Lemma update_member_keeps_fees selected f now st st' :
  update_member selected f now st = (Success, st') ->
  Forall (fun r => fee_consistent r = true) (members (conn st)) ->
  Forall (fun r => fee_consistent r = true) (members (conn st')).
Proof.
  intros H HF. destruct (update_member_fee _ _ _ _ _ H) as [_ H2].
  exact (Forall2_keeps _ _ _ H2 HF).
Qed.



(** The pass at work: the stale row of member 1001 is rewritten to 2400. *)
Example update_total_fees_rewrites :
  map Member.total_fee (members (conn stale_fee)) = [2000%float]
  /\ map Member.total_fee
         (members (disk (snd (update_total_fees (at_ 2024 7 1 8 0 0) stale_fee))))
     = [2400%float].
Proof. vm_compute. split; reflexivity. Qed.

(** ** Payment reports *)

(** With [user_id] a key of [members], the join finds for a payment the one
    member that [member_by_id] finds, or none. *)
Lemma join_one_member (uid : string) (P : Member.row -> bool) (t : list Member.row) :
  List.NoDup (map Member.user_id t) ->
  List.filter (fun m => String.eqb uid (Member.user_id m) && P m) t
  = match member_by_id uid t with
    | Some m => if P m then [m] else []
    | None => []
    end.
Proof.
  unfold member_by_id.
  induction t as [|r t IH]; simpl; intros ND; [reflexivity|].
  inversion ND as [|? ? Hnotin ND']; subst.
  rewrite (String.eqb_sym (Member.user_id r) uid).
  destruct (String.eqb_spec uid (Member.user_id r)) as [E|E]; simpl.
  - assert (Z0 : List.filter (fun m => String.eqb uid (Member.user_id m) && P m) t = []).
    { clear IH ND ND'. induction t as [|x t IHt]; simpl; [reflexivity|].
      destruct (String.eqb_spec uid (Member.user_id x)) as [Ex|Ex]; simpl.
      - exfalso. apply Hnotin. left. congruence.
      - apply IHt. intros H. apply Hnotin. right. exact H. }
    rewrite Z0. destruct (P r); reflexivity.
  - apply IH, ND'.
Qed.

Lemma payment_report_rows_spec report_type month sport db :
  List.NoDup (map Member.user_id (members db)) ->
  Forall2 (fun p row => exists m, member_by_id (Payment.user_id p) (members db) = Some m
                                  /\ row = joined p m)
          (List.filter (report_matches report_type month sport db) (payments db))
          (payment_report_rows report_type month sport db).
Proof.
  intros ND. unfold payment_report_rows.
  induction (payments db) as [|p l IH]; simpl; [constructor|].
  unfold report_matches at 1.
  destruct (String.eqb (Payment.month p) month); simpl; [|exact IH].
  rewrite (join_one_member _ _ _ ND).
  destruct (member_by_id (Payment.user_id p) (members db)) as [m|] eqn:M; [|exact IH].
  destruct (kind_predicate report_type sport m); simpl; [|exact IH].
  constructor; [|exact IH]. exists m. split; reflexivity || exact M.
Qed.

(** The size of the set of user ids is the number of distinct ones. *)
Lemma size_user_ids (l : list string) :
  size (list_to_set l : gset string) = List.length (remove_dups l).
Proof.
  rewrite <- (size_list_to_set (C := gset string) (remove_dups l))
    by apply NoDup_remove_dups.
  f_equal. apply set_eq. intros x.
  rewrite !elem_of_list_to_set, elem_of_remove_dups. reflexivity.
Qed.

Lemma member_by_id_user_id uid t m :
  member_by_id uid t = Some m -> Member.user_id m = uid.
Proof.
  unfold member_by_id. intros H. apply find_some in H as [_ H].
  apply String.eqb_eq, H.
Qed.

Lemma sum_amounts_joined (matching : list Payment.row) (data : list report_row) :
  Forall2 (fun p row => r_amount row = Payment.amount p) matching data ->
  forall acc,
    fold_left (fun acc row => (acc + r_amount row)%float) data acc
    = fold_left (fun acc p => (acc + Payment.amount p)%float) matching acc.
Proof.
  induction 1 as [|p row l l' E H IH]; intros acc; simpl; [reflexivity|].
  rewrite E. apply IH.
Qed.

(** The code's condition of a kind is the one of the specification. *)
Lemma kind_predicate_condition (k : report_kind) (m : Member.row) :
  kind_predicate (kind_type k) (kind_sport k) m = kind_condition k m.
Proof.
  destruct k as [| | |sport]; try reflexivity.
  unfold kind_predicate, kind_condition, kind_type, kind_sport.
  change (String.eqb "Sport Category" "30-Day Plan") with false.
  change (String.eqb "Sport Category" "15-Day Plan") with false.
  change (String.eqb "Sport Category" "Sport Category") with true.
  cbv iota. cbn [andb orb]. destruct (String.eqb sport "All"); reflexivity.
Qed.

Lemma existsb_member_by_id (uid : string) (P : Member.row -> bool) (t : list Member.row) :
  List.NoDup (map Member.user_id t) ->
  existsb (fun m => String.eqb (Member.user_id m) uid && P m) t
  = match member_by_id uid t with Some m => P m | None => false end.
Proof.
  unfold member_by_id. induction t as [|r t IH]; simpl; intros ND; [reflexivity|].
  inversion ND as [|? ? Hn ND']; subst.
  destruct (String.eqb_spec (Member.user_id r) uid) as [E|E]; simpl; [|exact (IH ND')].
  destruct (P r); [reflexivity|]. simpl.
  apply not_true_is_false. intros H. apply existsb_exists in H as [x [Hx Hp]].
  apply andb_true_iff in Hp as [Hu _]. apply String.eqb_eq in Hu.
  apply Hn. rewrite E, <- Hu. apply in_map, Hx.
Qed.

Lemma in_report_matches (k : report_kind) (month : string) (db : database)
    (p : Payment.row) :
  List.NoDup (map Member.user_id (members db)) ->
  in_report k month db p = report_matches (kind_type k) month (kind_sport k) db p.
Proof.
  intros ND. unfold in_report, report_matches.
  rewrite (existsb_member_by_id _ (kind_condition k) _ ND).
  destruct (member_by_id _ _) as [m|]; [|reflexivity].
  rewrite kind_predicate_condition. reflexivity.
Qed.

Lemma Forall2_filtered {A B : Type} (f : A -> bool) (R : A -> B -> Prop)
    (l : list A) (k : list B) :
  Forall2 R (List.filter f l) k ->
  Forall2 (fun a b => f a = true /\ R a b) (List.filter f l) k.
Proof.
  assert (G : forall l', Forall (fun a => f a = true) l' -> Forall2 R l' k ->
                         Forall2 (fun a b => f a = true /\ R a b) l' k).
  { intros l' Hf H. induction H as [|a b l1 k1 Hab _ IH]; [constructor|].
    inversion Hf; subst. constructor; [split; assumption | apply IH; assumption]. }
  apply G. apply List.Forall_forall. intros a Ha. apply filter_In in Ha as [_ Ha]. exact Ha.
Qed.

(** C9.  With [user_id] the key of [members], the payment report of each of
    the four kinds holds one row per payment of the month whose member
    satisfies the condition of the kind (the plan equal to that of the kind,
    the sport category equal to the sport unless that is "All"), in the order
    of the payments (two payments of one member are two rows); and when there
    is such a payment its summary gives the sum of the amounts of these
    payments, their number, and the number of distinct user ids among them.
    Without such a payment the report is empty and has no summary. *)
Theorem payment_report_rows_and_summary (k : report_kind) (month : string) (st : app) :
  List.NoDup (map Member.user_id (members (conn st))) ->
  let matching := List.filter (in_report k month (conn st)) (payments (conn st)) in
  let data := payment_report_rows (kind_type k) month (kind_sport k) (conn st) in
  Forall2 (fun p row =>
             r_id row = Payment.id p /\ r_user_id row = Payment.user_id p
             /\ r_amount row = Payment.amount p
             /\ exists m, In m (members (conn st))
                          /\ Member.user_id m = Payment.user_id p
                          /\ kind_condition k m = true
                          /\ row = joined p m)
          matching data
  /\ generate_payment_report (kind_type k) month (kind_sport k) st
     = match matching with
       | [] => NoData
       | _ =>
           Report data
             {| total_revenue :=
                  fold_left (fun acc p => (acc + Payment.amount p)%float) matching 0%float;
                payment_count := List.length matching;
                member_count := List.length (remove_dups (map Payment.user_id matching)) |}
       end.
Proof.
  intros ND matching data.
  assert (M : matching
              = List.filter (report_matches (kind_type k) month (kind_sport k) (conn st))
                            (payments (conn st))).
  { unfold matching. apply filter_ext. intros p. apply in_report_matches, ND. }
  assert (F : Forall2 (fun p row =>
             r_id row = Payment.id p /\ r_user_id row = Payment.user_id p
             /\ r_amount row = Payment.amount p
             /\ exists m, In m (members (conn st))
                          /\ Member.user_id m = Payment.user_id p
                          /\ kind_condition k m = true
                          /\ row = joined p m) matching data).
  { pose proof (payment_report_rows_spec (kind_type k) month (kind_sport k) (conn st) ND)
      as S.
    fold data in S. apply Forall2_filtered in S. rewrite <- M in S.
    eapply Forall2_impl; [exact S|].
    intros p row [Hp [m [Hm ->]]]. simpl.
    pose proof (member_by_id_user_id _ _ _ Hm) as U.
    repeat split; [exact U|]. exists m.
    unfold report_matches in Hp. rewrite Hm in Hp.
    apply andb_true_iff in Hp as [_ Hk]. rewrite kind_predicate_condition in Hk.
    unfold member_by_id in Hm. apply find_some in Hm as [Hin _]. auto. }
  split; [exact F|].
  unfold generate_payment_report. fold data.
  assert (L : List.length data = List.length matching).
  { symmetry. eapply Forall2_length, F. }
  assert (S : sum_amounts data
              = fold_left (fun acc p => (acc + Payment.amount p)%float) matching 0%float).
  { apply sum_amounts_joined. eapply Forall2_impl; [exact F|].
    intros p row (_ & _ & E & _). exact E. }
  assert (U : map r_user_id data = map Payment.user_id matching).
  { clear L S M. induction F as [|p row l l' H _ IH]; simpl; [reflexivity|].
    destruct H as (_ & -> & _). rewrite IH. reflexivity. }
  destruct matching as [|p l]; destruct data as [|row d]; try discriminate L;
    [reflexivity|].
  unfold count_members. rewrite size_user_ids, U, S, L. reflexivity.
Qed.

Lemma payment_report_rows_and_summary_witness :
  let matching := List.filter (in_report FifteenDayPlan "2024-06" (conn two_members))
                              (payments (conn two_members)) in
  let data := payment_report_rows (kind_type FifteenDayPlan) "2024-06"
                                  (kind_sport FifteenDayPlan) (conn two_members) in
  map r_user_id data = ["1001"; "1001"]
  /\ map Payment.user_id (List.filter (fun p => String.eqb (Payment.month p) "2024-06")
                                      (payments (conn two_members)))
     = ["1001"; "1001"; "1002"]
  /\ Forall2 (fun p row =>
             r_id row = Payment.id p /\ r_user_id row = Payment.user_id p
             /\ r_amount row = Payment.amount p
             /\ exists m, In m (members (conn two_members))
                          /\ Member.user_id m = Payment.user_id p
                          /\ kind_condition FifteenDayPlan m = true
                          /\ row = joined p m)
          matching data
  /\ generate_payment_report (kind_type FifteenDayPlan) "2024-06"
                             (kind_sport FifteenDayPlan) two_members
     = match matching with
       | [] => NoData
       | _ =>
           Report data
             {| total_revenue :=
                  fold_left (fun acc p => (acc + Payment.amount p)%float) matching 0%float;
                payment_count := List.length matching;
                member_count := List.length (remove_dups (map Payment.user_id matching)) |}
       end.
Proof.
  cbv zeta. split; [vm_compute; reflexivity|]. split; [vm_compute; reflexivity|].
  apply (payment_report_rows_and_summary FifteenDayPlan "2024-06" two_members).
  vm_compute. constructor; [intros [H|[]]; discriminate H|].
  constructor; [intros [] | constructor].
Defined.

(** June 2024 with member 1001 paying both halves and member 1002 paying
    the month: three rows, revenue 6300, two members; the 15-day report keeps
    the two rows of member 1001. *)
Example june_reports :
  (match generate_payment_report "All Members" "2024-06" None two_members with
   | Report data s =>
       (map (fun r => (r_id r, r_user_id r, r_period r)) data,
        total_revenue s, payment_count s, member_count s)
   | NoData => ([], 0%float, 0%nat, 0%nat)
   end)
  = ([(1, "1001", Some "first_half"); (2, "1001", Some "second_half"); (3, "1002", None)],
     6300%float, 3%nat, 2%nat)
  /\ (match generate_payment_report "15-Day Plan" "2024-06" None two_members with
      | Report data s =>
          (map (fun r => (r_id r, r_user_id r, r_period r)) data,
           total_revenue s, payment_count s, member_count s)
      | NoData => ([], 0%float, 0%nat, 0%nat)
      end)
     = ([(1, "1001", Some "first_half"); (2, "1001", Some "second_half")],
        4800%float, 2%nat, 1%nat)
  /\ generate_payment_report "Sport Category" "2024-06" (Some "Basketball") two_members
     = NoData.
Proof. vm_compute. repeat split; reflexivity. Qed.

(** ** The expired-members report *)

(** C7 on the code.  Member 1001 is registered with the expiry date typed
    as 2024-6-30: the registration succeeds, the date is 30 June 2024, the
    report for 2024-06 compares against 2024-07-01, and the member, active
    and expired before July, is not in the report.  Registered with
    2024-06-30 the same member is. *)
Theorem expired_report_misses_unpadded_date :
  fst (save_member (form_1001 "30-day" "2024-6-30") (at_ 2024 6 1 9 0 0) fresh_app)
  = Success
  /\ map (fun r => (Member.user_id r, Member.expiry_date r, Member.is_active r))
         (members (conn gym_unpadded)) = [("1001", "2024-6-30", true)]
  /\ strptime "2024-6-30" = Some (2024, 6, 30)
  /\ next_month_start "2024-06" = Some "2024-07-01"
  /\ generate_expired_report "2024-06" gym_unpadded = Some NoData
  /\ generate_expired_report "2024-09" gym_unpadded = Some NoData
  /\ option_map (fun rep => match rep with
                            | Report data n => (map e_user_id data, n)
                            | NoData => ([], 0%nat)
                            end)
                (generate_expired_report "2024-06" gym_30)
     = Some (["1001"], 1%nat).
Proof. vm_compute. repeat split; reflexivity. Qed.

(** *** Padded dates compare as dates *)

Lemma compare_digit_char (x y : Z) :
  Ascii.compare (digit_char x) (digit_char y) = (x mod 10 ?= y mod 10).
Proof.
  unfold Ascii.compare, digit_char.
  assert (Hx := Z.mod_pos_bound x 10 ltac:(lia)).
  assert (Hy := Z.mod_pos_bound y 10 ltac:(lia)).
  rewrite !N_ascii_embedding by lia.
  rewrite Z2N.inj_compare by lia.
  apply Z.add_compare_mono_l.
Qed.

Lemma compare_pad2 (a b : Z) (s t : string) :
  0 <= a < 100 -> 0 <= b < 100 ->
  String.compare (pad2 a ++ s) (pad2 b ++ t)
  = match a ?= b with Eq => String.compare s t | c => c end.
Proof.
  intros Ha Hb. unfold pad2. simpl. rewrite !compare_digit_char.
  assert (Ea : a = 10 * (a / 10) + a mod 10) by (apply Z.div_mod; lia).
  assert (Eb : b = 10 * (b / 10) + b mod 10) by (apply Z.div_mod; lia).
  assert (Ma := Z.mod_pos_bound a 10 ltac:(lia)).
  assert (Mb := Z.mod_pos_bound b 10 ltac:(lia)).
  assert (Da : 0 <= a / 10 < 10) by (split; [apply Z.div_pos | apply Z.div_lt_upper_bound]; lia).
  assert (Db : 0 <= b / 10 < 10) by (split; [apply Z.div_pos | apply Z.div_lt_upper_bound]; lia).
  rewrite (Z.mod_small (a / 10)), (Z.mod_small (b / 10)) by lia.
  destruct (Z.compare_spec (a / 10) (b / 10)) as [E|L|G].
  - destruct (Z.compare_spec (a mod 10) (b mod 10)) as [E2|L2|G2].
    + replace (a ?= b) with Eq by (symmetry; apply Z.compare_eq_iff; lia). reflexivity.
    + replace (a ?= b) with Lt by (symmetry; apply Z.compare_lt_iff; lia). reflexivity.
    + replace (a ?= b) with Gt by (symmetry; apply Z.compare_gt_iff; lia). reflexivity.
  - replace (a ?= b) with Lt by (symmetry; apply Z.compare_lt_iff; lia). reflexivity.
  - replace (a ?= b) with Gt by (symmetry; apply Z.compare_gt_iff; lia). reflexivity.
Qed.

Lemma pad2_mod (n : Z) : pad2 n = pad2 (n mod 100).
Proof.
  assert (E1 : (n / 10) mod 10 = (n mod 100 / 10) mod 10)
    by (Z.to_euclidean_division_equations; lia).
  assert (E2 : n mod 10 = (n mod 100) mod 10)
    by (Z.to_euclidean_division_equations; lia).
  unfold pad2, digit_char. rewrite E1, E2. reflexivity.
Qed.

Lemma pad2_append (n : Z) (u s : string) : (pad2 n ++ u) ++ s = pad2 n ++ (u ++ s).
Proof. reflexivity. Qed.

Lemma compare_pad4 (a b : Z) (s t : string) :
  0 <= a < 10000 -> 0 <= b < 10000 ->
  String.compare (pad4 a ++ s) (pad4 b ++ t)
  = match a ?= b with Eq => String.compare s t | c => c end.
Proof.
  intros Ha Hb. unfold pad4.
  rewrite (pad2_mod a), (pad2_mod b).
  rewrite !pad2_append.
  assert (Ea : a = 100 * (a / 100) + a mod 100) by (apply Z.div_mod; lia).
  assert (Eb : b = 100 * (b / 100) + b mod 100) by (apply Z.div_mod; lia).
  assert (Ma := Z.mod_pos_bound a 100 ltac:(lia)).
  assert (Mb := Z.mod_pos_bound b 100 ltac:(lia)).
  assert (Da : 0 <= a / 100 < 100) by (split; [apply Z.div_pos | apply Z.div_lt_upper_bound]; lia).
  assert (Db : 0 <= b / 100 < 100) by (split; [apply Z.div_pos | apply Z.div_lt_upper_bound]; lia).
  rewrite compare_pad2 by lia.
  destruct (Z.compare_spec (a / 100) (b / 100)) as [E|L|G].
  - rewrite compare_pad2 by lia.
    destruct (Z.compare_spec (a mod 100) (b mod 100)) as [E2|L2|G2].
    + replace (a ?= b) with Eq by (symmetry; apply Z.compare_eq_iff; lia). reflexivity.
    + replace (a ?= b) with Lt by (symmetry; apply Z.compare_lt_iff; lia). reflexivity.
    + replace (a ?= b) with Gt by (symmetry; apply Z.compare_gt_iff; lia). reflexivity.
  - replace (a ?= b) with Lt by (symmetry; apply Z.compare_lt_iff; lia). reflexivity.
  - replace (a ?= b) with Gt by (symmetry; apply Z.compare_gt_iff; lia). reflexivity.
Qed.

(** From the year 1000 on [%Y] has four digits. *)
Lemma strftime_Y_pad4 (y : Z) : 1000 <= y -> strftime_Y y = pad4 y.
Proof.
  intros H. unfold strftime_Y.
  destruct (Z.leb_spec 1000 y); [reflexivity | lia].
Qed.

Lemma ltb_strftime_date (y m d y' m' d' : Z) :
  1000 <= y < 10000 -> 1000 <= y' < 10000 ->
  0 <= m < 100 -> 0 <= m' < 100 -> 0 <= d < 100 -> 0 <= d' < 100 ->
  String.ltb (strftime_date y m d) (strftime_date y' m' d')
  = date_before (y, m, d) (y', m', d').
Proof.
  intros Hy Hy' Hm Hm' Hd Hd'. unfold String.ltb, strftime_date, date_before.
  rewrite !strftime_Y_pad4 by lia.
  rewrite compare_pad4 by lia.
  change ("-" ++ pad2 m ++ "-" ++ pad2 d) with (String "-" (pad2 m ++ String "-" (pad2 d ++ ""))).
  change ("-" ++ pad2 m' ++ "-" ++ pad2 d') with (String "-" (pad2 m' ++ String "-" (pad2 d' ++ ""))).
  cbn [String.compare]. change (Ascii.compare "-" "-") with Eq. cbv iota.
  rewrite compare_pad2 by lia.
  cbn [String.compare]. change (Ascii.compare "-" "-") with Eq. cbv iota.
  rewrite compare_pad2 by lia. cbn [String.compare].
  destruct (Z.compare_spec y y') as [E|L|G].
  - subst y'. rewrite Z.ltb_irrefl, Z.eqb_refl. simpl.
    destruct (Z.compare_spec m m') as [E|L|G].
    + subst m'. rewrite Z.ltb_irrefl, Z.eqb_refl. simpl.
      destruct (Z.compare_spec d d') as [E|L|G]; symmetry.
      * subst d'. apply Z.ltb_irrefl.
      * apply Z.ltb_lt, L.
      * apply Z.ltb_ge. lia.
    + replace (m <? m') with true by (symmetry; apply Z.ltb_lt, L). reflexivity.
    + replace (m <? m') with false by (symmetry; apply Z.ltb_ge; lia).
      replace (m =? m') with false by (symmetry; apply Z.eqb_neq; lia). reflexivity.
  - replace (y <? y') with true by (symmetry; apply Z.ltb_lt, L). reflexivity.
  - replace (y <? y') with false by (symmetry; apply Z.ltb_ge; lia).
    replace (y =? y') with false by (symmetry; apply Z.eqb_neq; lia). reflexivity.
Qed.

(** A date that [strptime] reads is a date of the calendar. *)
Lemma strptime_valid (s : string) (y m d : Z) :
  strptime s = Some (y, m, d) -> valid_ymd y m d = true.
Proof.
  unfold strptime.
  destruct (chars s) as [|y1 [|y2 [|y3 [|y4 [|dash rest]]]]]; try discriminate.
  destruct (_ && _); [|discriminate].
  destruct (strptime_month rest) as [[m0 rest']|]; [|discriminate].
  destruct (strptime_day rest') as [d0|]; [|discriminate].
  destruct (valid_ymd _ m0 d0) eqn:V; [|discriminate].
  intros H. inversion H; subst. exact V.
Qed.

Lemma digit_char_digit (x : Z) :
  is_digit (digit_char x) = true
  /\ Ascii.eqb (digit_char x) "-" = false
  /\ digit_val (digit_char x) = x mod 10.
Proof.
  unfold digit_char.
  assert (H := Z.mod_pos_bound x 10 ltac:(lia)). revert H.
  generalize (x mod 10). intros k Hk.
  assert (C : k = 0 \/ k = 1 \/ k = 2 \/ k = 3 \/ k = 4 \/ k = 5 \/ k = 6
              \/ k = 7 \/ k = 8 \/ k = 9) by lia.
  repeat destruct C as [C|C]; subst k; repeat split; reflexivity.
Qed.

(** For every billing month of the years 1 to 9998 the report compares
    against the first day of the following month, January of the next year
    after December. *)
Lemma next_month_start_padded (year mon : Z) :
  1 <= year <= 9998 -> 1 <= mon <= 12 ->
  next_month_start (pad4 year ++ "-" ++ pad2 mon)
  = Some (let '(y, m) := following_month year mon in strftime_date y m 1).
Proof.
  intros Hy Hm. unfold next_month_start, pad4, pad2.
  cbv [chars list_ascii_of_string String.append]. cbn [split_dash].
  destruct (digit_char_digit (year / 100 / 10)) as (D1 & N1 & V1).
  destruct (digit_char_digit (year / 100)) as (D2 & N2 & V2).
  destruct (digit_char_digit (year / 10)) as (D3 & N3 & V3).
  destruct (digit_char_digit year) as (D4 & N4 & V4).
  destruct (digit_char_digit (mon / 10)) as (D5 & N5 & V5).
  destruct (digit_char_digit mon) as (D6 & N6 & V6).
  rewrite N1, N2, N3, N4, N5, N6.
  change (Ascii.eqb "-" "-") with true. cbv iota.
  cbn [split_dash List.app py_int forallb]. rewrite D1, D2, D3, D4, D5, D6.
  cbn [andb]. unfold digits_val. cbn [fold_left]. rewrite V1, V2, V3, V4, V5, V6.
  replace (10 * (10 * (10 * (10 * 0 + (year / 100 / 10) mod 10) + (year / 100) mod 10)
                 + (year / 10) mod 10) + year mod 10) with year
    by (Z.to_euclidean_division_equations; lia).
  replace (10 * (10 * 0 + (mon / 10) mod 10) + mon mod 10) with mon
    by (Z.to_euclidean_division_equations; lia).
  unfold following_month.
  destruct (mon <? 12) eqn:L.
  - assert (V : valid_ymd year (mon + 1) 1 = true).
    { apply Z.ltb_lt in L. unfold valid_ymd, days_in_month.
      repeat (apply andb_true_iff; split); try (apply Z.leb_le; lia).
      destruct (mon + 1 =? 2); [destruct (is_leap year); reflexivity|].
      destruct (_ || _); reflexivity. }
    rewrite V. reflexivity.
  - assert (V : valid_ymd (year + 1) 1 1 = true).
    { unfold valid_ymd, days_in_month.
      repeat (apply andb_true_iff; split); try (apply Z.leb_le; lia). reflexivity. }
    rewrite V. reflexivity.
Qed.

(** [strptime] wants the year in four digits: it does not read back a date
    before the year 1000 as [strftime] renders it. *)
Lemma strptime_short_year (y m d : Z) :
  y < 1000 -> strptime (strftime_date y m d) = None.
Proof.
  intros H. unfold strptime, strftime_date, strftime_Y, pad2.
  destruct (Z.leb_spec 1000 y) as [G|_]; [lia|].
  destruct (100 <=? y); [|destruct (10 <=? y)];
    cbv [chars list_ascii_of_string String.append]; cbn [forallb];
    change (is_digit "-") with false; rewrite ?andb_false_r; reflexivity.
Qed.

(** A padded date is of the year 1000 or later. *)
Lemma padded_year (s : string) (y m d : Z) :
  strptime s = Some (y, m, d) -> s = strftime_date y m d -> 1000 <= y.
Proof.
  intros P E. destruct (Z.le_gt_cases 1000 y) as [G|L]; [exact G|].
  rewrite E, (strptime_short_year y m d) in P by lia. discriminate.
Qed.

(** On members whose expiry date is stored padded, and for a billing month
    of the years 1000 to 9998, the expired-members report lists exactly the
    active members whose expiry date is before the first day of the following
    month, a member expiring on that day excluded. *)
Theorem expired_report_on_padded_dates (year mon : Z) (st : app) :
  1000 <= year <= 9998 -> 1 <= mon <= 12 ->
  Forall (fun r => padded (Member.expiry_date r) = true) (members (conn st)) ->
  generate_expired_report (pad4 year ++ "-" ++ pad2 mon) st
  = Some (listing (map (expired_of (conn st))
                       (List.filter (expired_by_date year mon) (members (conn st))))).
Proof.
  intros Hy Hm Hpad. unfold generate_expired_report.
  rewrite (next_month_start_padded year mon ltac:(lia) Hm).
  assert (E : List.filter
                (expired_before (let '(y, m) := following_month year mon in strftime_date y m 1))
                (members (conn st))
              = List.filter (expired_by_date year mon) (members (conn st))).
  { apply filter_ext_in. intros r Hr.
    rewrite List.Forall_forall in Hpad. specialize (Hpad r Hr).
    unfold padded in Hpad. unfold expired_before, expired_by_date.
    destruct (strptime (Member.expiry_date r)) as [[[y m] d]|] eqn:P; [|discriminate].
    apply String.eqb_eq in Hpad. pose proof (padded_year _ _ _ _ P Hpad) as Y.
    apply strptime_valid in P.
    assert (R : 1 <= y <= 9999 /\ 1 <= m <= 12 /\ 1 <= d <= 31).
    { unfold valid_ymd in P.
      repeat (apply andb_true_iff in P as [P ?]).
      repeat match goal with H : (_ <=? _) = true |- _ => apply Z.leb_le in H end.
      assert (days_in_month y m <= 31).
      { unfold days_in_month. destruct (m =? 2); [destruct (is_leap y); lia|].
        destruct (_ || _); lia. }
      lia. }
    rewrite Hpad at 1. unfold following_month.
    destruct (mon <? 12) eqn:L.
    - apply Z.ltb_lt in L. rewrite ltb_strftime_date by lia. reflexivity.
    - rewrite ltb_strftime_date by lia. reflexivity. }
  rewrite E. unfold listing.
  destruct (map (expired_of (conn st)) _); reflexivity.
Qed.

(** The boundary: a padded expiry date equal to the first day of the
    following month is not before it, and the June 2024 report of the
    specification compares against 2024-07-01. *)
Example expired_boundary :
  next_month_start "2024-06" = Some "2024-07-01"
  /\ next_month_start "2024-12" = Some "2025-01-01"
  /\ String.ltb "2024-07-01" "2024-07-01" = false
  /\ String.ltb "2024-06-30" "2024-07-01" = true.
Proof. vm_compute. repeat split; reflexivity. Qed.

(** *** The last payment of a member *)

Lemma ltb_trans (a b c : string) :
  String.ltb a b = true -> String.ltb b c = true -> String.ltb a c = true.
Proof.
  unfold String.ltb.
  destruct (String.compare a b) eqn:E1; try discriminate.
  destruct (String.compare b c) eqn:E2; try discriminate.
  intros _ _. apply String_as_OT.cmp_lt in E1, E2.
  pose proof (String_as_OT.lt_trans _ _ _ E1 E2) as T.
  apply String_as_OT.cmp_lt in T. unfold String_as_OT.cmp in T. rewrite T. reflexivity.
Qed.

Lemma ltb_total (a b : string) :
  String.ltb a b = false -> a = b \/ String.ltb b a = true.
Proof.
  unfold String.ltb.
  destruct (String.compare a b) eqn:E; try discriminate; intros _.
  - left. apply String.compare_eq_iff, E.
  - right. rewrite (String.compare_antisym b a), E. reflexivity.
Qed.

Lemma ltb_irrefl (a : string) : String.ltb a a = false.
Proof.
  unfold String.ltb.
  replace (String.compare a a) with Eq; [reflexivity|].
  symmetry. apply String_as_OT.cmp_eq. reflexivity.
Qed.

Lemma fold_max_text (l : list string) : forall a s,
  fold_left max_text l (Some a) = Some s ->
  (s = a \/ In s l) /\ String.ltb s a = false
  /\ (forall d, In d l -> String.ltb s d = false).
Proof.
  induction l as [|b l IH]; simpl; intros a s H.
  - inversion H; subst. repeat split; [left; reflexivity | apply ltb_irrefl | tauto].
  - destruct (String.ltb a b) eqn:L.
    + apply IH in H as (Hin & Hb & Hl). repeat split.
      * right. destruct Hin as [->|Hin]; [left; reflexivity | right; exact Hin].
      * destruct (String.ltb s a) eqn:Lsa; [|reflexivity].
        rewrite (ltb_trans _ _ _ Lsa L) in Hb. discriminate.
      * intros d [<-|Hd]; [exact Hb | exact (Hl d Hd)].
    + apply IH in H as (Hin & Ha & Hl). repeat split.
      * destruct Hin as [->|Hin]; [left; reflexivity | right; right; exact Hin].
      * exact Ha.
      * intros d [<-|Hd]; [|exact (Hl d Hd)].
        destruct (String.ltb s b) eqn:Lsb; [|reflexivity].
        destruct (ltb_total _ _ L) as [->|Lba].
        -- rewrite Lsb in Ha. discriminate.
        -- rewrite (ltb_trans _ _ _ Lsb Lba) in Ha. discriminate.
Qed.

(** The last payment shown for a member is NULL when the member has no
    payment, and otherwise the payment date of one of its payments that no
    other of its payment dates exceeds. *)
Lemma last_payment_date_latest (user_id : string) (db : database) :
  let dates := map Payment.payment_date
                   (List.filter (fun p => String.eqb (Payment.user_id p) user_id)
                                (payments db)) in
  match last_payment_date user_id db with
  | None => dates = []
  | Some s => In s dates /\ forall d, In d dates -> String.ltb s d = false
  end.
Proof.
  cbv zeta. unfold last_payment_date.
  destruct (map Payment.payment_date _) as [|a l]; simpl; [reflexivity|].
  destruct (fold_left max_text l (Some a)) as [s|] eqn:F.
  - apply fold_max_text in F as (Hin & Ha & Hl). split.
    + destruct Hin as [->|Hin]; [left; reflexivity | right; exact Hin].
    + intros d [<-|Hd]; [exact Ha | exact (Hl d Hd)].
  - exfalso. clear -F. revert a F. induction l as [|b l IH]; simpl; intros a F.
    + discriminate.
    + destruct (String.ltb a b); exact (IH _ F).
Qed.

(** ** The constraints of the members table are kept *)

Lemma existsb_key_free {A : Type} (k : A -> string) (x : string) (l : list A) :
  existsb (fun o => String.eqb (k o) x) l = false -> ~ In x (map k l).
Proof.
  induction l as [|a l IH]; simpl; intros H; [tauto|].
  apply orb_false_iff in H as [Ha Hl]. apply String.eqb_neq in Ha.
  intros [E|E]; [congruence | exact (IH Hl E)].
Qed.

Lemma NoDup_middle (a : string) (l l' : list string) :
  List.NoDup (l ++ l')%list -> ~ In a (l ++ l')%list -> List.NoDup (l ++ a :: l')%list.
Proof.
  intros ND Hn. induction l as [|x l IH]; simpl in *.
  - constructor; assumption.
  - inversion ND as [|? ? Hx ND']; subst. constructor.
    + intros H. apply in_app_or in H as [H|[H|H]].
      * apply Hx, in_or_app. left. exact H.
      * apply Hn. left. symmetry. exact H.
      * apply Hx, in_or_app. right. exact H.
    + apply IH; [exact ND'|]. intros H. apply Hn. right. exact H.
Qed.

(** Replacing a row keeps a key unique when the key is unchanged or free
    among the other rows. *)
Lemma NoDup_replaced (k : Member.row -> string) (r r' : Member.row)
    (done rest : list Member.row) :
  List.NoDup (map k (done ++ r :: rest)%list) ->
  k r' = k r \/ ~ In (k r') (map k (done ++ rest)%list) ->
  List.NoDup (map k (done ++ r' :: rest)%list).
Proof.
  intros ND [E|Hn].
  - rewrite map_app in *. simpl in *. rewrite E. exact ND.
  - rewrite map_app in *. simpl in *.
    apply NoDup_middle; [|exact Hn]. apply NoDup_remove_1 in ND. exact ND.
Qed.

Lemma member_key_clash_free (r r' : Member.row) (others : list Member.row) :
  member_key_clash r r' others = false ->
  (Member.user_id r' = Member.user_id r \/ ~ In (Member.user_id r') (map Member.user_id others))
  /\ (Member.cnic r' = Member.cnic r \/ ~ In (Member.cnic r') (map Member.cnic others)).
Proof.
  unfold member_key_clash. intros H. apply orb_false_iff in H as [H1 H2]. split.
  - destruct (String.eqb_spec (Member.user_id r') (Member.user_id r)) as [E|E];
      [left; exact E | right]. simpl in H1. exact (existsb_key_free _ _ _ H1).
  - destruct (String.eqb_spec (Member.cnic r') (Member.cnic r)) as [E|E];
      [left; exact E | right]. simpl in H2. exact (existsb_key_free _ _ _ H2).
Qed.

Lemma update_members_from_valid where_ set : forall todo done t,
  members_valid (done ++ todo)%list ->
  update_members_from where_ set done todo = Ok t ->
  members_valid t.
Proof.
  induction todo as [|r rest IH]; simpl; intros done t V H.
  - inversion H; subst. rewrite app_nil_r in V. exact V.
  - destruct V as (N1 & N2 & F).
    assert (Fd : Forall (fun r => member_row_ok r = true) done
                 /\ Forall (fun r => member_row_ok r = true) rest).
    { apply Forall_app in F as [Fd Fr]. inversion Fr; subst. split; assumption. }
    destruct Fd as [Fd Fr].
    destruct (where_ r).
    + destruct (member_row_ok (set r)) eqn:K; simpl in H; [|discriminate].
      destruct (member_key_clash r (set r) (done ++ rest)) eqn:C; simpl in H; [discriminate|].
      apply member_key_clash_free in C as [C1 C2].
      apply (IH (done ++ [set r])%list t); [|exact H].
      rewrite <- app_assoc. simpl. repeat split.
      * apply (NoDup_replaced Member.user_id r); assumption.
      * apply (NoDup_replaced Member.cnic r); assumption.
      * apply Forall_app. split; [exact Fd | constructor; assumption].
    + apply (IH (done ++ [r])%list t); [|exact H].
      rewrite <- app_assoc. simpl. repeat split; assumption.
Qed.

Lemma update_members_valid where_ set t t' :
  members_valid t -> update_members where_ set t = Ok t' -> members_valid t'.
Proof. intros V H. exact (update_members_from_valid where_ set t [] t' V H). Qed.

Lemma insert_member_valid r t t' :
  members_valid t -> insert_member r t = Ok t' -> members_valid t'.
Proof.
  unfold insert_member. intros (N1 & N2 & F).
  destruct (member_row_ok r) eqn:K; simpl; [|discriminate].
  destruct (member_key_taken r t) eqn:T; simpl; [discriminate|].
  intros H. inversion H; subst t'; clear H.
  unfold member_key_taken in T.
  assert (T1 : existsb (fun o => String.eqb (Member.user_id o) (Member.user_id r)) t = false).
  { clear -T. induction t as [|o t IH]; simpl in *; [reflexivity|].
    apply orb_false_iff in T as [To Tt]. apply orb_false_iff in To as [To _].
    rewrite To. simpl. apply IH, Tt. }
  assert (T2 : existsb (fun o => String.eqb (Member.cnic o) (Member.cnic r)) t = false).
  { clear -T. induction t as [|o t IH]; simpl in *; [reflexivity|].
    apply orb_false_iff in T as [To Tt]. apply orb_false_iff in To as [_ To].
    rewrite To. simpl. apply IH, Tt. }
  apply existsb_key_free in T1, T2.
  repeat split.
  - rewrite map_app. simpl. apply NoDup_middle; rewrite app_nil_r; assumption.
  - rewrite map_app. simpl. apply NoDup_middle; rewrite app_nil_r; assumption.
  - apply Forall_app. split; [exact F | constructor; [exact K | constructor]].
Qed.

(** ** The fee equation along a run *)

Lemma reconcile_rows_valid (stamp : string) : forall fetched t b t',
  members_valid t -> reconcile_rows fetched stamp t = (b, t') -> members_valid t'.
Proof.
  induction fetched as [|m rest IH]; simpl; intros t b t' V H.
  - inversion H; subst. exact V.
  - destruct (negb _).
    + destruct (update_members _ _ _) as [t1|] eqn:U.
      * apply (IH t1 b t'); [|exact H]. exact (update_members_valid _ _ _ _ V U).
      * inversion H; subst. exact V.
    + exact (IH t b t' V H).
Qed.

Lemma update_members_keeps_fees where_ set t t' :
  update_members where_ set t = Ok t' ->
  (forall r, fee_consistent r = true -> member_row_ok (set r) = true ->
             fee_consistent (set r) = true) ->
  Forall (fun r => fee_consistent r = true) t ->
  Forall (fun r => fee_consistent r = true) t'.
Proof.
  intros U Hset HF. apply update_members_Ok in U as [-> Hok].
  induction t as [|r t IH]; simpl; [constructor|].
  inversion HF; subst. inversion Hok; subst.
  constructor; [|apply IH; assumption].
  unfold updated. destruct (where_ r); auto.
Qed.

Lemma store_ok_updated where_ set db t' :
  store_ok db ->
  update_members where_ set (members db) = Ok t' ->
  (forall r, fee_consistent r = true -> member_row_ok (set r) = true ->
             fee_consistent (set r) = true) ->
  store_ok (with_members db t').
Proof.
  intros [V F] U Hset. split; simpl.
  - exact (update_members_valid _ _ _ _ V U).
  - exact (update_members_keeps_fees _ _ _ _ U Hset F).
Qed.

Lemma save_member_run f now st r st' :
  store_ok (conn st) -> store_ok (disk st) ->
  save_member f now st = (r, st') ->
  store_ok (conn st') /\ store_ok (disk st').
Proof.
  intros C D. unfold save_member.
  destruct (validate_form f) as [w|base_fee];
    [intros H; inversion H; subst; auto|].
  destruct (match photo_ext f with Some _ => _ | None => _ end) as [w|photo];
    [intros H; inversion H; subst; auto|].
  destruct (insert_member _ _) as [t|] eqn:I;
    [|intros H; inversion H; subst; auto].
  intros H. inversion H; subst; clear H. simpl.
  assert (S : store_ok (with_members (conn st) t)).
  { destruct C as [V F]. split; simpl.
    - exact (insert_member_valid _ _ _ V I).
    - unfold insert_member in I.
      destruct (member_row_ok _) eqn:K; simpl in I; [|discriminate].
      destruct (negb _); [|discriminate]. inversion I; subst.
      apply Forall_app. split; [exact F|].
      constructor; [|constructor]. apply member_row_ok_fee in K. exact K. }
  split; exact S.
Qed.

Lemma update_member_run selected f now st r st' :
  store_ok (conn st) -> store_ok (disk st) ->
  update_member selected f now st = (r, st') ->
  store_ok (conn st') /\ store_ok (disk st').
Proof.
  intros C D. unfold update_member.
  destruct selected as [old_user_id|]; [|intros H; inversion H; subst; auto].
  destruct (validate_form f) as [w|base_fee];
    [intros H; inversion H; subst; auto|].
  destruct (member_by_id _ _) as [old|]; [|intros H; inversion H; subst; auto].
  destruct (match photo_ext f with Some _ => _ | None => _ end) as [w|photo];
    [intros H; inversion H; subst; auto|].
  destruct (update_members _ _ _) as [t|] eqn:U;
    [|intros H; inversion H; subst; auto].
  intros H. inversion H; subst; clear H. simpl.
  assert (S : store_ok (with_members (conn st) t)).
  { apply (store_ok_updated _ _ _ _ C U).
    intros x _ K. apply member_row_ok_fee in K. exact K. }
  split; exact S.
Qed.

Lemma delete_member_run selected now st r st' :
  store_ok (conn st) -> store_ok (disk st) ->
  delete_member selected now st = (r, st') ->
  store_ok (conn st') /\ store_ok (disk st').
Proof.
  intros C D. unfold delete_member.
  destruct selected as [user_id|]; [|intros H; inversion H; subst; auto].
  destruct (member_by_id _ _) as [old|]; [|intros H; inversion H; subst; auto].
  destruct (update_members _ _ _) as [t|] eqn:U;
    [|intros H; inversion H; subst; auto].
  intros H. inversion H; subst; clear H. simpl.
  assert (S : store_ok (with_members (conn st) t)).
  { apply (store_ok_updated _ _ _ _ C U). intros x Hx _. exact Hx. }
  split; exact S.
Qed.

Lemma search_member_run key st r st' :
  store_ok (conn st) -> store_ok (disk st) ->
  search_member key st = (r, st') ->
  store_ok (conn st') /\ store_ok (disk st').
Proof.
  intros C D. unfold search_member.
  destruct (negb (nonempty key)); [intros H; inversion H; subst; auto|].
  destruct (find _ _); intros H; inversion H; subst; auto.
Qed.

Lemma record_payment_run amount_entry month membership_type now st r st' :
  store_ok (conn st) -> store_ok (disk st) ->
  record_payment amount_entry month membership_type now st = (r, st') ->
  store_ok (conn st') /\ store_ok (disk st').
Proof.
  intros C D H.
  pose proof (record_payment_members amount_entry month membership_type now st) as M.
  rewrite H in M. cbv zeta in M. simpl in M. destruct M as [M Dk].
  assert (S : store_ok (conn st')).
  { destruct M as [E | [uid U]].
    - destruct C as [V F]. split; rewrite E; assumption.
    - pose proof (store_ok_updated _ _ _ _ C U) as S.
      destruct S as [V F]; [intros x Hx _; exact Hx|].
      split; assumption. }
  split; [exact S|]. destruct Dk as [E|E]; rewrite E; assumption.
Qed.

Lemma update_total_fees_started now st st' :
  members_valid (members (conn st)) ->
  update_total_fees now st = (true, st') ->
  store_ok (conn st') /\ store_ok (disk st').
Proof.
  intros V. unfold update_total_fees.
  destruct (reconcile_rows _ _ _) as [[|] t] eqn:R; intros H; inversion H; subst; simpl.
  assert (S : store_ok (with_members (conn st) t)).
  { split; simpl.
    - exact (reconcile_rows_valid _ _ _ _ _ V R).
    - destruct V as [N _].
      exact (reconcile_rows_consistent _ (members (conn st)) [] t N
               ltac:(constructor) R). }
  split; exact S.
Qed.

(** Along a run every row, on the connection and at rest, satisfies the
    constraints of the table and the fee equation. *)
Theorem running_store_ok (st : app) :
  running st -> store_ok (conn st) /\ store_ok (disk st).
Proof.
  induction 1 as [db now st V H | st st' _ [C D] Hstep].
  - exact (update_total_fees_started now (commit db None) st V H).
  - destruct Hstep as [f now r H | sel f now r H | sel now r H | key r H
                      | amount_entry month ty now r H].
    + exact (save_member_run _ _ _ _ _ C D H).
    + exact (update_member_run _ _ _ _ _ _ C D H).
    + exact (delete_member_run _ _ _ _ _ C D H).
    + exact (search_member_run _ _ _ _ C D H).
    + exact (record_payment_run _ _ _ _ _ _ _ C D H).
Qed.

(** ** The duplicate-payment answer *)

(** With a members table that satisfies the constraints of its rows, and
    with one of the two plans selected, [record_payment] never answers
    [DuplicatePaymentError]: the plan change cannot fail, the period
    allocated is free, and a NULL period is never refused. *)
Theorem duplicate_payment_unreachable (amount_entry : float_text)
    (month membership_type : string) (now : datetime) (st : app) :
  Forall (fun r => member_row_ok r = true) (members (conn st)) ->
  check_membership_type membership_type = true ->
  fst (record_payment amount_entry month membership_type now st) <> DuplicatePaymentError.
Proof.
  intros V Hty. unfold record_payment.
  destruct (current_member st) as [member|]; [|discriminate].
  destruct amount_entry as [| |amount]; try discriminate.
  destruct (amount <=? 0)%float; [discriminate|].
  destruct (negb (re_month month)); [discriminate|].
  destruct (negb (nonempty membership_type)); [discriminate|].
  destruct (negb (amount =? Member.total_fee member)%float) eqn:Eq; [discriminate|].
  apply negb_false_iff in Eq. apply eqb_true_not_null in Eq.
  assert (U : (if negb (String.eqb membership_type (Member.membership_type member))
               then update_members
                      (fun r => String.eqb (Member.user_id r) (Member.user_id member))
                      (set_membership_type membership_type (timestamp now))
                      (members (conn st))
               else Ok (members (conn st))) <> IntegrityError).
  { destruct (negb _); [|discriminate].
    rewrite update_members_goes_through; [discriminate|].
    intros r Hr _. rewrite List.Forall_forall in V. specialize (V r Hr).
    unfold member_row_ok in *. simpl.
    apply andb_true_iff in V as [V V3]. apply andb_true_iff in V as [_ V2].
    rewrite Hty, V2, V3. auto. }
  destruct (if negb (String.eqb membership_type (Member.membership_type member)) then _ else _)
    as [t|]; [|contradiction].
  destruct (allocate_period _ _ _ _) as [period|] eqn:A; [|discriminate].
  destruct (insert_allocated _ _ _ (today now) _ _ (timestamp now) _ Eq A) as [db' ->].
  discriminate.
Qed.

(** * Further properties *)

(** ** Lookups *)

Lemma NoDup_map_eq {A : Type} (k : A -> string) (t : list A) (x y : A) :
  List.NoDup (map k t) -> In x t -> In y t -> k x = k y -> x = y.
Proof.
  induction t as [|a t IH]; simpl; intros ND Hx Hy E; [tauto|].
  inversion ND as [|? ? Hn ND']; subst.
  destruct Hx as [->|Hx], Hy as [->|Hy].
  - reflexivity.
  - exfalso. apply Hn. rewrite E. apply in_map, Hy.
  - exfalso. apply Hn. rewrite <- E. apply in_map, Hx.
  - apply IH; assumption.
Qed.

Lemma find_unique {A : Type} (p : A -> bool) (t : list A) (m : A) :
  In m t -> p m = true -> (forall r, In r t -> p r = true -> r = m) ->
  find p t = Some m.
Proof.
  induction t as [|a t IH]; simpl; intros Hm Pm U; [tauto|].
  destruct (p a) eqn:Pa.
  - f_equal. apply U; [left; reflexivity | exact Pa].
  - destruct Hm as [->|Hm]; [congruence|].
    apply IH; auto.
Qed.


(** With [user_id] and [cnic] unique, the search of the payment tab on the
    CNIC of an active member binds that member, as long as the CNIC is not
    also the user id of an active member. *)
Lemma search_member_by_cnic (st : app) (m : Member.row) :
  List.NoDup (map Member.cnic (members (conn st))) ->
  In m (members (conn st)) ->
  Member.is_active m = true ->
  nonempty (Member.cnic m) = true ->
  (forall r, In r (members (conn st)) -> Member.is_active r = true ->
             Member.user_id r <> Member.cnic m) ->
  search_member (Member.cnic m) st
  = (Some m, {| disk := disk st; conn := conn st; current_member := Some m |}).
Proof.
  intros ND Hin Ha Hne Hfree. unfold search_member. rewrite Hne. simpl.
  rewrite (find_unique _ _ m Hin).
  - reflexivity.
  - rewrite String.eqb_refl, orb_true_r, Ha. reflexivity.
  - intros r Hr Hp. apply andb_true_iff in Hp as [Hk Hact].
    apply orb_true_iff in Hk as [Hk|Hk]; apply String.eqb_eq in Hk.
    + exfalso. exact (Hfree r Hr Hact Hk).
    + exact (NoDup_map_eq Member.cnic _ r m ND Hr Hin Hk).
Qed.

(** The Pay button of the search results, on the row of a member whose
    user id is one to eighteen digits without a leading zero, which the query
    receives as it is stored: with both keys unique, the button binds the
    member selected, provided the member is active, its CNIC carries no
    surrounding blanks and is not the user id of an active member. *)
Theorem redirect_to_payment_binds_selected (st : app) (m : Member.row) :
  members_valid (members (conn st)) ->
  In m (members (conn st)) ->
  Member.is_active m = true ->
  plain_id (Member.user_id m) = true ->
  nonempty (Member.cnic m) = true ->
  strip (Member.cnic m) = Member.cnic m ->
  (forall r, In r (members (conn st)) -> Member.is_active r = true ->
             Member.user_id r <> Member.cnic m) ->
  redirect_to_payment (Some (tree_value (Member.user_id m))) st
  = Selected (Some m, {| disk := disk st; conn := conn st; current_member := Some m |}).
Proof.
  intros (N1 & N2 & _) Hin Ha Hid Hne Hs Hfree.
  unfold plain_id in Hid. apply andb_true_iff in Hid as [_ Hid].
  apply String.eqb_eq in Hid. rewrite Hid.
  unfold redirect_to_payment, active_member_by_id.
  rewrite (find_unique _ _ m Hin).
  - rewrite Hs. rewrite (search_member_by_cnic st m N2 Hin Ha Hne Hfree). reflexivity.
  - rewrite String.eqb_refl, Ha. reflexivity.
  - intros r Hr Hp. apply andb_true_iff in Hp as [Hk _]. apply String.eqb_eq in Hk.
    exact (NoDup_map_eq Member.user_id _ r m N1 Hr Hin Hk).
Qed.

Lemma redirect_to_payment_binds_selected_witness :
  redirect_to_payment (Some (tree_value (Member.user_id row_1001))) gym_30
  = Selected (Some row_1001,
              {| disk := disk gym_30; conn := conn gym_30; current_member := Some row_1001 |}).
Proof.
  apply (redirect_to_payment_binds_selected gym_30 row_1001).
  - repeat split; vm_compute; repeat constructor; intros [].
  - vm_compute. left. reflexivity.
  - reflexivity.
  - vm_compute. reflexivity.
  - reflexivity.
  - vm_compute. reflexivity.
  - intros r [<-|[]] _. vm_compute. discriminate.
Defined.

(** A user id with leading zeros does not reach the query as it is stored:
    on the row of member 007 the query receives 7, and the Pay and View
    buttons find no member. *)
Example buttons_miss_leading_zeros :
  search_members "007" gym_007 = Some [("007", "Bilal", "3520212345678", "30-day")]
  /\ tree_value "007" = "7"
  /\ plain_id "007" = false
  /\ redirect_to_payment (Some (tree_value "007")) gym_007 = MemberNotFound
  /\ view_search_result (Some (tree_value "007")) gym_007 = MemberNotFound.
Proof. vm_compute. repeat split; reflexivity. Qed.

(** ** Registration *)

Lemma key_taken_user_id (r : Member.row) (t : list Member.row) :
  member_key_taken r t = false ->
  List.filter (fun o => String.eqb (Member.user_id o) (Member.user_id r)
                        && Member.is_active o) t = [].
Proof.
  unfold member_key_taken. induction t as [|o t IH]; simpl; intros H; [reflexivity|].
  apply orb_false_iff in H as [Ho Ht]. apply orb_false_iff in Ho as [Ho _].
  rewrite Ho. simpl. apply IH, Ht.
Qed.

(** A registration that succeeds can be looked up: the search of the member
    tab on the user id registered returns the new member and no other, with
    the name, CNIC and plan of the form. *)
Theorem save_member_then_search (f : member_form) (now : datetime) (st st' : app) :
  save_member f now st = (Success, st') ->
  search_members (f_user_id f) st'
  = Some [(f_user_id f, f_name f, f_cnic f, membership_var f)].
Proof.
  unfold save_member.
  destruct (validate_form f) as [w|base_fee] eqn:V; [discriminate|].
  destruct (match photo_ext f with Some _ => _ | None => _ end) as [w|photo];
    [discriminate|].
  unfold insert_member.
  destruct (member_row_ok _); [|discriminate].
  destruct (member_key_taken _ _) eqn:T; [discriminate|].
  simpl. intros H. inversion H; subst st'; clear H.
  assert (D : re_digits 1 None (f_user_id f) = true).
  { unfold validate_form in V. destruct (negb (nonempty _ && _ && _ && _ && _ && _ && _));
      [discriminate|].
    unfold validate_user_id in V. destruct (re_digits 1 None (f_user_id f));
      [reflexivity | discriminate]. }
  assert (N : nonempty (f_user_id f) = true).
  { unfold re_digits in D. destruct (f_user_id f); [discriminate | reflexivity]. }
  unfold search_members. rewrite N, D. simpl.
  rewrite List.filter_app. apply key_taken_user_id in T. simpl in T. rewrite T.
  simpl. rewrite String.eqb_refl. reflexivity.
Qed.

Lemma save_member_then_search_witness :
  search_members "1001" gym_30 = Some [("1001", "Ali", "1234567890123", "30-day")].
Proof.
  apply (save_member_then_search (form_1001 "30-day" "2024-06-30") (at_ 2024 6 1 9 0 0)
                                 fresh_app gym_30).
  vm_compute. reflexivity.
Defined.

Lemma key_taken_by (r o : Member.row) (t : list Member.row) :
  In o t ->
  Member.user_id o = Member.user_id r \/ Member.cnic o = Member.cnic r ->
  member_key_taken r t = true.
Proof.
  intros Hin Hk. unfold member_key_taken. apply existsb_exists. exists o.
  split; [exact Hin|]. apply orb_true_iff.
  destruct Hk as [E|E]; [left | right]; apply String.eqb_eq, E.
Qed.

(** A user id or a CNIC that some row holds, active or not, cannot be
    registered again: a form that passes every check is answered
    [DuplicateKeyError] and the database is as before. *)
Theorem save_member_refuses_taken_key (f : member_form) (now : datetime) (st : app)
    (o : Member.row) (base_fee : float) :
  In o (members (conn st)) ->
  Member.user_id o = f_user_id f \/ Member.cnic o = f_cnic f ->
  validate_form f = inr base_fee ->
  match photo_ext f with Some ext => photo_type_ok ext = true | None => True end ->
  save_member f now st = (DuplicateKeyError, st).
Proof.
  intros Hin Hk V P. unfold save_member. rewrite V.
  assert (I : forall photo,
             insert_member (form_row f base_fee (fee_formula base_fee (treadmill_var f))
                                     true (timestamp now) photo) (members (conn st))
             = IntegrityError).
  { intros photo. unfold insert_member.
    rewrite (key_taken_by _ o _ Hin) by exact Hk.
    rewrite andb_false_r. reflexivity. }
  destruct (photo_ext f) as [ext|]; [rewrite P|]; rewrite I; reflexivity.
Qed.

Lemma save_member_refuses_taken_key_witness :
  save_member form_1002 (at_ 2024 7 2 9 0 0)
              (snd (save_member form_1002 (at_ 2024 7 1 9 0 0) gym_closed))
  = (DuplicateKeyError, snd (save_member form_1002 (at_ 2024 7 1 9 0 0) gym_closed)).
Proof.
  apply (save_member_refuses_taken_key form_1002 _ _
           (form_row form_1002 1500 1500 true "2024-07-01 09:00:00" None) 1500).
  - vm_compute. right. left. reflexivity.
  - left. reflexivity.
  - vm_compute. reflexivity.
  - exact I.
Defined.

(** The deactivated member 1001 keeps its user id and CNIC taken. *)
Example deactivated_keys_stay_taken :
  map (fun r => (Member.user_id r, Member.is_active r)) (members (conn gym_closed))
  = [("1001", false)]
  /\ fst (save_member (form_1001 "30-day" "2025-01-31") (at_ 2024 7 2 9 0 0) gym_closed)
     = DuplicateKeyError.
Proof. vm_compute. split; reflexivity. Qed.

(** ** The member handlers write all or nothing *)

(** [save_member], [update_member], [delete_member] and
    [delete_from_search] change the state only when they answer [Success],
    and then they commit; [search_member] and the listings never write to the
    database. *)
Theorem member_handlers_all_or_nothing (st : app) :
  (forall f now,
      match save_member f now st with
      | (Success, st') => disk st' = conn st'
      | (_, st') => st' = st
      end)
  /\ (forall selected f now,
      match update_member selected f now st with
      | (Success, st') => disk st' = conn st'
      | (_, st') => st' = st
      end)
  /\ (forall selected now,
      match delete_member selected now st with
      | (Success, st') => disk st' = conn st'
      | (_, st') => st' = st
      end)
  /\ (forall selected now,
      match delete_from_search selected now st with
      | Some (Success, st') => disk st' = conn st'
      | Some (_, st') => st' = st
      | None => True
      end)
  /\ (forall key, conn (snd (search_member key st)) = conn st
                  /\ disk (snd (search_member key st)) = disk st).
Proof.
  repeat split.
  - intros f now. unfold save_member.
    destruct (validate_form f); [reflexivity|].
    destruct (match photo_ext f with Some _ => _ | None => _ end); [reflexivity|].
    destruct (insert_member _ _); reflexivity.
  - intros selected f now. unfold update_member.
    destruct selected; [|reflexivity].
    destruct (validate_form f); [reflexivity|].
    destruct (member_by_id _ _); [|reflexivity].
    destruct (match photo_ext f with Some _ => _ | None => _ end); [reflexivity|].
    destruct (update_members _ _ _); reflexivity.
  - intros selected now. unfold delete_member.
    destruct selected; [|reflexivity].
    destruct (member_by_id _ _); [|reflexivity].
    destruct (update_members _ _ _); reflexivity.
  - intros selected now. unfold delete_from_search.
    destruct selected; [|reflexivity].
    destruct (member_by_id _ _); [|exact I].
    destruct (update_members _ _ _); reflexivity.
  - unfold search_member. destruct (negb _); [reflexivity|].
    destruct (find _ _); reflexivity.
  - unfold search_member. destruct (negb _); [reflexivity|].
    destruct (find _ _); reflexivity.
Qed.

(** ** Updating a deactivated member *)

Lemma updated_nowhere (where_ : Member.row -> bool) (set : Member.row -> Member.row)
    (t : list Member.row) :
  (forall x, In x t -> where_ x = false) -> map (updated where_ set) t = t.
Proof.
  induction t as [|x t IH]; simpl; intros H; [reflexivity|].
  unfold updated at 1. rewrite (H x (or_introl eq_refl)).
  rewrite IH; [reflexivity|]. intros y Hy. apply H. right. exact Hy.
Qed.

(** [update_member] looks the member up without regard to [is_active] and
    updates with regard to it: on a member that is deactivated, a form that
    passes every check is answered [Success] and no row changes. *)
Theorem update_member_inactive_is_noop (u : string) (f : member_form) (now : datetime)
    (st : app) (r : Member.row) (base_fee : float) :
  In r (members (conn st)) ->
  Member.user_id r = u ->
  (forall x, In x (members (conn st)) -> Member.user_id x = u -> Member.is_active x = false) ->
  validate_form f = inr base_fee ->
  match photo_ext f with Some ext => photo_type_ok ext = true | None => True end ->
  update_member (Some u) f now st = (Success, commit (conn st) (current_member st)).
Proof.
  intros Hin Hu Hinactive V P. unfold update_member. rewrite V.
  assert (M : exists old, member_by_id u (members (conn st)) = Some old).
  { unfold member_by_id. destruct (find _ _) as [old|] eqn:F; [eauto|].
    exfalso. apply (find_none _ _ F) in Hin. apply String.eqb_neq in Hin. congruence. }
  destruct M as [old ->].
  assert (W : forall x, In x (members (conn st)) ->
                        String.eqb (Member.user_id x) u && Member.is_active x = false).
  { intros x Hx. destruct (String.eqb_spec (Member.user_id x) u) as [E|E]; [|reflexivity].
    rewrite (Hinactive x Hx E). reflexivity. }
  assert (U : forall photo,
             update_members (fun x => String.eqb (Member.user_id x) u && Member.is_active x)
               (set_from_form f base_fee (fee_formula base_fee (treadmill_var f))
                              (timestamp now) photo) (members (conn st))
             = Ok (members (conn st))).
  { intros photo. rewrite update_members_goes_through.
    - rewrite (updated_nowhere _ _ _ W). reflexivity.
    - intros x Hx Hw. rewrite (W x Hx) in Hw. discriminate. }
  assert (C : with_members (conn st) (members (conn st)) = conn st)
    by (destruct (conn st); reflexivity).
  destruct (photo_ext f) as [ext|]; [rewrite P|]; rewrite U, C; reflexivity.
Qed.

Lemma update_member_inactive_is_noop_witness :
  update_member (Some "1001") (form_1001 "15-day" "2025-01-31") (at_ 2024 7 2 9 0 0)
                gym_closed
  = (Success, commit (conn gym_closed) (current_member gym_closed)).
Proof.
  apply (update_member_inactive_is_noop "1001" _ _ gym_closed
           (set_inactive "2024-07-01 09:00:00" row_1001) 2000).
  - vm_compute. left. reflexivity.
  - reflexivity.
  - intros x [<-|[]] _. reflexivity.
  - vm_compute. reflexivity.
  - exact I.
Defined.

(** ** Deactivation *)

Lemma delete_member_Success (u : string) (now : datetime) (st st' : app) :
  delete_member (Some u) now st = (Success, st') ->
  st' = commit (with_members (conn st)
                  (map (updated (fun r => String.eqb (Member.user_id r) u)
                                (set_inactive (timestamp now)))
                       (members (conn st))))
               (current_member st).
Proof.
  unfold delete_member. destruct (member_by_id _ _); [|discriminate].
  destruct (update_members _ _ _) as [t|] eqn:U; [|discriminate].
  apply update_members_Ok in U as [-> _]. intros H. inversion H. reflexivity.
Qed.

Lemma deactivated_rows (u stamp : string) (t : list Member.row) (x : Member.row) :
  In x (map (updated (fun r => String.eqb (Member.user_id r) u) (set_inactive stamp)) t) ->
  Member.user_id x = u -> Member.is_active x = false.
Proof.
  intros Hx E. apply in_map_iff in Hx as [r [<- Hr]]. unfold updated in *.
  destruct (String.eqb_spec (Member.user_id r) u) as [Er|Er]; [reflexivity|].
  contradiction.
Qed.

(** After [delete_member] succeeds on a user id, no lookup returns a member
    with that user id: neither of the two searches, nor the member list, nor
    the View and Pay buttons, nor the expired-members report. *)
Theorem deactivated_member_is_hidden (u : string) (now : datetime) (st st' : app) :
  delete_member (Some u) now st = (Success, st') ->
  (forall v rows, search_members v st' = Some rows ->
                  forall x, In x rows -> fst (fst (fst x)) <> u)
  /\ (forall v r, fst (search_member v st') = Some r -> Member.user_id r <> u)
  /\ (forall r, In r (load_members st') -> Member.user_id r <> u)
  /\ view_search_result (Some u) st' = MemberNotFound
  /\ redirect_to_payment (Some u) st' = MemberNotFound
  /\ (forall month rows n, generate_expired_report month st' = Some (Report rows n) ->
                           forall x, In x rows -> e_user_id x <> u).
Proof.
  intros H. apply delete_member_Success in H. subst st'. simpl.
  set (t' := map _ (members (conn st))).
  assert (D : forall x, In x t' -> Member.is_active x = true -> Member.user_id x <> u).
  { intros x Hx Ha E. rewrite (deactivated_rows u _ _ x Hx E) in Ha. discriminate. }
  assert (A : active_member_by_id u t' = None).
  { unfold active_member_by_id. destruct (find _ _) as [x|] eqn:F; [|reflexivity].
    apply find_some in F as [Hx Hp]. apply andb_true_iff in Hp as [Hk Ha].
    apply String.eqb_eq in Hk. exfalso. exact (D x Hx Ha Hk). }
  repeat split.
  - intros v rows S x Hx.
    destruct (search_members_active v _ rows S x Hx) as (r & Hr & Ha & -> & _).
    simpl. exact (D r Hr Ha).
  - intros v r S. destruct (search_member_active v _ r S) as (Hr & Ha & _).
    exact (D r Hr Ha).
  - intros r Hr. unfold load_members in Hr. simpl in Hr.
    apply (Permutation_in _ (merge_sort_Permutation by_user_id _)) in Hr.
    apply filter_In in Hr as [Hr Ha]. exact (D r Hr Ha).
  - unfold view_search_result. simpl. fold t'. rewrite A. reflexivity.
  - unfold redirect_to_payment. simpl. fold t'. rewrite A. reflexivity.
  - intros month rows n G x Hx. unfold generate_expired_report in G.
    destruct (next_month_start month) as [end_date|]; [|discriminate].
    simpl in G. fold t' in G.
    destruct (map _ (List.filter (expired_before end_date) t')) as [|y l] eqn:E;
      [discriminate|].
    inversion G; subst rows. rewrite <- E in Hx.
    apply in_map_iff in Hx as [r [<- Hr]]. apply filter_In in Hr as [Hr Hp].
    unfold expired_before in Hp. apply andb_true_iff in Hp as [_ Ha].
    simpl. exact (D r Hr Ha).
Qed.

Lemma deactivated_member_is_hidden_witness :
  (forall v rows, search_members v gym_closed = Some rows ->
                  forall x, In x rows -> fst (fst (fst x)) <> "1001")
  /\ (forall v r, fst (search_member v gym_closed) = Some r -> Member.user_id r <> "1001")
  /\ (forall r, In r (load_members gym_closed) -> Member.user_id r <> "1001")
  /\ view_search_result (Some "1001") gym_closed = MemberNotFound
  /\ redirect_to_payment (Some "1001") gym_closed = MemberNotFound
  /\ (forall month rows n, generate_expired_report month gym_closed = Some (Report rows n) ->
                           forall x, In x rows -> e_user_id x <> "1001").
Proof.
  apply (deactivated_member_is_hidden "1001" (at_ 2024 7 1 9 0 0) gym_30 gym_closed).
  vm_compute. reflexivity.
Defined.

Lemma joined_rows_deactivated (p : Payment.row) (u stamp : string)
    (q : Member.row -> bool) (t : list Member.row) :
  (forall r, q (set_inactive stamp r) = q r) ->
  map (joined p)
      (List.filter q (map (updated (fun r => String.eqb (Member.user_id r) u)
                                   (set_inactive stamp)) t))
  = map (joined p) (List.filter q t).
Proof.
  intros Hq. induction t as [|r t IH]; simpl; [reflexivity|].
  assert (E : q (updated (fun r => String.eqb (Member.user_id r) u) (set_inactive stamp) r)
              = q r).
  { unfold updated. destruct (String.eqb _ _); [apply Hq | reflexivity]. }
  rewrite E. destruct (q r); simpl; rewrite IH; [|reflexivity].
  f_equal. unfold updated. destruct (String.eqb _ _); reflexivity.
Qed.

(** Deactivating a member deletes nothing of the ledger: the payments table
    is as before, so is the payment history of every user id, and so is every
    payment report, in which the payments of a deactivated member keep
    counting. *)
Theorem deactivation_keeps_payments (u : string) (now : datetime) (st st' : app) :
  delete_member (Some u) now st = (Success, st') ->
  payments (conn st') = payments (conn st)
  /\ (forall v, load_payment_history v st' = load_payment_history v st)
  /\ (forall report_type month sport,
         generate_payment_report report_type month sport st'
         = generate_payment_report report_type month sport st).
Proof.
  intros H. apply delete_member_Success in H. subst st'.
  split; [reflexivity|]. split; [reflexivity|].
  intros report_type month sport. unfold generate_payment_report.
  assert (E : payment_report_rows report_type month sport
                (conn (commit (with_members (conn st)
                         (map (updated (fun r => String.eqb (Member.user_id r) u)
                                       (set_inactive (timestamp now)))
                              (members (conn st)))) (current_member st)))
              = payment_report_rows report_type month sport (conn st)).
  { unfold payment_report_rows. simpl.
    induction (payments (conn st)) as [|p l IH]; simpl; [reflexivity|].
    rewrite IH. destruct (String.eqb (Payment.month p) month); [|reflexivity].
    rewrite joined_rows_deactivated; [reflexivity|].
    intros r. unfold kind_predicate. reflexivity. }
  rewrite E. reflexivity.
Qed.

Lemma deactivation_keeps_payments_witness :
  payments (conn two_members_closed) = payments (conn two_members)
  /\ (forall v, load_payment_history v two_members_closed = load_payment_history v two_members)
  /\ (forall report_type month sport,
         generate_payment_report report_type month sport two_members_closed
         = generate_payment_report report_type month sport two_members).
Proof.
  apply (deactivation_keeps_payments "1001" (at_ 2024 7 1 9 0 0)).
  vm_compute. reflexivity.
Defined.

(** ** The payments table along the handlers *)

(** What [record_payment] does to the payments table: nothing, unless it
    answers [Recorded], and then it appends one row and commits. *)
Lemma record_payment_payments amount_entry month membership_type now st r st' :
  record_payment amount_entry month membership_type now st = (r, st') ->
  (payments (conn st') = payments (conn st)
   /\ payments_seq (conn st') = payments_seq (conn st)
   /\ (disk st' = disk st)
   /\ forall per, r <> Recorded per)
  \/ (exists member amount per,
        r = Recorded per
        /\ current_member st = Some member
        /\ amount_entry = Number amount
        /\ (amount =? Member.total_fee member)%float = true
        /\ allocate_period membership_type (Member.user_id member) month (conn st)
           = Some per
        /\ payments (conn st')
           = (payments (conn st)
              ++ [payment_row (payments_seq (conn st) + 1) (Member.user_id member)
                              amount month per now])%list
        /\ payments_seq (conn st') = payments_seq (conn st) + 1
        /\ disk st' = conn st'
        /\ current_member st' = None).
Proof.
  unfold record_payment.
  destruct (current_member st) as [member|] eqn:Hcm;
    [|intros H; inversion H; subst; left; repeat split; discriminate].
  destruct amount_entry as [| |amount];
    try (intros H; inversion H; subst; left; repeat split; discriminate).
  destruct (amount <=? 0)%float;
    [intros H; inversion H; subst; left; repeat split; discriminate|].
  destruct (negb (re_month month));
    [intros H; inversion H; subst; left; repeat split; discriminate|].
  destruct (negb (nonempty membership_type));
    [intros H; inversion H; subst; left; repeat split; discriminate|].
  destruct (negb (amount =? Member.total_fee member)%float) eqn:Eq;
    [intros H; inversion H; subst; left; repeat split; discriminate|].
  apply negb_false_iff in Eq.
  destruct (if negb (String.eqb membership_type (Member.membership_type member)) then _ else _)
    as [t|]; [|intros H; inversion H; subst; left; repeat split; discriminate].
  change (allocate_period membership_type (Member.user_id member) month
            (conn (pending st (with_members (conn st) t))))
    with (allocate_period membership_type (Member.user_id member) month (conn st)).
  destruct (allocate_period _ _ _ (conn st)) as [per|] eqn:A;
    [|intros H; inversion H; subst; left; repeat split; discriminate].
  unfold insert_payment.
  destruct (_ && _);
    [|intros H; inversion H; subst; left; repeat split; discriminate].
  intros H. inversion H; subst; clear H. right.
  exists member, amount, per. repeat split; auto.
Qed.

Lemma handler_step_payments (st st' : app) :
  handler_step st st' ->
  (payments (conn st') = payments (conn st)
   /\ payments_seq (conn st') = payments_seq (conn st)
   /\ (disk st' = disk st \/ disk st' = conn st'))
  \/ (exists uid amount month per now,
        payment_key_taken uid month per (payments (conn st)) = false
        /\ (per = None \/ is_half per = true)
        /\ payments (conn st')
           = (payments (conn st)
              ++ [payment_row (payments_seq (conn st) + 1) uid amount month per now])%list
        /\ payments_seq (conn st') = payments_seq (conn st) + 1
        /\ disk st' = conn st').
Proof.
  intros [f now r H | sel f now r H | sel now r H | key r H | amount_entry month ty now r H].
  - left. unfold save_member in H.
    destruct (validate_form f); [inversion H; subst; auto|].
    destruct (match photo_ext f with Some _ => _ | None => _ end);
      [inversion H; subst; auto|].
    destruct (insert_member _ _); inversion H; subst; simpl; auto.
  - left. unfold update_member in H.
    destruct sel; [|inversion H; subst; auto].
    destruct (validate_form f); [inversion H; subst; auto|].
    destruct (member_by_id _ _); [|inversion H; subst; auto].
    destruct (match photo_ext f with Some _ => _ | None => _ end);
      [inversion H; subst; auto|].
    destruct (update_members _ _ _); inversion H; subst; simpl; auto.
  - left. unfold delete_member in H.
    destruct sel; [|inversion H; subst; auto].
    destruct (member_by_id _ _); [|inversion H; subst; auto].
    destruct (update_members _ _ _); inversion H; subst; simpl; auto.
  - left. unfold search_member in H.
    destruct (negb _); [inversion H; subst; auto|].
    destruct (find _ _); inversion H; subst; simpl; auto.
  - apply record_payment_payments in H
      as [(P & S & D & _) | (m & amount & per & _ & _ & _ & _ & A & P & S & D & _)].
    + left. auto.
    + right. exists (Member.user_id m), amount, month, per, now.
      repeat split; auto.
      * exact (allocated_period_free _ _ _ _ _ A).
      * unfold allocate_period in A. destruct (String.eqb ty "15-day").
        -- destruct (negb (period_in "first_half" _));
             [inversion A; right; reflexivity|].
           destruct (negb (period_in "second_half" _)); [|discriminate].
           inversion A. right. reflexivity.
        -- inversion A. left. reflexivity.
Qed.

(** The ledger is append-only: a handler call leaves every payment row as
    it was and in its place, and adds at most one row, whose id is the next
    of the AUTOINCREMENT counter; and a state in which no payment is pending
    is followed by one. *)
Theorem payments_append_only (st st' : app) :
  handler_step st st' ->
  (exists added,
      payments (conn st') = (payments (conn st) ++ added)%list
      /\ (List.length added <= 1)%nat
      /\ Forall (fun p => Payment.id p = payments_seq (conn st) + 1) added)
  /\ (payments (disk st) = payments (conn st) ->
      payments (disk st') = payments (conn st')).
Proof.
  intros H. apply handler_step_payments in H
    as [(P & S & D) | (uid & amount & month & per & now & _ & _ & P & S & D)].
  - split.
    + exists []. rewrite app_nil_r. repeat split; auto.
    + intros E. destruct D as [D|D]; rewrite D; congruence.
  - split.
    + eexists. split; [exact P|]. split; [simpl; lia|].
      constructor; [reflexivity | constructor].
    + intros _. rewrite D. reflexivity.
Qed.

Lemma payments_append_only_witness :
  let st := snd (search_member "1001" gym_15) in
  let st' := snd (record_payment (Number 2400) "2024-06" "15-day" (at_ 2024 6 3 9 5 7) st) in
  (exists added,
      payments (conn st') = (payments (conn st) ++ added)%list
      /\ (List.length added <= 1)%nat
      /\ Forall (fun p => Payment.id p = payments_seq (conn st) + 1) added)
  /\ (payments (disk st) = payments (conn st) ->
      payments (disk st') = payments (conn st')).
Proof.
  apply payments_append_only.
  apply (step_record_payment _ _ (Number 2400) "2024-06" "15-day" (at_ 2024 6 3 9 5 7)
                             (Recorded (Some "first_half"))).
  vm_compute. reflexivity.
Defined.

(** ** The constraints of the payments table are kept *)

Lemma half_key_free (uid mon x : string) (l : list Payment.row) :
  payment_key_taken uid mon (Some x) l = false -> ~ In (uid, mon, x) (half_keys l).
Proof.
  unfold payment_key_taken, half_keys. induction l as [|p l IH]; simpl; intros H; [tauto|].
  apply orb_false_iff in H as [Hp Hl]. intros Hin. apply in_app_or in Hin as [Hin|Hin].
  - destruct (Payment.period p) as [y|]; [|destruct Hin].
    destruct Hin as [E|[]]. inversion E; subst.
    rewrite !String.eqb_refl in Hp. discriminate.
  - exact (IH Hl Hin).
Qed.

Lemma half_keys_app (l l' : list Payment.row) :
  half_keys (l ++ l')%list = (half_keys l ++ half_keys l')%list.
Proof. unfold half_keys. apply flat_map_app. Qed.

Lemma NoDup_snoc {A : Type} (a : A) (l : list A) :
  List.NoDup l -> ~ In a l -> List.NoDup (l ++ [a])%list.
Proof.
  intros ND Hn. induction l as [|x l IH]; simpl.
  - constructor; [tauto | constructor].
  - inversion ND as [|? ? Hx ND']; subst. constructor.
    + intros H. apply in_app_or in H as [H|[H|[]]]; [exact (Hx H)|].
      apply Hn. left. symmetry. exact H.
    + apply IH; [exact ND'|]. intros H. apply Hn. right. exact H.
Qed.

Lemma payments_valid_step (st st' : app) :
  payments_valid (conn st) -> handler_step st st' -> payments_valid (conn st').
Proof.
  intros (N & B & K & P) H. apply handler_step_payments in H
    as [(E & S & _) | (uid & amount & month & per & now & T & Hper & E & S & _)];
    unfold payments_valid; rewrite E, S.
  - repeat split; assumption.
  - repeat split.
    + rewrite map_app. simpl. apply NoDup_snoc; [exact N|].
      intros Hin. apply in_map_iff in Hin as [p [Hid Hp]].
      rewrite List.Forall_forall in B. specialize (B p Hp). lia.
    + apply Forall_app. split.
      * revert B. apply List.Forall_impl. intros p Hp. lia.
      * constructor; [simpl; lia | constructor].
    + rewrite half_keys_app. simpl. destruct per as [x|]; simpl.
      * apply NoDup_snoc; [exact K|].
        exact (half_key_free _ _ _ _ T).
      * rewrite app_nil_r. exact K.
    + apply Forall_app. split; [exact P|].
      constructor; [simpl; exact Hper | constructor].
Qed.

Lemma paid_half_none (uid mon x : string) (l : list Payment.row) :
  ~ In (uid, mon, x) (half_keys l) ->
  List.filter (fun p => String.eqb (Payment.user_id p) uid
                        && String.eqb (Payment.month p) mon
                        && match Payment.period p with
                           | Some y => String.eqb y x
                           | None => false
                           end) l = [].
Proof.
  induction l as [|p l IH]; simpl; intros H; [reflexivity|].
  rewrite IH by (intros Hin; apply H, in_or_app; right; exact Hin).
  destruct (String.eqb_spec (Payment.user_id p) uid) as [E1|E1]; [|reflexivity].
  destruct (String.eqb_spec (Payment.month p) mon) as [E2|E2]; [|reflexivity].
  destruct (Payment.period p) as [y|] eqn:Ep; [|reflexivity]. simpl.
  destruct (String.eqb_spec y x) as [E3|E3]; [|reflexivity].
  exfalso. apply H, in_or_app. left. subst. left. reflexivity.
Qed.

Lemma paid_half_once (uid mon x : string) (db : database) :
  List.NoDup (half_keys (payments db)) ->
  (List.length (paid_half uid mon x db) <= 1)%nat.
Proof.
  unfold paid_half. induction (payments db) as [|p l IH]; simpl; intros ND; [lia|].
  apply NoDup_app_remove_l in ND as ND'.
  destruct (String.eqb (Payment.user_id p) uid && String.eqb (Payment.month p) mon
            && match Payment.period p with Some y => String.eqb y x | None => false end)
    eqn:M; [|apply IH, ND'].
  apply andb_true_iff in M as [M M3]. apply andb_true_iff in M as [M1 M2].
  destruct (Payment.period p) as [y|]; [|discriminate].
  apply String.eqb_eq in M1, M2, M3. subst.
  rewrite paid_half_none; [simpl; lia|].
  simpl in ND. inversion ND; assumption.
Qed.

Lemma halves_split (uid mon : string) (db : database) :
  List.length (List.filter is_half (existing_periods uid mon db))
  = (List.length (paid_half uid mon "first_half" db)
     + List.length (paid_half uid mon "second_half" db))%nat.
Proof.
  unfold existing_periods, paid_half.
  induction (payments db) as [|p l IH]; simpl; [reflexivity|].
  destruct (String.eqb (Payment.user_id p) uid && String.eqb (Payment.month p) mon);
    simpl; [|exact IH].
  destruct (Payment.period p) as [y|]; simpl; [|exact IH].
  destruct (String.eqb_spec y "first_half") as [E|E]; simpl.
  - subst y. simpl. rewrite IH. reflexivity.
  - destruct (String.eqb y "second_half"); simpl; rewrite IH; lia.
Qed.

(** Along any sequence of handler calls the constraints of the payments
    table are kept, so a member never holds two payments for the same half of
    a month, nor more than two half-month payments for a month. *)
Theorem half_months_at_most_two (st st' : app) :
  payments_valid (conn st) ->
  rtc handler_step st st' ->
  payments_valid (conn st')
  /\ forall uid mon,
       (List.length (paid_half uid mon "first_half" (conn st')) <= 1)%nat
       /\ (List.length (paid_half uid mon "second_half" (conn st')) <= 1)%nat
       /\ (List.length (List.filter is_half (existing_periods uid mon (conn st'))) <= 2)%nat.
Proof.
  intros V R.
  assert (V' : payments_valid (conn st')).
  { induction R as [|a b c Hab _ IH]; [exact V|].
    apply IH. exact (payments_valid_step a b V Hab). }
  split; [exact V'|]. intros uid mon.
  destruct V' as (_ & _ & K & _).
  pose proof (paid_half_once uid mon "first_half" _ K) as H1.
  pose proof (paid_half_once uid mon "second_half" _ K) as H2.
  rewrite halves_split. repeat split; lia.
Qed.

Lemma half_months_at_most_two_witness :
  payments_valid (conn june_paid)
  /\ forall uid mon,
       (List.length (paid_half uid mon "first_half" (conn june_paid)) <= 1)%nat
       /\ (List.length (paid_half uid mon "second_half" (conn june_paid)) <= 1)%nat
       /\ (List.length (List.filter is_half (existing_periods uid mon (conn june_paid))) <= 2)%nat.
Proof.
  apply (half_months_at_most_two gym_15 june_paid).
  - repeat split; vm_compute; constructor.
  - eapply rtc_l; [eapply step_search_member with (key := "1001");
                    apply surjective_pairing|].
    eapply rtc_l; [eapply step_record_payment with
                     (amount_entry := Number 2400) (month := "2024-06")
                     (membership_type := "15-day") (now := at_ 2024 6 3 9 5 7);
                   apply surjective_pairing|].
    eapply rtc_l; [eapply step_search_member with (key := "1001");
                    apply surjective_pairing|].
    eapply rtc_l; [eapply step_record_payment with
                     (amount_entry := Number 2400) (month := "2024-06")
                     (membership_type := "15-day") (now := at_ 2024 6 17 9 5 7);
                   apply surjective_pairing|].
    vm_compute. apply rtc_refl.
Defined.

(** ** Runs, and the answers they cannot give *)

Lemma running_store_ok_witness :
  let st := snd (save_member form_1002 (at_ 2024 7 5 10 0 0)
                   (snd (update_total_fees (at_ 2024 7 1 8 0 0) stale_fee))) in
  map (fun r => (Member.base_fee r, Member.has_treadmill r, Member.total_fee r))
      (members (disk st))
  = [(2000%float, true, 2400%float); (1500%float, false, 1500%float)]
  /\ store_ok (conn st) /\ store_ok (disk st).
Proof.
  cbv zeta. split; [vm_compute; reflexivity|]. apply running_store_ok.
  eapply run_step.
  - apply (run_started (conn stale_fee) (at_ 2024 7 1 8 0 0)
                       (snd (update_total_fees (at_ 2024 7 1 8 0 0) stale_fee))).
    + repeat split; vm_compute;
        repeat (constructor; try (intros []; fail)).
    + vm_compute. reflexivity.
  - eapply step_save_member with (f := form_1002) (now := at_ 2024 7 5 10 0 0).
    apply surjective_pairing.
Defined.

Lemma duplicate_payment_unreachable_witness :
  fst (record_payment (Number 2400) "2024-06" "15-day" (at_ 2024 6 18 9 5 7)
                      (snd (search_member "1001" june_paid)))
  <> DuplicatePaymentError.
Proof.
  apply (duplicate_payment_unreachable (Number 2400) "2024-06" "15-day"
           (at_ 2024 6 18 9 5 7) (snd (search_member "1001" june_paid))).
  - vm_compute. repeat constructor.
  - vm_compute. reflexivity.
Defined.

Lemma expired_report_on_padded_dates_witness :
  generate_expired_report (pad4 2024 ++ "-" ++ pad2 6) two_members
  = Some (listing (map (expired_of (conn two_members))
                       (List.filter (expired_by_date 2024 6)
                                    (members (conn two_members))))).
Proof.
  apply (expired_report_on_padded_dates 2024 6 two_members); [lia | lia |].
  apply List.Forall_forall. intros r Hr. vm_compute in Hr.
  destruct Hr as [<-|[<-|[]]]; vm_compute; reflexivity.
Defined.

Lemma thirty_day_always_recorded_witness :
  record_payment (Number (Member.total_fee row_1001)) "2024-06" "30-day"
                 (at_ 2024 6 4 9 5 7)
                 (snd (search_member "1001"
                         (snd (RecordPayment "1001" 2400 "2024-06" "30-day"
                                 (at_ 2024 6 3 9 5 7) gym_30))))
  = (Recorded None,
     commit (paid (Member.user_id row_1001) (Member.total_fee row_1001) "2024-06" None
                  (at_ 2024 6 4 9 5 7)
                  (conn (snd (search_member "1001"
                                (snd (RecordPayment "1001" 2400 "2024-06" "30-day"
                                        (at_ 2024 6 3 9 5 7) gym_30))))))
            None).
Proof.
  apply (thirty_day_always_recorded _ row_1001); vm_compute; reflexivity.
Defined.

Lemma search_members_cnic_as_user_id_witness :
  search_members "1234567890123" gym_30
  = Some (map shown (List.filter (fun r => String.eqb (Member.user_id r) "1234567890123"
                                           && Member.is_active r)
                                 (members (conn gym_30)))).
Proof.
  apply (search_members_cnic_as_user_id "1234567890123" gym_30).
  vm_compute. reflexivity.
Defined.

(** ** The member bound on the payment tab *)

(** Deactivating a member who is bound on the payment tab leaves the
    binding in place: a payment of the fee of the bound row is then recorded
    for the member, who is no longer active. *)
Theorem payment_after_deactivation (st st' : app) (member : Member.row)
    (month : string) (now now' : datetime) :
  current_member st = Some member ->
  Member.membership_type member = "30-day" ->
  (0 <? Member.total_fee member)%float = true ->
  re_month month = true ->
  delete_member (Some (Member.user_id member)) now st = (Success, st') ->
  (forall r, In r (members (conn st')) ->
             Member.user_id r = Member.user_id member -> Member.is_active r = false)
  /\ record_payment (Number (Member.total_fee member)) month "30-day" now' st'
     = (Recorded None,
        commit (paid (Member.user_id member) (Member.total_fee member) month None now'
                     (conn st')) None).
Proof.
  intros Hcm Hty Hpos Hmonth Hdel.
  apply delete_member_Success in Hdel. subst st'.
  assert (Off : forall r,
             In r (members (conn (commit (with_members (conn st)
                     (map (updated (fun r => String.eqb (Member.user_id r)
                                                        (Member.user_id member))
                                   (set_inactive (timestamp now)))
                          (members (conn st)))) (current_member st)))) ->
             Member.user_id r = Member.user_id member -> Member.is_active r = false).
  { intros r Hr E. exact (deactivated_rows _ _ _ r Hr E). }
  split; [exact Off|].
  apply record_payment_recorded; try assumption; reflexivity.
Qed.

Lemma payment_after_deactivation_witness :
  let st := snd (search_member "1001" gym_30) in
  let st' := snd (delete_member (Some "1001") (at_ 2024 7 1 9 0 0) st) in
  (forall r, In r (members (conn st')) ->
             Member.user_id r = Member.user_id row_1001 -> Member.is_active r = false)
  /\ record_payment (Number (Member.total_fee row_1001)) "2024-07" "30-day"
                    (at_ 2024 7 2 9 0 0) st'
     = (Recorded None,
        commit (paid (Member.user_id row_1001) (Member.total_fee row_1001) "2024-07" None
                     (at_ 2024 7 2 9 0 0) (conn st')) None).
Proof.
  cbv zeta.
  apply (payment_after_deactivation (snd (search_member "1001" gym_30)) _ row_1001
           "2024-07" (at_ 2024 7 1 9 0 0) (at_ 2024 7 2 9 0 0));
    vm_compute; reflexivity.
Defined.

(** ** Listings in order *)

#[local] Instance text_le_total : Total text_le.
Proof.
  intros a b. unfold text_le.
  destruct (String.ltb b a) eqn:L; [right | left; reflexivity].
  destruct (String.ltb a b) eqn:L'; [|reflexivity].
  pose proof (ltb_trans _ _ _ L L') as T. rewrite ltb_irrefl in T. discriminate.
Qed.

#[local] Instance text_le_trans : Transitive text_le.
Proof.
  intros a b c. unfold text_le. intros Hab Hbc.
  destruct (String.ltb c a) eqn:L; [|reflexivity].
  destruct (ltb_total _ _ Hab) as [->|Lab]; [congruence|].
  rewrite (ltb_trans _ _ _ L Lab) in Hbc. discriminate.
Qed.

Lemma text_le_antisym (a b : string) : text_le a b -> text_le b a -> a = b.
Proof.
  unfold text_le. intros Hab Hba.
  destruct (ltb_total _ _ Hba) as [E|L]; [exact E | congruence].
Qed.

#[local] Instance by_user_id_total : Total by_user_id.
Proof. intros a b. apply text_le_total. Qed.

#[local] Instance by_user_id_trans : Transitive by_user_id.
Proof. intros a b c. apply text_le_trans. Qed.

#[local] Instance latest_first_total : Total latest_first.
Proof. intros a b. apply text_le_total. Qed.

#[local] Instance latest_first_trans : Transitive latest_first.
Proof. intros a b c H1 H2. exact (text_le_trans _ _ _ H2 H1). Qed.

Lemma strictly_by_user_id (l : list Member.row) :
  StronglySorted by_user_id l ->
  List.NoDup (map Member.user_id l) ->
  StronglySorted (fun a b => String.ltb (Member.user_id a) (Member.user_id b) = true) l.
Proof.
  induction 1 as [|a l S IH F]; intros ND; [constructor|].
  simpl in ND. inversion ND as [|? ? Hn ND']; subst.
  constructor; [exact (IH ND')|].
  rewrite List.Forall_forall in F |- *. intros b Hb.
  destruct (ltb_total _ _ (F b Hb)) as [E|L]; [|exact L].
  exfalso. apply Hn. rewrite <- E. apply in_map, Hb.
Qed.

(** The member list shows the active members and no others, each of them
    once, in strictly ascending order of the user id as a text. *)
Theorem load_members_listing (st : app) :
  List.NoDup (map Member.user_id (members (conn st))) ->
  (forall r, In r (load_members st)
             <-> In r (members (conn st)) /\ Member.is_active r = true)
  /\ List.length (load_members st)
     = List.length (List.filter Member.is_active (members (conn st)))
  /\ StronglySorted (fun a b => String.ltb (Member.user_id a) (Member.user_id b) = true)
                    (load_members st).
Proof.
  intros ND. unfold load_members.
  pose proof (merge_sort_Permutation by_user_id
                (List.filter Member.is_active (members (conn st)))) as P.
  split; [|split].
  - intros r. rewrite <- filter_In. split; intros H.
    + exact (Permutation_in _ P H).
    + exact (Permutation_in _ (Permutation_sym P) H).
  - exact (Permutation_length P).
  - apply strictly_by_user_id.
    + apply StronglySorted_merge_sort; exact _.
    + apply (Permutation_NoDup (Permutation_sym (Permutation_map Member.user_id P))).
      clear P. induction (members (conn st)) as [|r t IH]; simpl; [constructor|].
      simpl in ND. inversion ND as [|? ? Hn ND']; subst.
      destruct (Member.is_active r); simpl; [|exact (IH ND')].
      constructor; [|exact (IH ND')].
      intros Hin. apply Hn. apply in_map_iff in Hin as [x [E Hx]].
      apply filter_In in Hx as [Hx _]. rewrite <- E. apply in_map, Hx.
Qed.

Lemma load_members_listing_witness :
  (forall r, In r (load_members two_members_closed)
             <-> In r (members (conn two_members_closed)) /\ Member.is_active r = true)
  /\ List.length (load_members two_members_closed)
     = List.length (List.filter Member.is_active (members (conn two_members_closed)))
  /\ StronglySorted (fun a b => String.ltb (Member.user_id a) (Member.user_id b) = true)
                    (load_members two_members_closed).
Proof.
  apply (load_members_listing two_members_closed).
  vm_compute. repeat (constructor; try (intros []; fail)).
  intros [H|[]]. discriminate H.
Defined.

Lemma history_sorted (user_id : string) (st : app) :
  Permutation (load_payment_history user_id st)
              (List.filter (fun p => String.eqb (Payment.user_id p) user_id)
                           (payments (conn st)))
  /\ StronglySorted latest_first (load_payment_history user_id st).
Proof.
  unfold load_payment_history. split.
  - apply merge_sort_Permutation.
  - apply StronglySorted_merge_sort; exact _.
Qed.

(** The payment history of a member holds the payments of that member and
    no others, each of them once, and no row is followed by a row with a later
    payment date. *)
Theorem load_payment_history_newest_first (user_id : string) (st : app) :
  (forall p, In p (load_payment_history user_id st)
             <-> In p (payments (conn st)) /\ Payment.user_id p = user_id)
  /\ List.length (load_payment_history user_id st)
     = List.length (List.filter (fun p => String.eqb (Payment.user_id p) user_id)
                                (payments (conn st)))
  /\ StronglySorted (fun a b => String.ltb (Payment.payment_date a) (Payment.payment_date b)
                                = false)
                    (load_payment_history user_id st).
Proof.
  destruct (history_sorted user_id st) as [P S]. split; [|split].
  - intros p. rewrite <- String.eqb_eq.
    rewrite <- (filter_In (fun p => String.eqb (Payment.user_id p) user_id)).
    split; intros H.
    + exact (Permutation_in _ P H).
    + exact (Permutation_in _ (Permutation_sym P) H).
  - exact (Permutation_length P).
  - exact S.
Qed.

(** The last payment that the member overview shows beside a member is the
    one that the expired-members report shows: the first date of the history
    in descending order is the greatest date. *)
Theorem view_tab_last_payment (st : app) :
  map fst (load_view_tab st) = load_members st
  /\ Forall (fun x => snd x = last_payment_date (Member.user_id (fst x)) (conn st)
                      /\ snd x = e_last_payment (expired_of (conn st) (fst x)))
            (load_view_tab st).
Proof.
  unfold load_view_tab. split.
  - rewrite map_map. simpl. apply map_id.
  - apply Forall_map. apply List.Forall_forall. intros m _. simpl.
    assert (E : latest_payment (Member.user_id m) st
                = last_payment_date (Member.user_id m) (conn st)); [|split; exact E].
    generalize (Member.user_id m). clear m. intros u.
    destruct (history_sorted u st) as [P S].
    pose proof (last_payment_date_latest u (conn st)) as M. cbv zeta in M.
    unfold latest_payment.
    destruct (last_payment_date u (conn st)) as [s|].
    + destruct M as [Hin Hmax].
      pose proof (Permutation_map Payment.payment_date P) as Pd.
      apply (Permutation_in _ (Permutation_sym Pd)) in Hin.
      destruct (load_payment_history u st) as [|p l]; [destruct Hin|].
      simpl. f_equal. apply text_le_antisym; unfold text_le.
      * apply Hmax. apply (Permutation_in _ Pd). left. reflexivity.
      * destruct Hin as [<-|Hin]; [apply ltb_irrefl|].
        inversion S as [|? ? _ F]; subst. rewrite List.Forall_forall in F.
        apply in_map_iff in Hin as [q [<- Hq]]. exact (F q Hq).
    + apply map_eq_nil in M. rewrite M in P.
      apply Permutation_sym, Permutation_nil in P. rewrite P. reflexivity.
Qed.

(** ** Dates that the application writes *)

Lemma strptime_month_pad2 (m : Z) (rest : list ascii) :
  1 <= m <= 12 ->
  strptime_month (digit_char (m / 10) :: digit_char m :: "-"%char :: rest) = Some (m, rest).
Proof.
  intros H.
  assert (C : m = 1 \/ m = 2 \/ m = 3 \/ m = 4 \/ m = 5 \/ m = 6 \/ m = 7 \/ m = 8 \/ m = 9 \/ m = 10 \/ m = 11 \/ m = 12) by lia.
  repeat (destruct C as [->|C]; [reflexivity|]). subst m. reflexivity.
Qed.

Lemma strptime_day_pad2 (d : Z) :
  1 <= d <= 31 -> strptime_day [digit_char (d / 10); digit_char d] = Some d.
Proof.
  intros H.
  assert (C : d = 1 \/ d = 2 \/ d = 3 \/ d = 4 \/ d = 5 \/ d = 6 \/ d = 7 \/ d = 8 \/ d = 9 \/ d = 10 \/ d = 11 \/ d = 12 \/ d = 13 \/ d = 14 \/ d = 15 \/ d = 16 \/ d = 17 \/ d = 18 \/ d = 19 \/ d = 20 \/ d = 21 \/ d = 22 \/ d = 23 \/ d = 24 \/ d = 25 \/ d = 26 \/ d = 27 \/ d = 28 \/ d = 29 \/ d = 30 \/ d = 31) by lia.
  repeat (destruct C as [->|C]; [reflexivity|]). subst d. reflexivity.
Qed.

Lemma days_in_month_le (y m : Z) : days_in_month y m <= 31.
Proof.
  unfold days_in_month.
  destruct (m =? 2); [destruct (is_leap y); lia|].
  destruct (_ || _); lia.
Qed.

Lemma strptime_strftime (y m d : Z) :
  valid_ymd y m d = true -> 1000 <= y ->
  strptime (strftime_date y m d) = Some (y, m, d).
Proof.
  intros V Y. pose proof V as V'. unfold valid_ymd in V'.
  repeat (apply andb_true_iff in V' as [V' ?]).
  pose proof (days_in_month_le y m) as Hdim.
  assert (Hy : 1 <= y <= 9999) by lia.
  assert (Hm : 1 <= m <= 12) by lia.
  assert (Hd : 1 <= d <= 31) by lia.
  unfold strptime, strftime_date. rewrite (strftime_Y_pad4 y Y). unfold pad4, pad2.
  cbv [chars list_ascii_of_string String.append].
  destruct (digit_char_digit (y / 100 / 10)) as (D1 & _ & V1).
  destruct (digit_char_digit (y / 100)) as (D2 & _ & V2).
  destruct (digit_char_digit (y / 10)) as (D3 & _ & V3).
  destruct (digit_char_digit y) as (D4 & _ & V4).
  cbn [forallb]. rewrite D1, D2, D3, D4. cbn [andb].
  change (Ascii.eqb "-" "-") with true. cbv iota.
  rewrite (strptime_month_pad2 m _ Hm), (strptime_day_pad2 d Hd).
  assert (E : digits_val [digit_char (y / 100 / 10); digit_char (y / 100);
                          digit_char (y / 10); digit_char y] = y).
  { unfold digits_val. cbn [fold_left]. rewrite V1, V2, V3, V4.
    Z.to_euclidean_division_equations; lia. }
  rewrite E, V. reflexivity.
Qed.

(** The date of a payment.  With the clock on a date of the years 1000 to
    9999, the row that [record_payment] appends is dated with a text that
    reads back as the date of the clock: [validate_date] accepts it, and it
    is padded, so that it orders among such texts as its date does. *)
Theorem payment_date_reads_back (amount_entry : float_text)
    (month membership_type : string) (now : datetime) (st st' : app)
    (period : option string) :
  valid_ymd (dt_year now) (dt_month now) (dt_day now) = true ->
  1000 <= dt_year now ->
  record_payment amount_entry month membership_type now st = (Recorded period, st') ->
  exists p,
    payments (conn st') = (payments (conn st) ++ [p])%list
    /\ strptime (Payment.payment_date p) = Some (dt_year now, dt_month now, dt_day now)
    /\ validate_date (Payment.payment_date p) = true
    /\ padded (Payment.payment_date p) = true.
Proof.
  intros V Y H.
  apply record_payment_payments in H
    as [(_ & _ & _ & N) | (member & amount & per & _ & _ & _ & _ & _ & P & _)].
  - exfalso. exact (N period eq_refl).
  - eexists. split; [exact P|].
    pose proof (strptime_strftime _ _ _ V Y) as E.
    unfold validate_date, padded. cbn [Payment.payment_date payment_row].
    unfold today. rewrite E, String.eqb_refl. auto.
Qed.

Lemma payment_date_reads_back_witness :
  let now := at_ 2024 6 3 9 5 7 in
  let st := snd (search_member "1001" gym_30) in
  let st' := snd (record_payment (Number 2400) "2024-06" "30-day" now st) in
  exists p,
    payments (conn st') = (payments (conn st) ++ [p])%list
    /\ strptime (Payment.payment_date p) = Some (dt_year now, dt_month now, dt_day now)
    /\ validate_date (Payment.payment_date p) = true
    /\ padded (Payment.payment_date p) = true.
Proof.
  cbv zeta.
  apply (payment_date_reads_back (Number 2400) "2024-06" "30-day" (at_ 2024 6 3 9 5 7)
           (snd (search_member "1001" gym_30)) _ None).
  - vm_compute. reflexivity.
  - simpl. lia.
  - vm_compute. reflexivity.
Defined.

(** ** The pass over the fees, once it has run *)

Lemma reconcile_rows_at_rest (stamp : string) (t : list Member.row) : forall fetched,
  Forall (fun r => fee_consistent r = true) fetched ->
  reconcile_rows fetched stamp t = (true, t).
Proof.
  induction fetched as [|m rest IH]; intros F; [reflexivity|].
  inversion F as [|? ? Hm Hrest]; subst. simpl.
  unfold fee_consistent in Hm. rewrite derived_fee_formula in Hm. rewrite Hm. simpl.
  exact (IH Hrest).
Qed.

(** On a table whose rows satisfy the fee equation [update_total_fees]
    rewrites no row, time stamps included; so a pass that went through is not
    undone or redone by a second pass, whatever the clock reads then. *)
Theorem update_total_fees_idempotent (now now' : datetime) (st st' : app) :
  List.NoDup (map Member.user_id (members (conn st))) ->
  update_total_fees now st = (true, st') ->
  update_total_fees now' st' = (true, st').
Proof.
  intros ND H.
  destruct (update_total_fees_fee now st st' ND H) as [D F].
  unfold update_total_fees. rewrite (reconcile_rows_at_rest _ _ _ F).
  f_equal. destruct st' as [d c cm]. simpl in D. subst d.
  destruct c as [ms ps sq]. reflexivity.
Qed.

Lemma update_total_fees_idempotent_witness :
  update_total_fees (at_ 2024 7 2 8 0 0) (snd (update_total_fees (at_ 2024 7 1 8 0 0) stale_fee))
  = (true, snd (update_total_fees (at_ 2024 7 1 8 0 0) stale_fee)).
Proof.
  apply (update_total_fees_idempotent (at_ 2024 7 1 8 0 0) (at_ 2024 7 2 8 0 0) stale_fee).
  - vm_compute. repeat (constructor; try (intros []; fail)).
  - vm_compute. reflexivity.
Defined.

(** ** The payment reports by plan *)

Lemma plan_rows_split (p : Payment.row) (t : list Member.row) :
  Forall (fun r => member_row_ok r = true) t ->
  let rows report_type :=
    map (joined p)
        (List.filter (fun m => String.eqb (Payment.user_id p) (Member.user_id m)
                               && kind_predicate report_type None m) t) in
  List.length (rows "All Members")
  = (List.length (rows "30-Day Plan") + List.length (rows "15-Day Plan"))%nat.
Proof.
  cbv zeta. induction 1 as [|m t Hm _ IH]; [reflexivity|]. simpl.
  unfold member_row_ok, check_membership_type in Hm.
  apply andb_true_iff in Hm as [Hm _]. apply andb_true_iff in Hm as [Hm _].
  destruct (String.eqb (Payment.user_id p) (Member.user_id m)); simpl; [|exact IH].
  change (kind_predicate "All Members" None m) with true.
  change (kind_predicate "30-Day Plan" None m)
    with (String.eqb (Member.membership_type m) "30-day").
  change (kind_predicate "15-Day Plan" None m)
    with (String.eqb (Member.membership_type m) "15-day").
  destruct (String.eqb_spec (Member.membership_type m) "15-day") as [E|E].
  - rewrite E. simpl. rewrite IH. lia.
  - simpl in Hm. rewrite Hm. simpl. rewrite IH. lia.
Qed.

(** The reports by plan split the report on all members: with the CHECK
    constraint on [membership_type] in force, a payment row of a month is in
    the report of exactly one of the two plans, and the report on a sport
    category with the sport [All] is the report on all members. *)
Theorem plan_reports_split (month : string) (db : database) :
  Forall (fun r => member_row_ok r = true) (members db) ->
  List.length (payment_report_rows "All Members" month None db)
  = (List.length (payment_report_rows "30-Day Plan" month None db)
     + List.length (payment_report_rows "15-Day Plan" month None db))%nat
  /\ (forall x, In x (payment_report_rows "30-Day Plan" month None db) ->
                In x (payment_report_rows "15-Day Plan" month None db) -> False)
  /\ (forall x, In x (payment_report_rows "All Members" month None db)
                <-> In x (payment_report_rows "30-Day Plan" month None db)
                    \/ In x (payment_report_rows "15-Day Plan" month None db))
  /\ payment_report_rows "Sport Category" month (Some "All") db
     = payment_report_rows "All Members" month None db.
Proof.
  intros V.
  assert (In_rows : forall ty x,
            In x (payment_report_rows ty month None db) <->
            exists p m, In p (payments db) /\ In m (members db)
                        /\ String.eqb (Payment.month p) month = true
                        /\ String.eqb (Payment.user_id p) (Member.user_id m) = true
                        /\ kind_predicate ty None m = true /\ x = joined p m).
  { intros ty x. unfold payment_report_rows. rewrite in_flat_map. split.
    - intros [p [Hp Hx]]. destruct (String.eqb (Payment.month p) month) eqn:Em; [|destruct Hx].
      apply in_map_iff in Hx as [m [<- Hm]]. apply filter_In in Hm as [Hm Hk].
      apply andb_true_iff in Hk as [Hu Hk]. exists p, m. auto 10.
    - intros (p & m & Hp & Hm & Em & Hu & Hk & ->). exists p. split; [exact Hp|].
      rewrite Em. apply in_map. apply filter_In. split; [exact Hm|].
      rewrite Hu, Hk. reflexivity. }
  split; [|split; [|split]].
  - clear In_rows. unfold payment_report_rows.
    induction (payments db) as [|p ps IH]; [reflexivity|].
    simpl. rewrite !length_app, IH.
    destruct (String.eqb (Payment.month p) month); [|reflexivity].
    rewrite (plan_rows_split p (members db) V). lia.
  - intros x H30 H15.
    apply In_rows in H30 as (p & m & _ & _ & _ & _ & K30 & ->).
    apply In_rows in H15 as (p' & m' & _ & _ & _ & _ & K15 & E).
    change (String.eqb (Member.membership_type m) "30-day" = true) in K30.
    change (String.eqb (Member.membership_type m') "15-day" = true) in K15.
    apply String.eqb_eq in K30, K15.
    assert (Et : r_membership_type (joined p m) = r_membership_type (joined p' m'))
      by (rewrite E; reflexivity).
    simpl in Et. congruence.
  - intros x. rewrite !In_rows. split.
    + intros (p & m & Hp & Hm & Em & Hu & _ & ->).
      rewrite List.Forall_forall in V. pose proof (V m Hm) as Ok.
      unfold member_row_ok, check_membership_type in Ok.
      apply andb_true_iff in Ok as [Ok _]. apply andb_true_iff in Ok as [Ok _].
      apply orb_true_iff in Ok as [K|K]; [right | left]; exists p, m; auto 10.
    + intros [(p & m & Hp & Hm & Em & Hu & _ & ->)|(p & m & Hp & Hm & Em & Hu & _ & ->)];
        exists p, m; auto 10.
  - reflexivity.
Qed.

Lemma plan_reports_split_witness :
  List.length (payment_report_rows "All Members" "2024-06" None (conn two_members))
  = (List.length (payment_report_rows "30-Day Plan" "2024-06" None (conn two_members))
     + List.length (payment_report_rows "15-Day Plan" "2024-06" None (conn two_members)))%nat
  /\ (forall x, In x (payment_report_rows "30-Day Plan" "2024-06" None (conn two_members)) ->
                In x (payment_report_rows "15-Day Plan" "2024-06" None (conn two_members)) ->
                False)
  /\ (forall x, In x (payment_report_rows "All Members" "2024-06" None (conn two_members))
                <-> In x (payment_report_rows "30-Day Plan" "2024-06" None (conn two_members))
                    \/ In x (payment_report_rows "15-Day Plan" "2024-06" None
                                                 (conn two_members)))
  /\ payment_report_rows "Sport Category" "2024-06" (Some "All") (conn two_members)
     = payment_report_rows "All Members" "2024-06" None (conn two_members).
Proof.
  apply (plan_reports_split "2024-06" (conn two_members)).
  vm_compute. repeat constructor.
Defined.

(** ** The report tab: what is shown and what is exported *)

(** On the screen every value of a payment report stands under its column.
    In the export the headers of a report on a sport category are one more
    than the values of a row: from the sixth column on each value stands
    under the header of the column before, the amount under [Plan], and the
    header [Treadmill] has no value.  For the other reports the headers are
    the columns of the screen. *)
Theorem export_payment_report_columns (report_type : string) (row : report_row) :
  let shown := combine (payment_columns report_type) (payment_cells report_type row) in
  let written := combine (payment_headers report_type) (payment_cells report_type row) in
  List.length (payment_columns report_type) = List.length (payment_cells report_type row)
  /\ In ("Plan", Text (r_membership_type row)) shown
  /\ In ("Amount", Rs (r_amount row)) shown
  /\ if String.eqb report_type "Sport Category"
     then List.length (payment_headers report_type)
          = S (List.length (payment_cells report_type row))
          /\ In ("Sport", Text (r_membership_type row)) written
          /\ In ("Plan", Rs (r_amount row)) written
          /\ In ("Amount", Text (r_payment_date row)) written
          /\ (forall c, ~ In ("Treadmill", c) written)
     else payment_headers report_type = payment_columns report_type.
Proof.
  cbv zeta. unfold payment_columns, payment_headers, payment_cells.
  destruct (String.eqb report_type "Sport Category"); simpl.
  - repeat split; auto 12.
    intros c H. repeat (destruct H as [H|H]; [discriminate H|]). exact H.
  - repeat split; auto 12.
Qed.

(** What [export_report] writes after [generate_report]: the rows on the
    screen when the report has rows; when the report is empty or its
    generation raises, the screen is left without rows and the export still
    writes the report generated before. *)
Theorem export_report_after_generate (report_type month sport_var_report : string)
    (st : app) (tab : report_tab) :
  let result := generate_report report_type month sport_var_report st tab in
  match fst result with
  | Shown =>
      report_tree (snd result) <> []
      /\ option_map snd (export_report (snd result)) = Some (report_tree (snd result))
  | Empty | Raised =>
      report_tree (snd result) = []
      /\ export_report (snd result) = export_report tab
  | Warned => snd result = tab
  end.
Proof.
  cbv zeta. unfold generate_report.
  destruct (negb (nonempty report_type) || negb (nonempty month)); [reflexivity|].
  destruct (String.eqb report_type "Expired Members").
  - unfold generate_expired_report.
    destruct (next_month_start month); [|split; reflexivity].
    destruct (map _ _) as [|r data] eqn:D; simpl; [split; reflexivity|].
    split; [discriminate | reflexivity].
  - unfold generate_payment_report.
    destruct (payment_report_rows _ _ _ _) as [|r data]; simpl; [split; reflexivity|].
    split; [discriminate | reflexivity].
Qed.

(** ** The months of the report tab *)

Lemma month_cases (m : Z) : 1 <= m <= 12 -> m = 1 \/ m = 2 \/ m = 3 \/ m = 4 \/ m = 5 \/ m = 6 \/ m = 7 \/ m = 8 \/ m = 9 \/ m = 10 \/ m = 11 \/ m = 12.
Proof. lia. Qed.

Lemma days_in_month_ge (y m : Z) : 28 <= days_in_month y m.
Proof.
  unfold days_in_month.
  destruct (m =? 2); [destruct (is_leap y); lia|].
  destruct (_ || _); lia.
Qed.

Lemma days_before_month_succ (y m : Z) :
  1 <= m <= 11 ->
  days_before_month y (m + 1) = days_before_month y m + days_in_month y m.
Proof.
  intros H. assert (C : 1 <= m <= 12) by lia. apply month_cases in C.
  unfold days_before_month, range, days_in_month. generalize (is_leap y). intros b.
  repeat (destruct C as [->|C]; [destruct b; reflexivity|]).
  lia.
Qed.

Lemma days_before_december (y : Z) : 334 <= days_before_month y 12.
Proof.
  unfold days_before_month, range, days_in_month. generalize (is_leap y). intros b.
  destruct b; vm_compute; discriminate.
Qed.

Lemma days_before_january (y : Z) : days_before_month y 1 = 0.
Proof. reflexivity. Qed.

Lemma days_in_december (y : Z) : days_in_month y 12 = 31.
Proof. reflexivity. Qed.

(** Up to 360 days on from a date: the year is the same or the next. *)
Lemma next_days (y m d : Z) (k : nat) :
  valid_md (y, m, d) -> (k <= 360)%nat ->
  let date := Nat.iter k next_day (y, m, d) in
  valid_md date
  /\ ((fst (fst date) = y /\ day_of_year date = day_of_year (y, m, d) + Z.of_nat k)
      \/ (fst (fst date) = y + 1 /\ day_of_year date <= Z.of_nat k)).
Proof.
  intros V. cbv zeta. induction k as [|k IH]; intros Hk.
  - simpl. split; [exact V|]. left. split; [reflexivity | lia].
  - specialize (IH ltac:(lia)). rewrite Nat.iter_succ.
    destruct (Nat.iter k next_day (y, m, d)) as [[y' m'] d'].
    destruct IH as [[Hm Hd] IH]. cbn [fst day_of_year] in IH.
    unfold next_day. pose proof (days_in_month_ge y' m') as G.
    destruct (Z.ltb_spec d' (days_in_month y' m')) as [L|L].
    + cbn [valid_md fst day_of_year]. split; [lia|]. lia.
    + destruct (Z.ltb_spec m' 12) as [L'|L'].
      * pose proof (days_before_month_succ y' m' ltac:(lia)) as S.
        pose proof (days_in_month_ge y' (m' + 1)) as G'.
        cbn [valid_md fst day_of_year]. split; [lia|]. lia.
      * assert (m' = 12) by lia. subst m'.
        pose proof (days_before_december y') as D. rewrite days_in_december in *.
        pose proof (days_before_january (y' + 1)) as J.
        cbn [valid_md fst day_of_year]. split; [vm_compute; intuition discriminate|].
        rewrite J. right. lia.
Qed.

(** Up to 360 days back from a date: the year is the same or the one before. *)
Lemma prev_days (y m d : Z) (k : nat) :
  valid_md (y, m, d) -> (k <= 360)%nat ->
  let date := Nat.iter k prev_day (y, m, d) in
  valid_md date
  /\ ((fst (fst date) = y /\ day_of_year date = day_of_year (y, m, d) - Z.of_nat k)
      \/ (fst (fst date) = y - 1 /\ 366 - Z.of_nat k <= day_of_year date)).
Proof.
  intros V. cbv zeta. induction k as [|k IH]; intros Hk.
  - simpl. split; [exact V|]. left. split; [reflexivity | lia].
  - specialize (IH ltac:(lia)). rewrite Nat.iter_succ.
    destruct (Nat.iter k prev_day (y, m, d)) as [[y' m'] d'].
    destruct IH as [[Hm Hd] IH]. cbn [fst day_of_year] in IH.
    unfold prev_day.
    destruct (Z.ltb_spec 1 d') as [L|L].
    + cbn [valid_md fst day_of_year]. split; [lia|]. lia.
    + destruct (Z.ltb_spec 1 m') as [L'|L'].
      * pose proof (days_before_month_succ y' (m' - 1) ltac:(lia)) as S.
        replace (m' - 1 + 1) with m' in S by lia.
        pose proof (days_in_month_ge y' (m' - 1)) as G'.
        cbn [valid_md fst day_of_year]. split; [lia|]. lia.
      * assert (m' = 1) by lia. subst m'.
        pose proof (days_before_december (y' - 1)) as D.
        pose proof (days_before_january y') as J.
        cbn [valid_md fst day_of_year]. split; [vm_compute; intuition discriminate|].
        rewrite J in IH. lia.
Qed.

Lemma add_days_returns (y m d i : Z) :
  valid_md (y, m, d) -> 2 <= y <= 9998 -> -12 <= i <= 12 ->
  exists y' m' d', add_days (30 * i) (y, m, d) = Some (y', m', d').
Proof.
  intros V Hy Hi. unfold add_days.
  destruct (Z.leb_spec 0 (30 * i)) as [P|P].
  - pose proof (next_days y m d (Z.to_nat (30 * i)) V ltac:(lia)) as N. cbv zeta in N.
    destruct (Nat.iter _ next_day _) as [[y' m'] d']. cbn [fst] in N.
    destruct N as [_ N]. exists y', m', d'.
    replace ((1 <=? y') && (y' <=? 9999)) with true; [reflexivity|].
    symmetry. apply andb_true_iff. split; [apply Z.leb_le | apply Z.leb_le]; lia.
  - pose proof (prev_days y m d (Z.to_nat (- (30 * i))) V ltac:(lia)) as N. cbv zeta in N.
    destruct (Nat.iter _ prev_day _) as [[y' m'] d']. cbn [fst] in N.
    destruct N as [_ N]. exists y', m', d'.
    replace ((1 <=? y') && (y' <=? 9999)) with true; [reflexivity|].
    symmetry. apply andb_true_iff. split; [apply Z.leb_le | apply Z.leb_le]; lia.
Qed.

Lemma existsb_eqb_In (s : string) (l : list string) :
  existsb (String.eqb s) l = true <-> In s l.
Proof.
  rewrite existsb_exists. split.
  - intros [x [Hx E]]. apply String.eqb_eq in E. subst. exact Hx.
  - intros H. exists s. split; [exact H | apply String.eqb_refl].
Qed.

Lemma append_months_spec (current : Z * Z * Z) : forall offsets months out,
  append_months current offsets months = Some out ->
  (List.NoDup months -> List.NoDup out)
  /\ (forall s, In s months -> In s out)
  /\ (forall i, In i offsets ->
        exists y m d, add_days (30 * i) current = Some (y, m, d)
                      /\ In (strftime_month y m) out)
  /\ (forall s, In s out ->
        In s months
        \/ exists i y m d, In i offsets /\ add_days (30 * i) current = Some (y, m, d)
                           /\ s = strftime_month y m).
Proof.
  induction offsets as [|i rest IH]; cbn [append_months]; intros months out H.
  - inversion H; subst. repeat split; auto. intros i [].
  - destruct (add_days (30 * i) current) as [[[y m] d]|] eqn:A; [|discriminate].
    cbv zeta in H.
    destruct (existsb (String.eqb (strftime_month y m)) months) eqn:E;
      apply IH in H as (ND & Keep & New & Only).
    + apply existsb_eqb_In in E. repeat split.
      * exact ND.
      * exact Keep.
      * intros j [<-|Hj]; [|exact (New j Hj)].
        exists y, m, d. split; [exact A | exact (Keep _ E)].
      * intros s Hs. destruct (Only s Hs) as [Hm|(j & y' & m' & d' & Hj & Aj & ->)];
          [left; exact Hm | right]. exists j, y', m', d'. simpl. auto.
    + assert (N : ~ In (strftime_month y m) months).
      { intros Hin. apply existsb_eqb_In in Hin. congruence. }
      repeat split.
      * intros NDm. apply ND. apply NoDup_snoc; assumption.
      * intros s Hs. apply Keep, in_or_app. left. exact Hs.
      * intros j [<-|Hj]; [|exact (New j Hj)].
        exists y, m, d. split; [exact A|]. apply Keep, in_or_app. right. left. reflexivity.
      * intros s Hs. destruct (Only s Hs) as [Hm|(j & y' & m' & d' & Hj & Aj & ->)].
        -- apply in_app_or in Hm as [Hm|[<-|[]]]; [left; exact Hm | right].
           exists i, y, m, d. simpl. auto.
        -- right. exists j, y', m', d'. simpl. auto.
Qed.

Lemma append_months_returns (current : Z * Z * Z) : forall offsets months,
  Forall (fun i => exists y m d, add_days (30 * i) current = Some (y, m, d)) offsets ->
  exists out, append_months current offsets months = Some out.
Proof.
  induction offsets as [|i rest IH]; cbn [append_months]; intros months F.
  - exists months. reflexivity.
  - inversion F as [|? ? (y & m & d & A) Frest]; subst. rewrite A. apply IH, Frest.
Qed.

Lemma strictly_sorted (l : list string) :
  StronglySorted text_le l -> List.NoDup l ->
  StronglySorted (fun a b => String.ltb a b = true) l.
Proof.
  induction 1 as [|a l S IH F]; intros ND; [constructor|].
  inversion ND as [|? ? Hn ND']; subst.
  constructor; [exact (IH ND')|].
  rewrite List.Forall_forall in F |- *. intros b Hb.
  destruct (ltb_total _ _ (F b Hb)) as [E|L]; [|exact L].
  exfalso. apply Hn. rewrite <- E. exact Hb.
Qed.

(** For a clock that reads a date of the years 2 to 9998,
    [get_available_months] returns a list of months in strictly ascending
    order, so without duplicates, that holds the month of every payment and
    the current month, and besides the months of the payments only months
    that lie a multiple of 30 days, up to 360, from the current date. *)
Theorem get_available_months_listing (now : datetime) (st : app) :
  valid_ymd (dt_year now) (dt_month now) (dt_day now) = true ->
  2 <= dt_year now <= 9998 ->
  exists months,
    get_available_months now st = Some months
    /\ StronglySorted (fun a b => String.ltb a b = true) months
    /\ (forall p, In p (payments (conn st)) -> In (Payment.month p) months)
    /\ In (strftime_month (dt_year now) (dt_month now)) months
    /\ (forall s, In s months ->
          (exists p, In p (payments (conn st)) /\ Payment.month p = s)
          \/ exists i y m d,
               -12 <= i <= 12
               /\ add_days (30 * i) (dt_year now, dt_month now, dt_day now) = Some (y, m, d)
               /\ s = strftime_month y m).
Proof.
  intros V Hy. unfold get_available_months.
  set (current := (dt_year now, dt_month now, dt_day now)).
  set (stored := merge_sort text_le (remove_dups (map Payment.month (payments (conn st))))).
  assert (Vmd : valid_md current).
  { unfold valid_ymd in V. repeat (apply andb_true_iff in V as [V ?]).
    unfold current, valid_md. lia. }
  assert (R : forall i, In i (range (-12) 13) <-> -12 <= i <= 12).
  { intros i. unfold range. rewrite in_map_iff. split.
    - intros [k [<- Hk]]. apply in_seq in Hk. simpl in Hk. lia.
    - intros Hi. exists (Z.to_nat (i + 12)). split; [lia|]. apply in_seq. simpl. lia. }
  assert (Stored : forall s, In s stored <-> exists p, In p (payments (conn st))
                                                       /\ Payment.month p = s).
  { intros s. unfold stored.
    pose proof (merge_sort_Permutation text_le
                  (remove_dups (map Payment.month (payments (conn st))))) as P.
    split.
    - intros H. apply (Permutation_in _ P) in H.
      apply list_elem_of_In, elem_of_remove_dups, list_elem_of_In, in_map_iff in H.
      destruct H as [p [E Hp]]. exists p. auto.
    - intros [p [Hp <-]]. apply (Permutation_in _ (Permutation_sym P)).
      apply list_elem_of_In, elem_of_remove_dups, list_elem_of_In, in_map, Hp. }
  assert (NDs : List.NoDup stored).
  { unfold stored. apply NoDup_ListNoDup. rewrite merge_sort_Permutation.
    apply NoDup_remove_dups. }
  destruct (append_months_returns current (range (-12) 13) stored) as [out A].
  { apply List.Forall_forall. intros i Hi. apply R in Hi.
    exact (add_days_returns _ _ _ i Vmd Hy Hi). }
  rewrite A. simpl. exists (merge_sort text_le out). split; [reflexivity|].
  apply append_months_spec in A as (ND & Keep & New & Only).
  pose proof (merge_sort_Permutation text_le out) as P.
  assert (M : forall s, In s (merge_sort text_le out) <-> In s out).
  { intros s. split; intros H; [exact (Permutation_in _ P H)|].
    exact (Permutation_in _ (Permutation_sym P) H). }
  split; [|split; [|split]].
  - apply strictly_sorted.
    + apply StronglySorted_merge_sort; exact _.
    + exact (Permutation_NoDup (Permutation_sym P) (ND NDs)).
  - intros p Hp. apply M, Keep, Stored. exists p. auto.
  - destruct (New 0 ltac:(apply R; lia)) as (y & m & d & A0 & Hin).
    apply M. unfold add_days, current in A0. simpl in A0.
    destruct ((1 <=? dt_year now) && (dt_year now <=? 9999)); [|discriminate].
    inversion A0; subst. exact Hin.
  - intros s Hs. apply M, Only in Hs as [Hs|(i & y & m & d & Hi & Ai & ->)].
    + left. apply Stored, Hs.
    + right. exists i, y, m, d. split; [apply R, Hi | auto].
Qed.

Lemma get_available_months_listing_witness :
  exists months,
    get_available_months (at_ 2024 6 18 10 0 0) two_members = Some months
    /\ StronglySorted (fun a b => String.ltb a b = true) months
    /\ (forall p, In p (payments (conn two_members)) -> In (Payment.month p) months)
    /\ In (strftime_month (dt_year (at_ 2024 6 18 10 0 0)) (dt_month (at_ 2024 6 18 10 0 0)))
          months
    /\ (forall s, In s months ->
          (exists p, In p (payments (conn two_members)) /\ Payment.month p = s)
          \/ exists i y m d,
               -12 <= i <= 12
               /\ add_days (30 * i)
                           (dt_year (at_ 2024 6 18 10 0 0), dt_month (at_ 2024 6 18 10 0 0),
                            dt_day (at_ 2024 6 18 10 0 0)) = Some (y, m, d)
               /\ s = strftime_month y m).
Proof.
  apply (get_available_months_listing (at_ 2024 6 18 10 0 0) two_members).
  - vm_compute. reflexivity.
  - simpl. lia.
Defined.

(** The list skips a month when no step of thirty days lands in it: on the
    31st of January 2023 February 2023 is not offered, though its neighbours
    are. *)
Example get_available_months_skips_february :
  match get_available_months (at_ 2023 1 31 10 0 0) fresh_app with
  | Some months =>
      existsb (String.eqb "2023-01") months = true
      /\ existsb (String.eqb "2023-02") months = false
      /\ existsb (String.eqb "2023-03") months = true
  | None => False
  end.
Proof. vm_compute. repeat split; reflexivity. Qed.

(** ** A member who changes user id *)

Lemma update_member_Success (old : string) (f : member_form) (now : datetime)
    (st st' : app) :
  update_member (Some old) f now st = (Success, st') ->
  exists base_fee photo,
    st' = commit (with_members (conn st)
                    (map (updated (fun r => String.eqb (Member.user_id r) old
                                            && Member.is_active r)
                                  (set_from_form f base_fee
                                     (fee_formula base_fee (treadmill_var f))
                                     (timestamp now) photo))
                         (members (conn st))))
                 (current_member st).
Proof.
  unfold update_member. destruct (validate_form f) as [w|base_fee]; [discriminate|].
  destruct (member_by_id _ _) as [o|]; [|discriminate].
  destruct (match photo_ext f with Some _ => _ | None => _ end) as [w|photo];
    [discriminate|].
  destruct (update_members _ _ _) as [t|] eqn:U; [|discriminate].
  apply update_members_Ok in U as [-> _]. intros H. inversion H.
  exists base_fee, photo. reflexivity.
Qed.

(** [update_member] can change the user id of a member, and the payments
    keep the old one: once an active member is given another user id, no row
    of [members] carries the old one, the payments are as they were, and no
    payment report, whatever its kind and month, has a row for a payment made
    under the old user id. *)
Theorem update_member_orphans_payments (old : string) (f : member_form)
    (now : datetime) (st st' : app) (r : Member.row) :
  List.NoDup (map Member.user_id (members (conn st))) ->
  In r (members (conn st)) ->
  Member.user_id r = old ->
  Member.is_active r = true ->
  f_user_id f <> old ->
  update_member (Some old) f now st = (Success, st') ->
  payments (conn st') = payments (conn st)
  /\ (forall x, In x (members (conn st')) -> Member.user_id x <> old)
  /\ (forall report_type month sport row p,
        In row (payment_report_rows report_type month sport (conn st')) ->
        In p (payments (conn st)) -> Payment.user_id p = old ->
        r_user_id row <> Payment.user_id p).
Proof.
  intros ND Hr Hu Ha Hnew H.
  apply update_member_Success in H as (base_fee & photo & ->).
  cbn [conn commit with_members members payments].
  assert (Gone : forall x,
            In x (map (updated (fun r => String.eqb (Member.user_id r) old
                                         && Member.is_active r)
                               (set_from_form f base_fee
                                  (fee_formula base_fee (treadmill_var f))
                                  (timestamp now) photo))
                      (members (conn st))) ->
            Member.user_id x <> old).
  { intros x Hx. apply in_map_iff in Hx as [o [<- Ho]]. unfold updated.
    destruct (String.eqb_spec (Member.user_id o) old) as [E|E]; simpl.
    - assert (o = r).
      { apply (NoDup_map_eq Member.user_id (members (conn st))); auto. congruence. }
      subst o. rewrite Ha. simpl. exact Hnew.
    - exact E. }
  split; [reflexivity | split; [exact Gone|]].
  intros report_type month sport row p Hrow _ Hp E.
  unfold payment_report_rows in Hrow. cbn [members payments with_members] in Hrow.
  apply in_flat_map in Hrow as [q [_ Hrow]].
  destruct (String.eqb (Payment.month q) month); [|destruct Hrow].
  apply in_map_iff in Hrow as [m [<- Hm]]. apply filter_In in Hm as [Hm _].
  simpl in E. apply (Gone m Hm). congruence.
Qed.

Lemma update_member_orphans_payments_witness :
  payments (conn renumbered) = payments (conn june_paid)
  /\ (forall x, In x (members (conn renumbered)) -> Member.user_id x <> "1001")
  /\ (forall report_type month sport row p,
        In row (payment_report_rows report_type month sport (conn renumbered)) ->
        In p (payments (conn june_paid)) -> Payment.user_id p = "1001" ->
        r_user_id row <> Payment.user_id p).
Proof.
  apply (update_member_orphans_payments "1001" form_2001 (at_ 2024 6 20 9 0 0)
           june_paid renumbered
           (form_row (form_1001 "15-day" "2024-06-30") 2000 2400 true
                     "2024-06-01 09:00:00" None)).
  - vm_compute. repeat (constructor; try (intros []; fail)).
  - vm_compute. left. reflexivity.
  - reflexivity.
  - reflexivity.
  - discriminate.
  - vm_compute. reflexivity.
Defined.

(** The payments of June 2024 of member 1001 are in the report before the
    change of user id and in none after it. *)
Example renumbered_report_is_empty :
  List.length (payment_report_rows "All Members" "2024-06" None (conn june_paid)) = 2%nat
  /\ generate_payment_report "All Members" "2024-06" None renumbered = NoData
  /\ load_payment_history "2001" renumbered = [].
Proof. vm_compute. repeat split; reflexivity. Qed.

(** ** No way back from deactivation *)

Lemma handler_step_store_ok (st st' : app) :
  store_ok (conn st) /\ store_ok (disk st) ->
  handler_step st st' ->
  store_ok (conn st') /\ store_ok (disk st').
Proof.
  intros [C D] [f now r H | sel f now r H | sel now r H | key r H
               | amount_entry month ty now r H].
  - exact (save_member_run _ _ _ _ _ C D H).
  - exact (update_member_run _ _ _ _ _ _ C D H).
  - exact (delete_member_run _ _ _ _ _ C D H).
  - exact (search_member_run _ _ _ _ C D H).
  - exact (record_payment_run _ _ _ _ _ _ _ C D H).
Qed.

(** A row that is not active, with its two keys. *)
Lemma inactive_updated (w : Member.row -> bool) (s : Member.row -> Member.row)
    (t : list Member.row) (r : Member.row) :
  (forall x, Member.is_active x = false -> w x = true ->
             Member.user_id (s x) = Member.user_id x
             /\ Member.cnic (s x) = Member.cnic x
             /\ Member.is_active (s x) = false) ->
  In r t -> Member.is_active r = false ->
  exists r', In r' (map (updated w s) t)
             /\ Member.user_id r' = Member.user_id r
             /\ Member.cnic r' = Member.cnic r
             /\ Member.is_active r' = false.
Proof.
  intros K Hr Ha. exists (updated w s r). split; [apply in_map, Hr|].
  unfold updated. destruct (w r) eqn:W; [exact (K r Ha W) | auto].
Qed.

Lemma handler_step_inactive (st st' : app) (r : Member.row) :
  handler_step st st' ->
  In r (members (conn st)) -> Member.is_active r = false ->
  exists r', In r' (members (conn st'))
             /\ Member.user_id r' = Member.user_id r
             /\ Member.cnic r' = Member.cnic r
             /\ Member.is_active r' = false.
Proof.
  intros Hstep Hr Ha.
  assert (Same : forall st0, members (conn st0) = members (conn st) ->
            exists r', In r' (members (conn st0))
                       /\ Member.user_id r' = Member.user_id r
                       /\ Member.cnic r' = Member.cnic r
                       /\ Member.is_active r' = false).
  { intros st0 E. exists r. rewrite E. auto. }
  destruct Hstep as [f now a H | sel f now a H | sel now a H | key a H
                    | amount_entry month ty now a H].
  - unfold save_member in H.
    destruct (validate_form f); [inversion H; subst; auto|].
    destruct (match photo_ext f with Some _ => _ | None => _ end);
      [inversion H; subst; auto|].
    unfold insert_member in H. destruct (_ && _); inversion H; subst; [|auto].
    exists r. simpl. split; [apply in_or_app; left; exact Hr | auto].
  - destruct sel as [old|]; [|inversion H; subst; auto].
    destruct a; try (unfold update_member in H;
      destruct (validate_form f); [inversion H; subst; auto; fail|];
      destruct (member_by_id _ _); [|inversion H; subst; auto; fail];
      destruct (match photo_ext f with Some _ => _ | None => _ end);
        [inversion H; subst; auto; fail|];
      destruct (update_members _ _ _); inversion H; subst; auto; fail).
    apply update_member_Success in H as (base_fee & photo & ->). simpl.
    apply inactive_updated; [|exact Hr | exact Ha].
    intros x Hx W. rewrite Hx, andb_false_r in W. discriminate.
  - destruct sel as [u|]; [|inversion H; subst; auto].
    destruct a; try (unfold delete_member in H;
      destruct (member_by_id _ _); [|inversion H; subst; auto; fail];
      destruct (update_members _ _ _); inversion H; subst; auto; fail).
    apply delete_member_Success in H as ->. simpl.
    apply inactive_updated; [|exact Hr | exact Ha]. intros x Hx _. auto.
  - apply Same. unfold search_member in H.
    destruct (negb (nonempty key)); [inversion H; reflexivity|].
    destruct (find _ _); inversion H; reflexivity.
  - pose proof (record_payment_members amount_entry month ty now st) as M.
    rewrite H in M. cbv zeta in M. simpl in M. destruct M as [[E|[uid U]] _].
    + apply Same, E.
    + apply update_members_Ok in U as [-> _].
      apply inactive_updated; [|exact Hr | exact Ha]. intros x Hx _. auto.
Qed.

(** No handler reactivates a member.  Along any sequence of handler calls
    from a database at rest, a row that is deactivated stays in the table,
    deactivated, with its user id and its CNIC; and as both are keys, no
    active member ever carries one of them again. *)
Theorem deactivation_is_permanent (st st' : app) (r : Member.row) :
  store_ok (conn st) -> store_ok (disk st) ->
  rtc handler_step st st' ->
  In r (members (conn st)) -> Member.is_active r = false ->
  (exists r', In r' (members (conn st'))
              /\ Member.user_id r' = Member.user_id r
              /\ Member.cnic r' = Member.cnic r
              /\ Member.is_active r' = false)
  /\ (forall x, In x (members (conn st')) ->
                Member.user_id x = Member.user_id r \/ Member.cnic x = Member.cnic r ->
                Member.is_active x = false).
Proof.
  intros C D R. revert r.
  assert (Inv : (store_ok (conn st') /\ store_ok (disk st'))
                /\ forall r, In r (members (conn st)) -> Member.is_active r = false ->
                     exists r', In r' (members (conn st'))
                                /\ Member.user_id r' = Member.user_id r
                                /\ Member.cnic r' = Member.cnic r
                                /\ Member.is_active r' = false).
  { revert st' R. apply (rtc_ind_r (R := handler_step)
      (fun z => (store_ok (conn z) /\ store_ok (disk z))
                /\ forall r, In r (members (conn st)) -> Member.is_active r = false ->
                     exists r', In r' (members (conn z))
                                /\ Member.user_id r' = Member.user_id r
                                /\ Member.cnic r' = Member.cnic r
                                /\ Member.is_active r' = false)).
    - split; [split; assumption|]. intros r Hr Ha. exists r. auto.
    - intros y z _ Hyz [S IH].
      split; [exact (handler_step_store_ok y z S Hyz)|].
      intros r Hr Ha. destruct (IH r Hr Ha) as (r1 & H1 & U1 & N1 & A1).
      destruct (handler_step_inactive y z r1 Hyz H1 A1) as (r2 & H2 & U2 & N2 & A2).
      exists r2. repeat split; congruence. }
  destruct Inv as [[[(NDu & NDc & _) _] _] Inv].
  intros r Hr Ha. destruct (Inv r Hr Ha) as (r' & H' & U' & N' & A').
  split; [exists r'; auto|].
  intros x Hx [E|E].
  - rewrite (NoDup_map_eq Member.user_id _ x r' NDu Hx H'); [exact A' | congruence].
  - rewrite (NoDup_map_eq Member.cnic _ x r' NDc Hx H'); [exact A' | congruence].
Qed.

Lemma deactivation_is_permanent_witness :
  let st := gym_closed in
  let st' := snd (RecordPayment "1001" 2400 "2024-07" "30-day" (at_ 2024 7 2 9 0 0)
                    (snd (save_member form_1002 (at_ 2024 7 5 10 0 0) gym_closed))) in
  let r := set_inactive "2024-07-01 09:00:00" row_1001 in
  (exists r', In r' (members (conn st'))
              /\ Member.user_id r' = Member.user_id r
              /\ Member.cnic r' = Member.cnic r
              /\ Member.is_active r' = false)
  /\ (forall x, In x (members (conn st')) ->
                Member.user_id x = Member.user_id r \/ Member.cnic x = Member.cnic r ->
                Member.is_active x = false).
Proof.
  cbv zeta. apply (deactivation_is_permanent gym_closed).
  - repeat split; vm_compute; repeat (constructor; try (intros []; fail)).
  - repeat split; vm_compute; repeat (constructor; try (intros []; fail)).
  - eapply rtc_l; [eapply step_save_member with (f := form_1002)
                     (now := at_ 2024 7 5 10 0 0); apply surjective_pairing|].
    eapply rtc_l; [eapply step_search_member with (key := "1001");
                    apply surjective_pairing|].
    eapply rtc_l; [eapply step_record_payment with
                     (amount_entry := Number 2400) (month := "2024-07")
                     (membership_type := "30-day") (now := at_ 2024 7 2 9 0 0);
                   apply surjective_pairing|].
    apply rtc_refl.
  - vm_compute. left. reflexivity.
  - reflexivity.
Defined.

(** ** A base fee that is not a number *)

(** [float()] reads the text [nan], and a NaN passes the test
    [base_fee <= 0].  The INSERT then binds it as NULL, which [REAL NOT NULL]
    refuses: the registration is answered with the message of a duplicate key,
    on any table, and the database is as before. *)
Theorem save_member_nan_base_fee (f : member_form) (now : datetime) (st : app)
    (base_fee : float) :
  validate_form f = inr base_fee ->
  PrimFloat.is_nan base_fee = true ->
  match photo_ext f with Some ext => photo_type_ok ext = true | None => True end ->
  save_member f now st = (DuplicateKeyError, st).
Proof.
  intros V N P. unfold save_member. rewrite V.
  assert (Bad : forall photo total,
            insert_member (form_row f base_fee total true (timestamp now) photo)
                          (members (conn st)) = IntegrityError).
  { intros photo total. unfold insert_member, member_row_ok, real_not_null. simpl.
    rewrite N. simpl. rewrite andb_false_r. reflexivity. }
  destruct (photo_ext f) as [ext|]; [rewrite P|]; rewrite Bad; reflexivity.
Qed.

Lemma save_member_nan_base_fee_witness :
  save_member form_nan (at_ 2024 6 1 9 0 0) fresh_app = (DuplicateKeyError, fresh_app).
Proof.
  apply (save_member_nan_base_fee form_nan (at_ 2024 6 1 9 0 0) fresh_app nan).
  - vm_compute. reflexivity.
  - vm_compute. reflexivity.
  - exact I.
Defined.
